(** * python-data-analysis: the utilities of [src/utils.py] and the sample
    generator of [src/example_analysis.py], embedded and verified.

    Layout of the development:
    - [F64]: IEEE binary64 numbers as NumPy and Python use them, on top of the
      Standard Library's executable specification [SpecFloat];
    - [Py]: the fragments of Python the code relies on (exceptions, string
      suffix test, integer printing, [format(x, '.Nf')]);
    - [Pd]: the pandas data model (dtypes, Series, DataFrame) and the
      operations the code calls on it;
    - [Plt]: the matplotlib objects [plot_distributions] manipulates;
    - [Utils]: the functions of [src/utils.py];
    - [ExampleAnalysis]: [create_sample_data] of [src/example_analysis.py];
    - [SetupDev]: the set-up script [scripts/setup_dev.py];
    - [Pearson]: the correlation matrix as the glossary of the
      specification defines it;
    - the properties of the specification, stated and proved;
    - further properties of the code: its edges, its errors, and the
      functions composed as [main] composes them. *)

From Stdlib Require Import List String Ascii Bool ZArith Lia PeanoNat.
From Stdlib Require Import Floats.SpecFloat Numbers.DecimalString Numbers.DecimalPos.
From Stdlib Require Reals Lra.
Import ListNotations.

Set Implicit Arguments.
Local Open Scope string_scope.

(* ================================================================== *)
(** ** IEEE binary64 *)
(* ================================================================== *)

Module F64.

(** A NumPy [float64] (and a Python [float]): a binary64 number. *)
Definition t : Type := spec_float.

Definition prec : Z := 53.
Definition emax : Z := 1024.

Definition add : t -> t -> t := SFadd prec emax.
Definition sub : t -> t -> t := SFsub prec emax.
Definition mul : t -> t -> t := SFmul prec emax.
Definition div : t -> t -> t := SFdiv prec emax.

(** Conversion of an integer, as NumPy does when an [int64] or a Python
    [int] meets a [float64]: round to nearest, ties to even. *)
Definition of_Z (z : Z) : t := binary_normalize prec emax z 0 false.
Definition of_nat (n : nat) : t := of_Z (Z.of_nat n).

Definition is_nan (x : t) : bool :=
  match x with S754_nan => true | _ => false end.

Definition is_finite (x : t) : bool :=
  match x with S754_zero _ | S754_finite _ _ _ => true | _ => false end.

Definition is_infinite (x : t) : bool :=
  match x with S754_infinity _ => true | _ => false end.

(** [x <= y] and [x >= y] on floats: false as soon as one side is NaN. *)
Definition leb : t -> t -> bool := SFleb.
Definition geb (x y : t) : bool := leb y x.

(** The integer nearest to [num / den], ties to even ([den] positive). *)
Definition half_even (num den : Z) : Z :=
  let q := (num / den)%Z in
  let r := (num mod den)%Z in
  match (2 * r ?= den)%Z with
  | Lt => q
  | Gt => (q + 1)%Z
  | Eq => if Z.even q then q else (q + 1)%Z
  end.

(** [scaled_round m e p]: the integer nearest to [m * 2^e * 10^p], ties to
    even, computed exactly. *)
Definition scaled_round (m : positive) (e : Z) (p : nat) : Z :=
  let k := (Zpos m * 10 ^ Z.of_nat p)%Z in
  match e with
  | Zneg d => half_even k (2 ^ Zpos d)
  | _ => (k * 2 ^ e)%Z
  end.

(** [numpy.rint]: the nearest integer, ties to even, as a float. *)
Definition rint (x : t) : t :=
  match x with
  | S754_finite s m (Zneg d) =>
      let q := half_even (Zpos m) (2 ^ Zpos d) in
      binary_normalize prec emax (if s then - q else q)%Z 0 s
  | _ => x
  end.

(** [numpy.round(x, decimals)]: scale, round to an integer, scale back. *)
Definition round_decimals (decimals : nat) (x : t) : t :=
  let scale := of_Z (10 ^ Z.of_nat decimals) in
  div (rint (mul x scale)) scale.

End F64.

(* ================================================================== *)
(** ** The Python fragment *)
(* ================================================================== *)

Module Py.

(** The exceptions the modelled code can raise. *)
Inductive exn : Type :=
| ValueError (msg : string)
| ZeroDivisionError (msg : string)
| AttributeError (msg : string)
| KeyError (key : string)
| IndexError (msg : string)
| TypeError (msg : string)
| OSError (msg : string)   (* [OSError] or one of its subclasses *)
| RangeNotFinite.          (* the [ValueError] of [numpy.histogram]:
                              "supplied range of [a, b] is not finite",
                              [a] and [b] as numpy prints them *)

(** Computations with a mutable world [S] that either return or raise; the
    world reached at the moment of the exception is kept. *)
Definition M (S A : Type) : Type := S -> S * (exn + A).

Definition ret {S A} (a : A) : M S A := fun s => (s, inr a).
Definition raise {S A} (e : exn) : M S A := fun s => (s, inl e).
Definition bind {S A B} (c : M S A) (k : A -> M S B) : M S B :=
  fun s => match c s with
           | (s', inr a) => k a s'
           | (s', inl e) => (s', inl e)
           end.
Definition modify {S} (f : S -> S) : M S unit := fun s => (f s, inr tt).
(** Lift a pure result that may be an exception. *)
Definition lift {S A} (r : exn + A) : M S A := fun s => (s, r).

(** [for x in xs: body x] *)
Fixpoint for_each {S A} (xs : list A) (body : A -> M S unit) : M S unit :=
  match xs with
  | [] => ret tt
  | x :: xs' => bind (body x) (fun _ => for_each xs' body)
  end.

(** [enumerate(xs)] *)
Definition enumerate {A} (xs : list A) : list (nat * A) :=
  combine (seq 0 (List.length xs)) xs.

(** [a // b] and [a % b] on non-negative integers. *)
Definition floordiv (a b : nat) : exn + nat :=
  match b with
  | O => inl (ZeroDivisionError "integer division or modulo by zero")
  | _ => inr (a / b)
  end.
Definition modulo (a b : nat) : exn + nat :=
  match b with
  | O => inl (ZeroDivisionError "integer division or modulo by zero")
  | _ => inr (a mod b)
  end.

(** [str(n)] for integers. *)
Definition str_of_nat (n : nat) : string :=
  NilEmpty.string_of_uint (Nat.to_uint n).
Definition str_of_Z (z : Z) : string :=
  NilEmpty.string_of_int (Z.to_int z).

(** [str((a, b))] for a pair of integers, as [df.shape] prints. *)
Definition str_of_pair (a b : nat) : string :=
  "(" ++ str_of_nat a ++ ", " ++ str_of_nat b ++ ")".

(** [s.endswith(suffix)]: some tail of [s] is [suffix]. *)
Fixpoint endswith (s suffix : string) : bool :=
  if String.eqb s suffix then true
  else match s with
       | EmptyString => false
       | String _ s' => endswith s' suffix
       end.

(** *** [format(x, '.pf')] for a float *)

Definition digit (d : Z) : ascii := ascii_of_nat (48 + Z.to_nat d).

(** The last [p] decimal digits of [n], zero padded. *)
Fixpoint frac_digits (p : nat) (n : Z) : string :=
  match p with
  | O => EmptyString
  | S p' => frac_digits p' (n / 10) ++ String (digit (n mod 10)) EmptyString
  end.

(** [n] read as a fixed-point numeral with [p] fractional digits. *)
Definition fixed (p : nat) (n : Z) : string :=
  str_of_Z (n / 10 ^ Z.of_nat p) ++
  match p with
  | O => EmptyString
  | _ => "." ++ frac_digits p n
  end.

Definition sign (s : bool) : string := if s then "-" else "".

(** Python prints the decimal numeral with [p] fractional digits nearest to
    the exact binary value, ties to even. *)
Definition format_f (p : nat) (x : F64.t) : string :=
  match x with
  | S754_nan => "nan"
  | S754_infinity s => sign s ++ "inf"
  | S754_zero s => sign s ++ fixed p 0
  | S754_finite s m e => sign s ++ fixed p (F64.scaled_round m e p)
  end.

End Py.

Declare Scope py_scope.
Delimit Scope py_scope with py.
Notation "x <- c ;; k" := (Py.bind c (fun x => k))
  (at level 61, c at next level, right associativity) : py_scope.
Notation "c ;;; k" := (Py.bind c (fun _ => k))
  (at level 61, right associativity) : py_scope.

(* ================================================================== *)
(** ** The pandas data model *)
(* ================================================================== *)

Module Pd.

Inductive dtype : Type := float64 | int64 | bool_ | object_ | str_.

(** [str(dtype)] *)
Definition dtype_name (d : dtype) : string :=
  match d with
  | float64 => "float64"
  | int64 => "int64"
  | bool_ => "bool"
  | object_ => "object"
  | str_ => "str"
  end.

(** [np.number] covers the integer and floating dtypes, not [bool]. *)
Definition is_number (d : dtype) : bool :=
  match d with
  | float64 | int64 => true
  | bool_ | object_ | str_ => false
  end.

(** The values of a column.  A missing value is NaN in a float column and
    [None] in a column of labels; integer and boolean columns have none.
    Labels are kept as Python objects (dtype [object]) or, where pandas
    infers strings (its option [future.infer_string], the default from
    pandas 3 on), as strings (dtype [str]). *)
Inductive values : Type :=
| Floats (xs : list F64.t)
| Ints (xs : list Z)
| Bools (xs : list bool)
| Objects (xs : list (option string))
| Strings (xs : list (option string)).

(** The column pandas makes of an array of labels. *)
Definition labels (infer_string : bool) (xs : list string) : values :=
  if infer_string then Strings (map Some xs) else Objects (map Some xs).

Definition dtype_of (v : values) : dtype :=
  match v with
  | Floats _ => float64
  | Ints _ => int64
  | Bools _ => bool_
  | Objects _ => object_
  | Strings _ => str_
  end.

Definition size (v : values) : nat :=
  match v with
  | Floats xs => List.length xs
  | Ints xs => List.length xs
  | Bools xs => List.length xs
  | Objects xs => List.length xs
  | Strings xs => List.length xs
  end.

Definition count_if {A} (p : A -> bool) (xs : list A) : nat :=
  List.length (filter p xs).

(** [series.isnull().sum()] *)
Definition isnull_sum (v : values) : nat :=
  match v with
  | Floats xs => count_if F64.is_nan xs
  | Ints _ => 0
  | Bools _ => 0
  | Objects xs | Strings xs =>
      count_if (fun o => match o with None => true | Some _ => false end) xs
  end.

(** A table: the length of its index and its columns in insertion order. *)
Record DataFrame : Type := {
  index_len : nat;
  columns : list (string * values)
}.

(** The invariants pandas maintains (column labels are taken unique, as
    the data model of the specification states). *)
Definition well_formed (df : DataFrame) : Prop :=
  NoDup (map fst (columns df)) /\
  Forall (fun c => size (snd c) = index_len df) (columns df).

(** [len(df)], [df.shape], [df.columns] *)
Definition len (df : DataFrame) : nat := index_len df.
Definition shape (df : DataFrame) : nat * nat :=
  (index_len df, List.length (columns df)).
Definition column_names (df : DataFrame) : list string :=
  map fst (columns df).

(** [df[col]] *)
Definition getitem (df : DataFrame) (col : string) : Py.exn + values :=
  match find (fun c => String.eqb (fst c) col) (columns df) with
  | Some c => inr (snd c)
  | None => inl (Py.KeyError col)
  end.

(** [df.select_dtypes(include=[np.number])] *)
Definition select_dtypes_number (df : DataFrame) : DataFrame :=
  {| index_len := index_len df;
     columns := filter (fun c => is_number (dtype_of (snd c))) (columns df) |}.

(** [df[labels]] for a list of labels. *)
Fixpoint pick (df : DataFrame) (labels : list string)
  : Py.exn + list (string * values) :=
  match labels with
  | [] => inr []
  | l :: ls =>
      match getitem df l with
      | inl e => inl e
      | inr v => match pick df ls with
                 | inl e => inl e
                 | inr cs => inr ((l, v) :: cs)
                 end
      end
  end.
Definition getitem_list (df : DataFrame) (labels : list string)
  : Py.exn + DataFrame :=
  match pick df labels with
  | inl e => inl e
  | inr cs => inr {| index_len := index_len df; columns := cs |}
  end.

(** Tables that pandas derives and that the code only hands on to be
    printed: they are kept as the calls that produce them. *)
Inductive frame : Type :=
| Describe (df : DataFrame)          (* df.describe() *)
| Corr (df : DataFrame)              (* df.corr() *)
| Round (decimals : nat) (f : frame). (* f.round(decimals) *)

(** [df.describe()] refuses a table that has no column. *)
Definition describe (df : DataFrame) : Py.exn + frame :=
  match columns df with
  | [] => inl (Py.ValueError "Cannot describe a DataFrame without columns")
  | _ => inr (Describe df)
  end.

Definition corr (df : DataFrame) : frame := Corr df.

(** The rows [min] and [max] of [df.describe()]: the least and the
    greatest of the values of a numeric column that are not missing, as a
    float; NaN when there is none. *)
Inductive extreme : Type := Min | Max.

Definition pick_extreme (e : extreme) (x y : F64.t) : F64.t :=
  match e with
  | Min => if F64.leb x y then x else y
  | Max => if F64.leb y x then x else y
  end.

Definition extreme_of (e : extreme) (xs : list F64.t) : F64.t :=
  match filter (fun x => negb (F64.is_nan x)) xs with
  | [] => S754_nan
  | y :: ys => fold_left (pick_extreme e) ys y
  end.

Definition describe_extreme (e : extreme) (v : values) : option F64.t :=
  match v with
  | Floats xs => Some (extreme_of e xs)
  | Ints zs => Some (extreme_of e (map F64.of_Z zs))
  | Bools _ | Objects _ | Strings _ => None
  end.

(** The entry of a table of statistics in row [min] or [max] and column
    [col]: [describe()] keeps the numeric columns, [round] rounds every
    entry as [numpy.round] does; a correlation matrix has no such row. *)
Fixpoint frame_extreme (f : frame) (e : extreme) (col : string)
  : option F64.t :=
  match f with
  | Describe df =>
      match getitem df col with
      | inr v => describe_extreme e v
      | inl _ => None
      end
  | Round decimals f' =>
      option_map (F64.round_decimals decimals) (frame_extreme f' e col)
  | Corr _ => None
  end.

(** [df.isnull().sum()]: the missing count of each column, by label. *)
Definition isnull_sum_all (df : DataFrame) : list (string * nat) :=
  map (fun c => (fst c, isnull_sum (snd c))) (columns df).

End Pd.

(* ================================================================== *)
(** ** The matplotlib objects *)
(* ================================================================== *)

Module Plt.

(** One call of [series.hist(ax=ax, bins=..., alpha=...)]. *)
Record hist_call : Type := {
  hist_data : Pd.values;
  hist_bins : nat;
  hist_alpha : F64.t
}.

(** An [Axes] object: what has been drawn and set on it. *)
Record Axes : Type := {
  hists : list hist_call;
  title : option string;
  xlabel : option string;
  ylabel : option string;
  visible : bool
}.

Definition new_axes : Axes :=
  {| hists := []; title := None; xlabel := None; ylabel := None;
     visible := true |}.

(** The plotting state: the [Axes] objects of the current figure in
    creation (row-major) order, and what has been done with the figure.
    Arrays of axes hold references (positions in [objects]), so that a
    change made through one view of the array is seen through all. *)
Record state : Type := {
  objects : list Axes;
  figsize : option (nat * nat);
  tight : bool;
  shown : bool
}.

Definition initial : state :=
  {| objects := []; figsize := None; tight := false; shown := false |}.

(** What [plt.subplots] returns with its default [squeeze=True]: one
    object, a vector or a matrix of objects. *)
Inductive axes_array : Type :=
| One (r : nat)
| Arr1 (rs : list nat)
| Arr2 (rows : list (list nat)).

Definition grid (nrows ncols : nat) : list (list nat) :=
  map (fun r => map (fun c => r * ncols + c) (seq 0 ncols)) (seq 0 nrows).

Definition squeeze (nrows ncols : nat) : axes_array :=
  match nrows, ncols with
  | 1, 1 => One 0
  | 1, _ => Arr1 (seq 0 ncols)
  | _, 1 => Arr1 (seq 0 nrows)
  | _, _ => Arr2 (grid nrows ncols)
  end.

(** [fig, axes = plt.subplots(nrows, ncols, figsize=figsize)] *)
Definition subplots (nrows ncols : nat) (size : nat * nat)
  : Py.M state axes_array :=
  match nrows, ncols with
  | O, _ => Py.raise (Py.ValueError "Number of rows must be a positive integer")
  | _, O => Py.raise (Py.ValueError "Number of columns must be a positive integer")
  | _, _ =>
      fun _ =>
        ({| objects := repeat new_axes (nrows * ncols);
            figsize := Some size; tight := false; shown := false |},
         inr (squeeze nrows ncols))
  end.

(** [axes.reshape(1, -1)]: only arrays have the method. *)
Definition reshape_one_row (a : axes_array) : Py.exn + axes_array :=
  match a with
  | One _ => inl (Py.AttributeError "'Axes' object has no attribute 'reshape'")
  | Arr1 rs => inr (Arr2 [rs])
  | Arr2 rows => inr (Arr2 [List.concat rows])
  end.

(** [axes[row, col]] *)
Definition index2 (a : axes_array) (row col : nat) : Py.exn + nat :=
  match a with
  | One _ => inl (Py.TypeError "'Axes' object is not subscriptable")
  | Arr1 _ => inl (Py.IndexError "too many indices for array")
  | Arr2 rows =>
      match nth_error rows row with
      | None => inl (Py.IndexError "index is out of bounds for axis 0")
      | Some r =>
          match nth_error r col with
          | None => inl (Py.IndexError "index is out of bounds for axis 1")
          | Some ref => inr ref
          end
      end
  end.

Fixpoint update {A} (i : nat) (f : A -> A) (xs : list A) : list A :=
  match xs, i with
  | [], _ => []
  | x :: xs', O => f x :: xs'
  | x :: xs', S i' => x :: update i' f xs'
  end.

(** A method call on the [Axes] object behind a reference. *)
Definition on_axes (ref : nat) (f : Axes -> Axes) : Py.M state unit :=
  Py.modify (fun st =>
    {| objects := update ref f (objects st); figsize := figsize st;
       tight := tight st; shown := shown st |}).

(** What [Series.hist] refuses.  It drops the missing values and hands the
    rest to [Axes.hist], which bins them with [numpy.histogram] over the
    range from their least to their greatest: an infinite value makes that
    range not finite, and a boolean column that holds both values makes
    numpy subtract booleans.  Nothing has been drawn when either error is
    raised.  Labels are binned as categories.  (Finite values so far apart
    that the width of their range is no float are not modelled.) *)
Definition hist_error (data : Pd.values) : option Py.exn :=
  match data with
  | Pd.Floats xs =>
      if existsb F64.is_infinite xs then Some Py.RangeNotFinite else None
  | Pd.Ints _ => None
  | Pd.Bools bs =>
      if existsb (fun b => b) bs && existsb negb bs
      then Some (Py.TypeError
                   ("numpy boolean subtract, the `-` operator, is not " ++
                    "supported, use the bitwise_xor, the `^` operator, " ++
                    "or the logical_xor function instead."))
      else None
  | Pd.Objects _ | Pd.Strings _ => None
  end.

Definition hist (ref : nat) (data : Pd.values) (bins : nat) (alpha : F64.t)
  : Py.M state unit :=
  match hist_error data with
  | Some e => Py.raise e
  | None =>
      on_axes ref (fun a =>
        {| hists := (hists a ++ [{| hist_data := data; hist_bins := bins;
                                    hist_alpha := alpha |}])%list;
           title := title a; xlabel := xlabel a; ylabel := ylabel a;
           visible := visible a |})
  end.

Definition set_title (ref : nat) (s : string) : Py.M state unit :=
  on_axes ref (fun a =>
    {| hists := hists a; title := Some s; xlabel := xlabel a;
       ylabel := ylabel a; visible := visible a |}).

Definition set_xlabel (ref : nat) (s : string) : Py.M state unit :=
  on_axes ref (fun a =>
    {| hists := hists a; title := title a; xlabel := Some s;
       ylabel := ylabel a; visible := visible a |}).

Definition set_ylabel (ref : nat) (s : string) : Py.M state unit :=
  on_axes ref (fun a =>
    {| hists := hists a; title := title a; xlabel := xlabel a;
       ylabel := Some s; visible := visible a |}).

Definition set_visible (ref : nat) (b : bool) : Py.M state unit :=
  on_axes ref (fun a =>
    {| hists := hists a; title := title a; xlabel := xlabel a;
       ylabel := ylabel a; visible := b |}).

Definition tight_layout : Py.M state unit :=
  Py.modify (fun st =>
    {| objects := objects st; figsize := figsize st; tight := true;
       shown := shown st |}).

Definition show : Py.M state unit :=
  Py.modify (fun st =>
    {| objects := objects st; figsize := figsize st; tight := tight st;
       shown := true |}).

End Plt.

(* ================================================================== *)
(** ** [src/utils.py] *)
(* ================================================================== *)

Module Utils.

Local Open Scope py_scope.

(** *** [load_data] *)

Section Loader.

(** The keyword arguments are opaque to the loader. *)
Variable PyObject : Type.
Definition kwargs : Type := list (string * PyObject).

Inductive reader : Type := read_csv | read_excel | read_json.

(** A call [pd.read_xxx(file_path, **kwargs)]; the table [load_data]
    returns is the one this call returns. *)
Record reader_call : Type := {
  call_reader : reader;
  call_path : string;
  call_kwargs : kwargs
}.

Definition load_data (file_path : string) (kw : kwargs)
  : Py.exn + reader_call :=
  if Py.endswith file_path ".csv" then
    inr {| call_reader := read_csv; call_path := file_path;
           call_kwargs := kw |}
  else if Py.endswith file_path ".xlsx" || Py.endswith file_path ".xls" then
    inr {| call_reader := read_excel; call_path := file_path;
           call_kwargs := kw |}
  else if Py.endswith file_path ".json" then
    inr {| call_reader := read_json; call_path := file_path;
           call_kwargs := kw |}
  else
    inl (Py.ValueError ("Unsupported file format: " ++ file_path)).

End Loader.

(** *** Shared arithmetic *)

(** [(missing / len(df)) * 100] on [float64]. *)
Definition missing_percent (missing rows : nat) : F64.t :=
  F64.mul (F64.div (F64.of_nat missing) (F64.of_nat rows)) (F64.of_Z 100).

Section WithMemory.

(** [df.memory_usage(deep=True).sum()], in bytes: pandas and the
    interpreter decide it. *)
Variable memory_usage_deep : Pd.DataFrame -> N.

(** The file system: the [OSError] that [open(path, 'w')] raises for a
    path that cannot be opened for writing, if it is one. *)
Variable open_error : string -> option Py.exn.

(** [memory / 1024**2] *)
Definition mebibytes (df : Pd.DataFrame) : F64.t :=
  F64.div (F64.of_Z (Z.of_N (memory_usage_deep df))) (F64.of_Z (1024 ^ 2)).

(** *** [explore_data] *)

Record missing_row : Type := {
  row_label : string;
  missing_count : nat;       (* column 欠損数 *)
  missing_rate : F64.t       (* column 欠損率(%) *)
}.

(** What reaches the console, one item per [print]. *)
Inductive printed : Type :=
| Line (s : string)
| InfoOf (df : Pd.DataFrame)              (* the output of df.info() *)
| FrameOf (f : Pd.frame)
| MissingTable (rows : list missing_row).

Definition print (p : printed) : Py.M (list printed) unit :=
  Py.modify (fun out => (out ++ [p])%list).

(** [missing_df]: one row per column of [df]. *)
Definition missing_df (df : Pd.DataFrame) : list missing_row :=
  map (fun c => {| row_label := fst c;
                   missing_count := snd c;
                   missing_rate := missing_percent (snd c) (Pd.len df) |})
      (Pd.isnull_sum_all df).

(** [missing_df[missing_df['欠損数'] > 0]] *)
Definition missing_rows (df : Pd.DataFrame) : list missing_row :=
  filter (fun r => Nat.ltb 0 (missing_count r)) (missing_df df).

Definition explore_data (df : Pd.DataFrame) (show_info show_stats : bool)
  : Py.M (list printed) unit :=
  print (Line ("データ形状: " ++
               Py.str_of_pair (fst (Pd.shape df)) (snd (Pd.shape df)))) ;;;
  print (Line ("メモリ使用量: " ++ Py.format_f 2 (mebibytes df) ++ " MB")) ;;;
  (if show_info then
     print (Line (String "010" "=== 基本情報 ===")) ;;;
     print (InfoOf df) ;;;
     print (Line "None")
   else Py.ret tt) ;;;
  (if show_stats then
     print (Line (String "010" "=== 統計情報 ===")) ;;;
     d <- Py.lift (Pd.describe df) ;;
     print (FrameOf d)
   else Py.ret tt) ;;;
  print (Line (String "010" "=== 欠損値 ===")) ;;;
  print (MissingTable (missing_rows df)).

(** *** [create_summary_report] *)

(** A piece written to the report: text, or a table rendered by
    [to_string]. *)
Inductive chunk : Type :=
| Text (s : string)
| Rendered (f : Pd.frame).

(** The content of [output_file] and the console. *)
Record report_world : Type := {
  file : list chunk;
  console : list string
}.

(** [open(output_file, 'w')] raises, or truncates the file. *)
Definition open_w (output_file : string) : Py.M report_world unit :=
  match open_error output_file with
  | Some e => Py.raise e
  | None => Py.modify (fun w => {| file := []; console := console w |})
  end.

Definition write (c : chunk) : Py.M report_world unit :=
  Py.modify (fun w => {| file := (file w ++ [c])%list; console := console w |}).

Definition say (s : string) : Py.M report_world unit :=
  Py.modify (fun w => {| file := file w; console := (console w ++ [s])%list |}).

Definition nl : string := String "010" EmptyString.

Definition column_line (col : string) (v : Pd.values) (rows : nat) : string :=
  col ++ ": " ++ Pd.dtype_name (Pd.dtype_of v) ++ ", 欠損値: " ++
  Py.str_of_nat (Pd.isnull_sum v) ++ " (" ++
  Py.format_f 1 (missing_percent (Pd.isnull_sum v) rows) ++ "%)" ++ nl.

Definition correlation_header : string := nl ++ nl ++ "=== 相関行列 ===" ++ nl.

Definition create_summary_report (df : Pd.DataFrame) (output_file : string)
  : Py.M report_world unit :=
  open_w output_file ;;;
  write (Text ("=== データサマリーレポート ===" ++ nl ++ nl)) ;;;
  write (Text ("データ形状: " ++
               Py.str_of_pair (fst (Pd.shape df)) (snd (Pd.shape df)) ++ nl)) ;;;
  write (Text ("メモリ使用量: " ++ Py.format_f 2 (mebibytes df) ++ " MB" ++
               nl ++ nl)) ;;;
  write (Text ("=== 列情報 ===" ++ nl)) ;;;
  Py.for_each (Pd.column_names df) (fun col =>
    v <- Py.lift (Pd.getitem df col) ;;
    write (Text (column_line col v (Pd.len df)))) ;;;
  write (Text (nl ++ "=== 統計情報 ===" ++ nl)) ;;;
  d <- Py.lift (Pd.describe df) ;;
  write (Rendered d) ;;;
  write (Text correlation_header) ;;;
  (let numeric_cols := Pd.column_names (Pd.select_dtypes_number df) in
   if Nat.ltb 1 (List.length numeric_cols) then
     sub <- Py.lift (Pd.getitem_list df numeric_cols) ;;
     write (Rendered (Pd.corr sub))
   else Py.ret tt) ;;;
  say ("サマリーレポートを保存しました: " ++ output_file).

End WithMemory.

(** *** [plot_distributions] *)

Definition hist_bins : nat := 30.
Definition hist_alpha : F64.t := F64.div (F64.of_Z 7) (F64.of_Z 10).

Definition default_figsize : nat * nat := (15, 10).

(** [if columns is None: columns = df.select_dtypes(...).columns] *)
Definition selected_columns (df : Pd.DataFrame)
    (columns : option (list string)) : list string :=
  match columns with
  | None => Pd.column_names (Pd.select_dtypes_number df)
  | Some cs => cs
  end.

Definition plot_distributions (df : Pd.DataFrame)
    (columns : option (list string)) (figsize : nat * nat)
  : Py.M Plt.state unit :=
  let columns := selected_columns df columns in
  let n_cols := Nat.min 3 (List.length columns) in
  n_rows <- Py.lift (Py.floordiv (List.length columns + n_cols - 1) n_cols) ;;
  axes <- Plt.subplots n_rows n_cols figsize ;;
  axes <- (if Nat.eqb n_rows 1 then Py.lift (Plt.reshape_one_row axes)
           else Py.ret axes) ;;
  Py.for_each (Py.enumerate columns) (fun '(i, col) =>
    row <- Py.lift (Py.floordiv i n_cols) ;;
    col_idx <- Py.lift (Py.modulo i n_cols) ;;
    ax <- Py.lift (Plt.index2 axes row col_idx) ;;
    series <- Py.lift (Pd.getitem df col) ;;
    Plt.hist ax series hist_bins hist_alpha ;;;
    Plt.set_title ax (col ++ "の分布") ;;;
    Plt.set_xlabel ax col ;;;
    Plt.set_ylabel ax "頻度") ;;;
  Py.for_each (seq (List.length columns) (n_rows * n_cols - List.length columns))
    (fun i =>
      row <- Py.lift (Py.floordiv i n_cols) ;;
      col_idx <- Py.lift (Py.modulo i n_cols) ;;
      ax <- Py.lift (Plt.index2 axes row col_idx) ;;
      Plt.set_visible ax false) ;;;
  Plt.tight_layout ;;;
  Plt.show.

End Utils.

(* ================================================================== *)
(** ** [src/example_analysis.py] *)
(* ================================================================== *)

Module ExampleAnalysis.

(** The generator behind [np.random]: a state, and samplers that return
    the sequence of their draws together with the next state.  The
    distributions themselves are NumPy's. *)
Record NumpyRandom : Type := {
  rng : Type;
  seed : Z -> rng;
  normal : F64.t -> F64.t -> rng -> (nat -> F64.t) * rng;
  exponential : F64.t -> rng -> (nat -> F64.t) * rng;
  uniform : F64.t -> F64.t -> rng -> (nat -> F64.t) * rng;
  choice : list string -> rng -> (nat -> string) * rng
}.

(** The array of the first [n] draws. *)
Definition take {A} (n : nat) (draws : nat -> A) : list A :=
  map draws (seq 0 n).

(** Element-wise arithmetic of NumPy arrays of equal length, and with a
    scalar. *)
Definition arr_add (xs ys : list F64.t) : list F64.t :=
  map (fun p => F64.add (fst p) (snd p)) (combine xs ys).
Definition arr_mul_scalar (xs : list F64.t) (k : Z) : list F64.t :=
  map (fun x => F64.mul x (F64.of_Z k)) xs.
Definition arr_sub_scalar (xs : list F64.t) (k : Z) : list F64.t :=
  map (fun x => F64.sub x (F64.of_Z k)) xs.
Definition arr_div_scalar (xs : list F64.t) (k : Z) : list F64.t :=
  map (fun x => F64.div x (F64.of_Z k)) xs.

(** [series.clip(lower, upper)] on one value: a missing value stays
    missing; a value below [lower] becomes [lower], one above [upper]
    becomes [upper]. *)
Definition clip1 (lower upper : Z) (x : F64.t) : F64.t :=
  let mask := F64.is_nan x in
  let result := if mask || F64.geb x (F64.of_Z lower) then x
                else F64.of_Z lower in
  if mask || F64.leb x (F64.of_Z upper) then result else F64.of_Z upper.
Definition clip (lower upper : Z) (xs : list F64.t) : list F64.t :=
  map (clip1 lower upper) xs.

Definition n_samples : nat := 1000.

(** The numeric entries of the dictionary [data] once the correlations
    have been added (lines 15 to 26). *)
Record sample_arrays : Type := {
  age : list F64.t;           (* data['年齢'] *)
  income : list F64.t;        (* data['年収'] *)
  tenure : list F64.t;        (* data['勤続年数'] *)
  satisfaction : list F64.t;  (* data['満足度'] *)
  department : list string;   (* data['部門'] *)
  gender : list string        (* data['性別'] *)
}.

(** The six draws, in the order the dictionary literal evaluates them. *)
Record raw_draws : Type := {
  raw_age : list F64.t;
  raw_income : list F64.t;
  raw_tenure : list F64.t;
  raw_satisfaction : list F64.t;
  raw_department : list string;
  raw_gender : list string
}.

Definition draw_all (R : NumpyRandom) : raw_draws :=
  let g := seed R 42 in
  let '(a, g) := normal R (F64.of_Z 35) (F64.of_Z 10) g in
  let '(i, g) := normal R (F64.of_Z 5000000) (F64.of_Z 1500000) g in
  let '(t, g) := exponential R (F64.of_Z 5) g in
  let '(s, g) := uniform R (F64.of_Z 1) (F64.of_Z 10) g in
  let '(d, g) := choice R ["営業"; "開発"; "企画"; "人事"] g in
  let '(x, _) := choice R ["男性"; "女性"] g in
  {| raw_age := take n_samples a;
     raw_income := take n_samples i;
     raw_tenure := take n_samples t;
     raw_satisfaction := take n_samples s;
     raw_department := take n_samples d;
     raw_gender := take n_samples x |}.

Definition add_correlations (d : raw_draws) : sample_arrays :=
  (* data['年収'] = data['年収'] + data['年齢'] * 50000 + data['勤続年数'] * 100000 *)
  let income' :=
    arr_add (arr_add (raw_income d) (arr_mul_scalar (raw_age d) 50000))
            (arr_mul_scalar (raw_tenure d) 100000) in
  (* data['満足度'] = data['満足度'] + (data['年収'] - 5000000) / 1000000 *)
  let satisfaction' :=
    arr_add (raw_satisfaction d)
            (arr_div_scalar (arr_sub_scalar income' 5000000) 1000000) in
  {| age := raw_age d;
     income := income';
     tenure := raw_tenure d;
     satisfaction := satisfaction';
     department := raw_department d;
     gender := raw_gender d |}.

(** [infer_string]: whether pandas infers the dtype [str] for the arrays
    of labels (its option [future.infer_string]); otherwise they are kept
    as objects. *)
Definition create_sample_data (R : NumpyRandom) (infer_string : bool)
  : Pd.DataFrame :=
  let data := add_correlations (draw_all R) in
  {| Pd.index_len := n_samples;
     Pd.columns :=
       [ ("年齢", Pd.Floats (clip 20 65 (age data)));
         ("年収", Pd.Floats (clip 2000000 15000000 (income data)));
         ("勤続年数", Pd.Floats (clip 0 30 (tenure data)));
         ("満足度", Pd.Floats (clip 1 10 (satisfaction data)));
         ("部門", Pd.labels infer_string (department data));
         ("性別", Pd.labels infer_string (gender data)) ] |}.

End ExampleAnalysis.

(* ================================================================== *)
(** ** The set-up script, [scripts/setup_dev.py] *)
(* ================================================================== *)

Module SetupDev.

Local Open Scope list_scope.

(** What a name of the working directory stands for. *)
Inductive kind : Type := Directory | RegularFile.

(** The exceptions that stop the script: nothing in it catches them. *)
Inductive stop : Type :=
| FileExistsError (path : string)
| SystemExit (code : Z)
| Uncaught (e : string).   (* whatever else [subprocess.run] raises *)

(** How [subprocess.run(command, shell=True, capture_output=True,
    text=True)] ends: the shell exits with a status and what it wrote to
    its standard error, or the call itself raises. *)
Inductive outcome : Type :=
| Exited (returncode : Z) (stderr : string)
| Failed (e : string).

(** The entries of the working directory in creation order, what has been
    printed (one item per [print]) and the commands handed to the shell. *)
Record world : Type := {
  entries : list (string * kind);
  console : list string;
  commands : list string
}.

Definition M (A : Type) : Type := world -> world * (stop + A).

Definition ret {A} (a : A) : M A := fun w => (w, inr a).
Definition raise {A} (e : stop) : M A := fun w => (w, inl e).
Definition bind {A B} (c : M A) (k : A -> M B) : M B :=
  fun w => match c w with
           | (w', inr a) => k a w'
           | (w', inl e) => (w', inl e)
           end.

Declare Scope sh_scope.
Delimit Scope sh_scope with sh.
Notation "x <- c ;; k" := (bind c (fun x => k))
  (at level 61, c at next level, right associativity) : sh_scope.
Notation "c ;;; k" := (bind c (fun _ => k))
  (at level 61, right associativity) : sh_scope.
Local Open Scope sh_scope.

Fixpoint for_each {A} (xs : list A) (body : A -> M unit) : M unit :=
  match xs with
  | [] => ret tt
  | x :: xs' => body x ;;; for_each xs' body
  end.

Definition print (s : string) : M unit :=
  fun w => ({| entries := entries w; console := console w ++ [s];
               commands := commands w |}, inr tt).

Definition nl : string := String "010" EmptyString.

(** *** The file system *)

Definition lookup (name : string) (es : list (string * kind)) : option kind :=
  match find (fun e => String.eqb (fst e) name) es with
  | Some e => Some (snd e)
  | None => None
  end.

(** [Path(name).mkdir(exist_ok=True)] in a writable working directory: a
    directory of that name is left alone, anything else of that name is an
    error. *)
Definition mkdir_exist_ok (name : string) : M unit :=
  fun w => match lookup name (entries w) with
           | None => ({| entries := entries w ++ [(name, Directory)];
                         console := console w; commands := commands w |},
                      inr tt)
           | Some Directory => (w, inr tt)
           | Some RegularFile => (w, inl (FileExistsError name))
           end.

Definition directories : list string :=
  ["data"; "results"; "notebooks"; "src"; "tests"; "scripts"].

Definition create_directories : M unit :=
  for_each directories (fun directory =>
    mkdir_exist_ok directory ;;;
    print ("✓ ディレクトリ作成: " ++ directory)).

(** *** The shell *)

Section WithSystem.

(** The machine the script runs on: what a command does given the entries
    of the working directory and the commands run before it, and the names
    of the signals of the platform. *)
Variable shell :
  string -> list (string * kind) -> list string ->
  outcome * list (string * kind).
Variable signal_name : Z -> option string.

(** [subprocess.run(command, shell=True, check=True, ...)] up to the check
    of the status. *)
Definition subprocess_run (command : string) : M (Z * string) :=
  fun w =>
    let '(o, es) := shell command (entries w) (commands w) in
    let w' := {| entries := es; console := console w;
                 commands := commands w ++ [command] |} in
    match o with
    | Exited returncode stderr => (w', inr (returncode, stderr))
    | Failed e => (w', inl (Uncaught e))
    end.

(** [str(e)] for a [CalledProcessError]. *)
Definition called_process_error_str (cmd : string) (returncode : Z) : string :=
  if (returncode <? 0)%Z then
    match signal_name (- returncode) with
    | Some name =>
        "Command '" ++ cmd ++ "' died with <Signals." ++ name ++ ": " ++
        Py.str_of_Z (- returncode) ++ ">."
    | None =>
        "Command '" ++ cmd ++ "' died with unknown signal " ++
        Py.str_of_Z (- returncode) ++ "."
    end
  else
    "Command '" ++ cmd ++ "' returned non-zero exit status " ++
    Py.str_of_Z returncode ++ ".".

Definition run_command (command description : string) : M bool :=
  print ("実行中: " ++ description) ;;;
  result <- subprocess_run command ;;
  if (fst result =? 0)%Z then
    print ("✓ " ++ description ++ " 完了") ;;;
    ret true
  else
    print ("✗ " ++ description ++ " 失敗: " ++
           called_process_error_str command (fst result)) ;;;
    print ("エラー出力: " ++ snd result) ;;;
    ret false.

(** [for command, description in commands:
       if not run_command(command, description): return False
     return True] *)
Fixpoint run_each (cmds : list (string * string)) : M bool :=
  match cmds with
  | [] => ret true
  | (command, description) :: rest =>
      ok <- run_command command description ;;
      if negb ok then ret false else run_each rest
  end.

Definition install_commands : list (string * string) :=
  [ ("pip install -r requirements.txt", "依存関係のインストール");
    ("pip install --upgrade pip", "pipのアップグレード");
    ("pip install black flake8 pytest", "開発ツールのインストール") ].

Definition install_dependencies : M bool := run_each install_commands.

Definition jupyter_commands : list (string * string) :=
  [ ("python -m ipykernel install --user --name python-data-analysis",
     "Jupyterカーネルの設定") ].

Definition setup_jupyter : M bool := run_each jupyter_commands.

Definition pytest_command : string := "python -m pytest tests/ -v".

Definition run_tests : M bool := run_command pytest_command "テストの実行".

Definition main : M unit :=
  print ("=== Pythonデータ分析プロジェクト セットアップ ===" ++ nl) ;;;
  print "1. ディレクトリ構造を作成中..." ;;;
  create_directories ;;;
  print (nl ++ "2. 依存関係をインストール中...") ;;;
  ok <- install_dependencies ;;
  (if negb ok then
     print "依存関係のインストールに失敗しました。" ;;;
     raise (SystemExit 1)
   else ret tt) ;;;
  print (nl ++ "3. Jupyter環境をセットアップ中...") ;;;
  ok <- setup_jupyter ;;
  (if negb ok then
     print "Jupyterのセットアップに失敗しました。" ;;;
     raise (SystemExit 1)
   else ret tt) ;;;
  print (nl ++ "4. テストを実行中...") ;;;
  _ <- run_tests ;;
  print (nl ++ "=== セットアップ完了 ===") ;;;
  print (nl ++ "次のコマンドで分析を開始できます:") ;;;
  print "python src/example_analysis.py" ;;;
  print "jupyter notebook notebooks/".

End WithSystem.

End SetupDev.

(* ================================================================== *)
(** ** Vocabulary of the properties *)
(* ================================================================== *)

Local Open Scope list_scope.

Definition nan : F64.t := S754_nan.

(** *** Printing *)

Definition is_digit (c : ascii) : bool :=
  (48 <=? nat_of_ascii c)%nat && (nat_of_ascii c <=? 57)%nat.

Fixpoint digits_only (s : string) : bool :=
  match s with
  | EmptyString => true
  | String c s' => is_digit c && digits_only s'
  end.

(** A numeral with exactly one digit after the decimal point. *)
Definition one_decimal (s : string) : Prop :=
  exists sgn int_part d,
    s = (sgn ++ int_part ++ "." ++ String d EmptyString)%string /\
    (sgn = "" \/ sgn = "-") /\
    int_part <> "" /\ digits_only int_part = true /\ is_digit d = true.

(** [n] is an integer nearest to ten times the absolute value of [x]. *)
Definition nearest_tenths (x : F64.t) (n : Z) : Prop :=
  match x with
  | S754_zero _ => n = 0%Z
  | S754_finite _ m (Zneg d) =>
      (Z.abs (2 * (Zpos m * 10) - 2 * n * 2 ^ Zpos d) <= 2 ^ Zpos d)%Z
  | S754_finite _ m e => (n = Zpos m * 10 * 2 ^ e)%Z
  | _ => False
  end.

Definition sign_bit (x : F64.t) : bool :=
  match x with
  | S754_zero s | S754_infinity s | S754_finite s _ _ => s
  | S754_nan => false
  end.

(** The numeral of [n / 10] with one digit after the point. *)
Definition tenths_numeral (negative : bool) (n : Z) : string :=
  (Py.sign negative ++ Py.str_of_Z (n / 10) ++ "." ++
   String (Py.digit (n mod 10)) EmptyString)%string.

(** *** The report *)

Definition column_chunk (df : Pd.DataFrame) (c : string * Pd.values)
  : Utils.chunk :=
  Utils.Text (Utils.column_line (fst c) (snd c) (Pd.len df)).

(** The report up to and including the statistics block. *)
Definition report_head (memory_usage_deep : Pd.DataFrame -> N)
    (df : Pd.DataFrame) : list Utils.chunk :=
  [ Utils.Text ("=== データサマリーレポート ===" ++ Utils.nl ++ Utils.nl)%string;
    Utils.Text ("データ形状: " ++
                Py.str_of_pair (Pd.index_len df) (List.length (Pd.columns df)) ++
                Utils.nl)%string;
    Utils.Text ("メモリ使用量: " ++
                Py.format_f 2 (Utils.mebibytes memory_usage_deep df) ++ " MB" ++
                Utils.nl ++ Utils.nl)%string;
    Utils.Text ("=== 列情報 ===" ++ Utils.nl)%string ] ++
  map (column_chunk df) (Pd.columns df) ++
  [ Utils.Text (Utils.nl ++ "=== 統計情報 ===" ++ Utils.nl)%string;
    Utils.Rendered (Pd.Describe df) ].

(** What follows the correlation header. *)
Definition correlation_body (df : Pd.DataFrame) : list Utils.chunk :=
  let numeric := Pd.select_dtypes_number df in
  if Nat.ltb 1 (List.length (Pd.columns numeric))
  then [Utils.Rendered (Pd.Corr numeric)] else [].

Definition saved_message (output_file : string) : string :=
  ("サマリーレポートを保存しました: " ++ output_file)%string.

(** The table of statistics as the specification words it: rounded to
    two decimal places. *)
Definition statistics_as_specified (df : Pd.DataFrame) : Pd.frame :=
  Pd.Round 2 (Pd.Describe df).

(** *** The explorer *)

Definition missing_row_of (df : Pd.DataFrame) (c : string * Pd.values)
  : Utils.missing_row :=
  {| Utils.row_label := fst c;
     Utils.missing_count := Pd.isnull_sum (snd c);
     Utils.missing_rate :=
       Utils.missing_percent (Pd.isnull_sum (snd c)) (Pd.len df) |}.

Definition columns_with_missing (df : Pd.DataFrame)
  : list (string * Pd.values) :=
  filter (fun c => Nat.ltb 0 (Pd.isnull_sum (snd c))) (Pd.columns df).

(** The rows of the table of missing values as the specification words
    them: the rate rounded to one decimal place. *)
Definition missing_rows_as_specified (df : Pd.DataFrame)
  : list Utils.missing_row :=
  map (fun c =>
         {| Utils.row_label := fst c;
            Utils.missing_count := Pd.isnull_sum (snd c);
            Utils.missing_rate :=
              F64.round_decimals 1
                (Utils.missing_percent (Pd.isnull_sum (snd c)) (Pd.len df)) |})
      (columns_with_missing df).

(** Everything the explorer prints before the table of missing values. *)
Definition explore_preamble (memory_usage_deep : Pd.DataFrame -> N)
    (df : Pd.DataFrame) (show_info show_stats : bool) : list Utils.printed :=
  [ Utils.Line ("データ形状: " ++
                Py.str_of_pair (Pd.index_len df) (List.length (Pd.columns df)))%string;
    Utils.Line ("メモリ使用量: " ++
                Py.format_f 2 (Utils.mebibytes memory_usage_deep df) ++ " MB")%string ] ++
  (if show_info
   then [ Utils.Line (String "010" "=== 基本情報 ===");
          Utils.InfoOf df; Utils.Line "None" ]
   else []) ++
  (if show_stats
   then [ Utils.Line (String "010" "=== 統計情報 ===");
          Utils.FrameOf (Pd.Describe df) ]
   else []) ++
  [ Utils.Line (String "010" "=== 欠損値 ===") ].

(** *** The histogram grid *)

(** The column behind a label (empty when the table has no such column). *)
Definition column_or_empty (df : Pd.DataFrame) (c : string) : Pd.values :=
  match Pd.getitem df c with
  | inr v => v
  | inl _ => Pd.Floats []
  end.

(** A cell holding the histogram of column [c]. *)
Definition plotted_axes (df : Pd.DataFrame) (c : string) : Plt.Axes :=
  {| Plt.hists := [{| Plt.hist_data := column_or_empty df c;
                      Plt.hist_bins := 30;
                      Plt.hist_alpha := Utils.hist_alpha |}];
     Plt.title := Some (c ++ "の分布")%string;
     Plt.xlabel := Some c;
     Plt.ylabel := Some "頻度";
     Plt.visible := true |}.

(** A cell that was left empty and hidden. *)
Definition hidden_axes : Plt.Axes :=
  {| Plt.hists := []; Plt.title := None; Plt.xlabel := None;
     Plt.ylabel := None; Plt.visible := false |}.

(** The figure [plt.subplots(1, 1)] leaves behind: one untouched [Axes]. *)
Definition single_blank_figure (figsize : nat * nat) : Plt.state :=
  {| Plt.objects := [Plt.new_axes]; Plt.figsize := Some figsize;
     Plt.tight := false; Plt.shown := false |}.

(** *** The sample generator *)

(** [lower <= x <= upper] *)
Definition between (lower upper : Z) (x : F64.t) : bool :=
  F64.leb (F64.of_Z lower) x && F64.leb x (F64.of_Z upper).

Definition nan_free (xs : list F64.t) : bool :=
  forallb (fun x => negb (F64.is_nan x)) xs.

(** The arithmetic mean of a column, summed from the left. *)
Definition mean (xs : list F64.t) : F64.t :=
  F64.div (fold_left F64.add xs (F64.of_Z 0)) (F64.of_nat (List.length xs)).

(** The satisfaction of a row as the specification words it: the uniform
    draw plus [k] times the distance of the income from the mean of the
    income column. *)
Definition satisfaction_as_specified (k : F64.t) (incomes : list F64.t)
    (raw income_of_row : F64.t) : F64.t :=
  F64.add raw (F64.mul k (F64.sub income_of_row (mean incomes))).

(** *** Concrete inputs *)

Definition floats_of (zs : list Z) : Pd.values := Pd.Floats (map F64.of_Z zs).

(** Three rows, a single numeric column. *)
Definition one_numeric_column : Pd.DataFrame :=
  {| Pd.index_len := 3;
     Pd.columns := [("x", floats_of [1; 2; 3]%Z)] |}.

(** Two rows, seven numeric columns. *)
Definition seven_numeric_columns : Pd.DataFrame :=
  {| Pd.index_len := 2;
     Pd.columns :=
       map (fun name => (name, floats_of [4; 5]%Z))
           ["a"; "b"; "c"; "d"; "e"; "f"; "g"] |}.

(** A float column and no row. *)
Definition no_rows : Pd.DataFrame :=
  {| Pd.index_len := 0; Pd.columns := [("x", Pd.Floats [])] |}.

(** Three rows, one column, one value missing. *)
Definition one_missing_of_three : Pd.DataFrame :=
  {| Pd.index_len := 3;
     Pd.columns := [("a", Pd.Floats [F64.of_Z 1; S754_nan; F64.of_Z 2])] |}.

(** Ten rows, three columns, two values missing in the second. *)
Definition two_missing_of_ten : Pd.DataFrame :=
  {| Pd.index_len := 10;
     Pd.columns :=
       [ ("a", Pd.Ints (repeat 7%Z 10));
         ("b", Pd.Objects (None :: None :: repeat (Some "v") 8));
         ("c", Pd.Bools (repeat true 10)) ] |}.

(** A stand-in for the footprint pandas reports: eight bytes per cell. *)
Definition eight_bytes_per_cell (df : Pd.DataFrame) : N :=
  8 * N.of_nat (Pd.index_len df * List.length (Pd.columns df)).

(** A file system in which every path can be opened for writing. *)
Definition writable (path : string) : option Py.exn := None.

(** A file system without the directory [results]. *)
Definition no_results_directory (path : string) : option Py.exn :=
  if String.prefix "results/" path
  then Some (Py.OSError "[Errno 2] No such file or directory")
  else None.

Definition empty_world : Utils.report_world :=
  {| Utils.file := []; Utils.console := [] |}.

(** The report of the table with one numeric column. *)
Definition one_column_report : list Utils.chunk :=
  Utils.file
    (fst (Utils.create_summary_report eight_bytes_per_cell writable
            one_numeric_column "report.txt" empty_world)).

(** Two rows, one column: 0.125 and 0.5. *)
Definition eighth : F64.t := F64.div (F64.of_Z 1) (F64.of_Z 8).
Definition eighths : Pd.DataFrame :=
  {| Pd.index_len := 2;
     Pd.columns := [("x", Pd.Floats [eighth; F64.div (F64.of_Z 1) (F64.of_Z 2)])] |}.

(** The report of that table. *)
Definition eighths_report : list Utils.chunk :=
  Utils.file
    (fst (Utils.create_summary_report eight_bytes_per_cell writable
            eighths "report.txt" empty_world)).

(** A generator that can be run.  Every sampler returns the centre of its
    distribution: the mean for the normal and exponential laws, the lower
    end for the uniform law, the first label for a choice. *)
Definition degenerate : ExampleAnalysis.NumpyRandom :=
  {| ExampleAnalysis.rng := unit;
     ExampleAnalysis.seed := fun _ => tt;
     ExampleAnalysis.normal := fun loc _ g => (fun _ => loc, g);
     ExampleAnalysis.exponential := fun scale g => (fun _ => scale, g);
     ExampleAnalysis.uniform := fun low _ g => (fun _ => low, g);
     ExampleAnalysis.choice := fun labels g => (fun _ => hd "" labels, g) |}.

Definition degenerate_data : ExampleAnalysis.sample_arrays :=
  ExampleAnalysis.add_correlations (ExampleAnalysis.draw_all degenerate).

(** *** The correlation matrix, as the glossary has it *)

(** The specification defines the correlation matrix as the matrix of
    the pairwise coefficients of linear correlation among the numeric
    columns.  [Pearson] spells this out over the real numbers that the
    values of the columns denote, each pair of columns over the rows in
    which both hold a value, as [DataFrame.corr] takes them.  The rounding
    errors of the computation in floating point are not part of it. *)
Module Pearson.

Import Reals.
Local Open Scope R_scope.







Definition sum (rs : list R) : R := fold_right Rplus 0 rs.

Definition mean (rs : list R) : R := sum rs / INR (List.length rs).









End Pearson.


(** *** Edge cases *)

(** A table without columns and without rows. *)
Definition no_columns : Pd.DataFrame :=
  {| Pd.index_len := 0; Pd.columns := [] |}.

(** What the explorer has printed when [describe] raises. *)
Definition explore_until_statistics (memory_usage_deep : Pd.DataFrame -> N)
    (df : Pd.DataFrame) (show_info : bool) : list Utils.printed :=
  [ Utils.Line ("データ形状: " ++
                Py.str_of_pair (Pd.index_len df) (List.length (Pd.columns df)))%string;
    Utils.Line ("メモリ使用量: " ++
                Py.format_f 2 (Utils.mebibytes memory_usage_deep df) ++ " MB")%string ] ++
  (if show_info
   then [ Utils.Line (String "010" "=== 基本情報 ===");
          Utils.InfoOf df; Utils.Line "None" ]
   else []) ++
  [ Utils.Line (String "010" "=== 統計情報 ===") ].




(** The columns [main] asks histograms of. *)
Definition main_plot_columns : list string :=
  ["年齢"; "年収"; "勤続年数"; "満足度"].

(** A generator whose normal sampler yields no number at all. *)
Definition broken_normal : ExampleAnalysis.NumpyRandom :=
  {| ExampleAnalysis.rng := unit;
     ExampleAnalysis.seed := fun _ => tt;
     ExampleAnalysis.normal := fun _ _ g => (fun _ => S754_nan, g);
     ExampleAnalysis.exponential := fun scale g => (fun _ => scale, g);
     ExampleAnalysis.uniform := fun low _ g => (fun _ => low, g);
     ExampleAnalysis.choice := fun labels g => (fun _ => hd "" labels, g) |}.

(** *** The set-up script *)

Definition created_line (directory : string) : string :=
  ("✓ ディレクトリ作成: " ++ directory)%string.

(** The commands of the script, in the order [main] gets to them. *)
Definition all_commands : list string :=
  map fst SetupDev.install_commands ++ map fst SetupDev.jupyter_commands ++
  [SetupDev.pytest_command].

(** The last four lines of a run that gets to its end. *)
Definition closing_lines : list string :=
  [ (SetupDev.nl ++ "=== セットアップ完了 ===")%string;
    (SetupDev.nl ++ "次のコマンドで分析を開始できます:")%string;
    "python src/example_analysis.py"%string;
    "jupyter notebook notebooks/"%string ].

Definition is_prefix {A} (xs ys : list A) : Prop :=
  exists rest, ys = xs ++ rest.

(** What [run_command] prints around a command that exits with [rc]. *)
Definition command_report (signal_name : Z -> option string)
    (command description : string) (rc : Z) (err : string) : list string :=
  ("実行中: " ++ description)%string ::
  if (rc =? 0)%Z then [("✓ " ++ description ++ " 完了")%string]
  else [ ("✗ " ++ description ++ " 失敗: " ++
          SetupDev.called_process_error_str signal_name command rc)%string;
         ("エラー出力: " ++ err)%string ].

(** A machine on which every command succeeds but the tests, which fail
    with status 1. *)
Definition failing_tests (command : string)
    (es : list (string * SetupDev.kind)) (log : list string)
  : SetupDev.outcome * list (string * SetupDev.kind) :=
  if String.eqb command SetupDev.pytest_command
  then (SetupDev.Exited 1 "1 failed", es)
  else (SetupDev.Exited 0 "", es).

(** A machine on which upgrading [pip] fails and everything else works. *)
Definition upgrade_fails (command : string)
    (es : list (string * SetupDev.kind)) (log : list string)
  : SetupDev.outcome * list (string * SetupDev.kind) :=
  if String.eqb command "pip install --upgrade pip"
  then (SetupDev.Exited 1 "no network", es)
  else (SetupDev.Exited 0 "", es).

(** A platform whose signals have no names. *)
Definition no_signals (n : Z) : option string := None.

(** An empty working directory, nothing printed, nothing run. *)
Definition fresh : SetupDev.world :=
  {| SetupDev.entries := []; SetupDev.console := []; SetupDev.commands := [] |}.

(** A working directory that holds a file and the [data] directory. *)
Definition partly_set_up : SetupDev.world :=
  {| SetupDev.entries := [("README.md", SetupDev.RegularFile);
                          ("data", SetupDev.Directory)];
     SetupDev.console := []; SetupDev.commands := [] |}.

(** A working directory in which [notebooks] is a regular file. *)
Definition notebooks_is_a_file : SetupDev.world :=
  {| SetupDev.entries := [("notebooks", SetupDev.RegularFile)];
     SetupDev.console := []; SetupDev.commands := [] |}.

(** The world after the first installation, on a machine where it works. *)
Definition requirements_installed : SetupDev.world :=
  {| SetupDev.entries := [];
     SetupDev.console := [ "実行中: 依存関係のインストール"%string;
                           "✓ 依存関係のインストール 完了"%string ];
     SetupDev.commands := ["pip install -r requirements.txt"%string] |}.

(* ================================================================== *)
(** * Properties *)
(* ================================================================== *)

(** ** The loader *)

Section LoaderFacts.

Variable PyObject : Type.
Implicit Types (path : string) (kw : Utils.kwargs PyObject).

Lemma endswith_unfold s suffix :
  Py.endswith s suffix =
  if String.eqb s suffix then true
  else match s with
       | EmptyString => false
       | String _ s' => Py.endswith s' suffix
       end.
Proof. destruct s; reflexivity. Qed.

Lemma endswith_refl s : Py.endswith s s = true.
Proof. rewrite endswith_unfold. now rewrite String.eqb_refl. Qed.

(** [endswith] is the suffix test: [s] is some prefix followed by
    [suffix]. *)
Lemma endswith_spec s suffix :
  Py.endswith s suffix = true <->
  exists prefix, s = (prefix ++ suffix)%string.
Proof.
  split.
  - induction s as [|c s IH]; rewrite endswith_unfold; intros H.
    + destruct (String.eqb "" suffix) eqn:E; [|discriminate].
      apply String.eqb_eq in E. now exists "".
    + destruct (String.eqb (String c s) suffix) eqn:E.
      * apply String.eqb_eq in E. now exists "".
      * destruct (IH H) as [prefix ->]. now exists (String c prefix).
  - intros [prefix ->]. induction prefix as [|c prefix IH]; cbn [append].
    + apply endswith_refl.
    + rewrite endswith_unfold, IH. now destruct (String.eqb _ _).
Qed.

(** Two suffixes of one string are comparable. *)
Lemma endswith_comparable s a b :
  Py.endswith s a = true -> Py.endswith s b = true ->
  Py.endswith a b = true \/ Py.endswith b a = true.
Proof.
  induction s as [|c s IH]; intros Ha Hb;
    rewrite endswith_unfold in Ha, Hb.
  - destruct (String.eqb "" a) eqn:Ea; [|discriminate].
    apply String.eqb_eq in Ea; subst a. left.
    destruct (String.eqb "" b) eqn:Eb; [|discriminate].
    apply String.eqb_eq in Eb; subst b. reflexivity.
  - destruct (String.eqb (String c s) a) eqn:Ea.
    + apply String.eqb_eq in Ea; subst a. left.
      rewrite endswith_unfold. exact Hb.
    + destruct (String.eqb (String c s) b) eqn:Eb.
      * apply String.eqb_eq in Eb; subst b. right.
        rewrite endswith_unfold, Ea. exact Ha.
      * auto.
Qed.

(** The four extensions exclude one another. *)
Lemma endswith_exclusive s a b :
  Py.endswith a b = false -> Py.endswith b a = false ->
  Py.endswith s a = true -> Py.endswith s b = false.
Proof.
  intros Hab Hba Ha.
  destruct (Py.endswith s b) eqn:Hb; [|reflexivity].
  destruct (endswith_comparable s a b Ha Hb); congruence.
Qed.

Local Ltac other_suffix H b :=
  match type of H with
  | Py.endswith ?s ?a = true =>
      rewrite (endswith_exclusive s a b eq_refl eq_refl H)
  end.

(** C5. [load_data] decides on the suffix of the path alone: [.csv] goes to
    [read_csv], [.xlsx] and [.xls] to [read_excel], [.json] to [read_json],
    each with the path and the keyword arguments unchanged; any other
    path raises an error whose message ends with the path. *)
Theorem load_data_dispatch path kw :
  (Py.endswith path ".csv" = true ->
     Utils.load_data path kw =
     inr {| Utils.call_reader := Utils.read_csv; Utils.call_path := path;
            Utils.call_kwargs := kw |}) /\
  (Py.endswith path ".xlsx" = true \/ Py.endswith path ".xls" = true ->
     Utils.load_data path kw =
     inr {| Utils.call_reader := Utils.read_excel; Utils.call_path := path;
            Utils.call_kwargs := kw |}) /\
  (Py.endswith path ".json" = true ->
     Utils.load_data path kw =
     inr {| Utils.call_reader := Utils.read_json; Utils.call_path := path;
            Utils.call_kwargs := kw |}) /\
  (Py.endswith path ".csv" = false -> Py.endswith path ".xlsx" = false ->
   Py.endswith path ".xls" = false -> Py.endswith path ".json" = false ->
     Utils.load_data path kw =
     inl (Py.ValueError ("Unsupported file format: " ++ path)%string)).
Proof.
  unfold Utils.load_data. repeat split.
  - intros H. now rewrite H.
  - intros [H|H]; other_suffix H ".csv"; rewrite H;
      now rewrite ?orb_true_r.
  - intros H. other_suffix H ".csv". other_suffix H ".xlsx".
    other_suffix H ".xls". now rewrite H.
  - intros H1 H2 H3 H4. now rewrite H1, H2, H3, H4.
Qed.

End LoaderFacts.

(** The file the example pipeline writes is one [load_data] hands to
    [read_csv]; a path without a known extension is refused. *)
Lemma load_data_dispatch_witness :
  Utils.load_data "data/sample_data.csv" (@nil (string * unit)) =
    inr {| Utils.call_reader := Utils.read_csv;
           Utils.call_path := "data/sample_data.csv";
           Utils.call_kwargs := [] |} /\
  Utils.load_data "notes.txt" (@nil (string * unit)) =
    inl (Py.ValueError "Unsupported file format: notes.txt").
Proof.
  split.
  - apply (@load_data_dispatch unit "data/sample_data.csv" []). reflexivity.
  - apply (@load_data_dispatch unit "notes.txt" []); reflexivity.
Defined.
(** ** Tables *)

Section TableFacts.

Variable df : Pd.DataFrame.
Hypothesis unique : NoDup (Pd.column_names df).

(** With unique labels, [df[label]] is the column that carries the label. *)
Lemma getitem_own_column c :
  In c (Pd.columns df) -> Pd.getitem df (fst c) = inr (snd c).
Proof.
  unfold Pd.getitem, Pd.column_names in *.
  induction (Pd.columns df) as [|x xs IH]; intros Hin; [contradiction|].
  simpl in unique. inversion unique as [|? ? Hnot Hrest]; subst.
  simpl. destruct (String.eqb (fst x) (fst c)) eqn:E.
  - destruct Hin as [->|Hin]; [reflexivity|].
    apply String.eqb_eq in E. exfalso. apply Hnot. rewrite E.
    now apply in_map.
  - destruct Hin as [->|Hin].
    + now rewrite String.eqb_refl in E.
    + now apply IH.
Qed.

Lemma pick_own_columns cs :
  incl cs (Pd.columns df) -> Pd.pick df (map fst cs) = inr cs.
Proof.
  induction cs as [|c cs IH]; intros Hincl; [reflexivity|].
  simpl. rewrite getitem_own_column by (apply Hincl; now left).
  rewrite IH by (intros x Hx; apply Hincl; now right).
  now destruct c.
Qed.

(** [df[numeric_cols]] is the table of the numeric columns, in table order. *)
Lemma getitem_numeric_columns :
  Pd.getitem_list df (Pd.column_names (Pd.select_dtypes_number df)) =
  inr (Pd.select_dtypes_number df).
Proof.
  unfold Pd.getitem_list, Pd.column_names, Pd.select_dtypes_number. simpl.
  rewrite pick_own_columns; [reflexivity|].
  intros x Hx. now apply filter_In in Hx.
Qed.

End TableFacts.


(** ** Fixed-point printing *)

Lemma string_of_uint_digits u :
  digits_only (NilEmpty.string_of_uint u) = true.
Proof. induction u; simpl; auto. Qed.

Lemma string_of_uint_nonempty u :
  u <> Decimal.Nil -> NilEmpty.string_of_uint u <> "".
Proof. destruct u; simpl; congruence. Qed.

Lemma str_of_Z_nonneg z :
  (0 <= z)%Z ->
  digits_only (Py.str_of_Z z) = true /\ Py.str_of_Z z <> "".
Proof.
  intros Hz. unfold Py.str_of_Z. destruct z as [|p|p]; [| |lia].
  - split; [reflexivity|discriminate].
  - simpl. split.
    + apply string_of_uint_digits.
    + apply string_of_uint_nonempty, DecimalPos.Unsigned.to_uint_nonnil.
Qed.

Lemma half_even_nonneg num den :
  (0 <= num)%Z -> (0 < den)%Z -> (0 <= F64.half_even num den)%Z.
Proof.
  intros Hn Hd. unfold F64.half_even.
  assert (0 <= num / den)%Z by (apply Z.div_pos; lia).
  destruct (2 * (num mod den) ?= den)%Z; [destruct (Z.even _)| |]; lia.
Qed.

Lemma scaled_round_nonneg m e p : (0 <= F64.scaled_round m e p)%Z.
Proof.
  unfold F64.scaled_round.
  assert (0 < 10 ^ Z.of_nat p)%Z by (apply Z.pow_pos_nonneg; lia).
  destruct e as [|q|q].
  - lia.
  - assert (0 < 2 ^ Z.pos q)%Z by (apply Z.pow_pos_nonneg; lia). nia.
  - apply half_even_nonneg; [lia|apply Z.pow_pos_nonneg; lia].
Qed.

Lemma digit_is_digit d : (0 <= d < 10)%Z -> is_digit (Py.digit d) = true.
Proof.
  intros Hd. unfold Py.digit.
  assert (Hk : Z.to_nat d < 10) by lia.
  destruct (Z.to_nat d) as [|[|[|[|[|[|[|[|[|[|k]]]]]]]]]];
    try reflexivity; lia.
Qed.

Lemma fixed_one_decimal n :
  (0 <= n)%Z ->
  exists int_part d,
    Py.fixed 1 n = (int_part ++ "." ++ String d EmptyString)%string /\
    int_part <> "" /\ digits_only int_part = true /\ is_digit d = true.
Proof.
  intros Hn. exists (Py.str_of_Z (n / 10)), (Py.digit (n mod 10)).
  assert (0 <= n / 10)%Z by (apply Z.div_pos; lia).
  destruct (@str_of_Z_nonneg (n / 10)%Z) as [Hd Hne]; [assumption|].
  repeat split; try assumption.
  apply digit_is_digit. apply Z.mod_pos_bound. lia.
Qed.

(** [format(x, '.1f')] of a finite float has one digit after the point. *)
Lemma format_f_one_decimal x :
  F64.is_finite x = true -> one_decimal (Py.format_f 1 x).
Proof.
  destruct x as [s|s| |s m e]; try discriminate; intros _; simpl.
  - destruct (@fixed_one_decimal 0%Z) as [ip [d [E H]]]; [lia|].
    exists (Py.sign s), ip, d. rewrite E.
    split; [reflexivity|]. split; [destruct s; auto|exact H].
  - destruct (@fixed_one_decimal (F64.scaled_round m e 1)) as [ip [d [E H]]];
      [apply scaled_round_nonneg|].
    exists (Py.sign s), ip, d. rewrite E.
    split; [reflexivity|]. split; [destruct s; auto|exact H].
Qed.


Section Nearest.

Local Open Scope Z_scope.

Lemma half_even_nearest num den :
  0 < den -> Z.abs (2 * num - 2 * F64.half_even num den * den) <= den.
Proof.
  intros Hden. unfold F64.half_even.
  pose proof (Z.div_mod num den ltac:(lia)) as E.
  pose proof (Z.mod_pos_bound num den Hden) as B.
  destruct (Z.compare_spec (2 * (num mod den)) den) as [H|H|H];
    [destruct (Z.even (num / den))| |]; nia.
Qed.

Lemma scaled_round_nearest s m e :
  nearest_tenths (S754_finite s m e) (F64.scaled_round m e 1).
Proof.
  unfold nearest_tenths, F64.scaled_round.
  change (10 ^ Z.of_nat 1) with 10.
  destruct e as [|q|q]; try reflexivity.
  apply half_even_nearest. apply Z.pow_pos_nonneg; lia.
Qed.

End Nearest.

(** [format(x, '.1f')] of a finite float is the numeral of the tenths
    nearest to it. *)
Lemma format_f_nearest x :
  F64.is_finite x = true ->
  exists n, (0 <= n)%Z /\ nearest_tenths x n /\
            Py.format_f 1 x = tenths_numeral (sign_bit x) n.
Proof.
  destruct x as [s|s| |s m e]; try discriminate; intros _.
  - exists 0%Z. repeat split. lia.
  - exists (F64.scaled_round m e 1). split; [apply scaled_round_nonneg|].
    split; [apply scaled_round_nearest|reflexivity].
Qed.

(** ** Magnitudes of binary64 results *)

Section FloatMagnitude.

Local Open Scope Z_scope.

Lemma digits2_pos_size p : digits2_pos p = Pos.size p.
Proof. induction p; simpl; congruence. Qed.

Lemma Zdigits2_log2 p : Zdigits2 (Zpos p) = Z.log2 (Zpos p) + 1.
Proof.
  destruct p; simpl; rewrite ?digits2_pos_size, ?Pos2Z.inj_succ; lia.
Qed.

Lemma Zdigits2_nonneg m : 0 <= Zdigits2 m.
Proof. destruct m; simpl; lia. Qed.

Lemma Zdigits2_bounds m :
  0 < m -> 2 ^ (Zdigits2 m - 1) <= m < 2 ^ Zdigits2 m.
Proof.
  intros Hm. destruct m as [|p|p]; try lia.
  rewrite Zdigits2_log2. replace (Z.log2 (Z.pos p) + 1 - 1) with (Z.log2 (Z.pos p)) by lia.
  pose proof (Z.log2_spec (Z.pos p) Hm). unfold Z.succ in *. lia.
Qed.

Lemma Zdigits2_upper m : 0 <= m -> m < 2 ^ Zdigits2 m.
Proof.
  intros Hm. destruct (Z.eq_dec m 0) as [->|]; [reflexivity|].
  apply Zdigits2_bounds. lia.
Qed.

(** A number below [2^k] has at most [k] digits. *)
Lemma Zdigits2_le m k : 0 <= m -> 0 <= k -> m < 2 ^ k -> Zdigits2 m <= k.
Proof.
  intros Hm Hk Hlt.
  destruct (Z.eq_dec m 0) as [->|Hne]; [simpl; lia|].
  destruct (@Zdigits2_bounds m) as [Hlo _]; [lia|].
  destruct (Z_lt_le_dec k (Zdigits2 m)) as [Hgt|]; [|assumption].
  assert (2 ^ k <= 2 ^ (Zdigits2 m - 1)) by (apply Z.pow_le_mono_r; lia).
  lia.
Qed.

(** Dividing by [2^s] removes [s] digits. *)
Lemma div_pow2_lt m d s :
  0 <= m -> m < 2 ^ d -> 0 <= s <= d -> m / 2 ^ s < 2 ^ (d - s).
Proof.
  intros Hm Hlt Hs.
  apply Z.div_lt_upper_bound; [apply Z.pow_pos_nonneg; lia|].
  rewrite <- Z.pow_add_r by lia. now replace (s + (d - s)) with d by lia.
Qed.

Lemma div_pow2_zero m d s :
  0 <= m -> m < 2 ^ d -> 0 <= d <= s -> m / 2 ^ s = 0.
Proof.
  intros Hm Hlt Hs. apply Z.div_small. split; [assumption|].
  assert (2 ^ d <= 2 ^ s) by (apply Z.pow_le_mono_r; lia). lia.
Qed.

Lemma Zdigits2_div_pow2 m s :
  0 <= m -> 0 <= s -> Zdigits2 (m / 2 ^ s) <= Z.max 0 (Zdigits2 m - s).
Proof.
  intros Hm Hs.
  pose proof (Zdigits2_upper Hm) as Hu. pose proof (Zdigits2_nonneg m) as Hd.
  destruct (Z_le_gt_dec s (Zdigits2 m)) as [Hle|Hgt].
  - apply Zdigits2_le; [apply Z.div_pos; [lia|apply Z.pow_pos_nonneg; lia]|lia|].
    rewrite Z.max_r by lia. apply div_pow2_lt; lia.
  - rewrite (@div_pow2_zero m (Zdigits2 m) s) by lia. simpl. lia.
Qed.

Lemma Zdigits2_succ m : 0 <= m -> Zdigits2 (m + 1) <= Zdigits2 m + 1.
Proof.
  intros Hm. pose proof (Zdigits2_upper Hm). pose proof (Zdigits2_nonneg m).
  apply Zdigits2_le; [lia|lia|].
  rewrite Z.pow_add_r by lia. change (2 ^ 1) with 2. lia.
Qed.

Lemma Zdigits2_mul a b :
  0 <= a -> 0 <= b -> Zdigits2 (a * b) <= Zdigits2 a + Zdigits2 b.
Proof.
  intros Ha Hb.
  pose proof (Zdigits2_upper Ha). pose proof (Zdigits2_upper Hb).
  pose proof (Zdigits2_nonneg a). pose proof (Zdigits2_nonneg b).
  apply Zdigits2_le; [nia|lia|].
  rewrite Z.pow_add_r by lia. nia.
Qed.

Lemma shr_1_m r : 0 <= shr_m r -> shr_m (shr_1 r) = shr_m r / 2.
Proof.
  destruct r as [m rb sb]. simpl. intros Hm.
  destruct m as [|[p|p|]|p]; cbn [shr_m]; try reflexivity; try lia.
  - apply Z.div_unique with (r := 1); lia.
  - apply Z.div_unique with (r := 0); lia.
Qed.

Lemma iter_shr_1_m p : forall r,
  0 <= shr_m r ->
  shr_m (iter_pos shr_1 p r) = shr_m r / 2 ^ Zpos p.
Proof.
  assert (Hhalf : forall r, 0 <= shr_m r -> 0 <= shr_m (shr_1 r)).
  { intros r Hr. rewrite shr_1_m by assumption. apply Z.div_pos; lia. }
  induction p as [p IH|p IH|]; intros r Hr; simpl iter_pos.
  - assert (H1 : 0 <= shr_m (shr_1 r)) by auto.
    assert (H2 : 0 <= shr_m (iter_pos shr_1 p (shr_1 r))).
    { rewrite IH by assumption. apply Z.div_pos; [assumption|].
      apply Z.pow_pos_nonneg; lia. }
    rewrite IH, IH, shr_1_m by assumption.
    assert (Hp : 0 < 2 ^ Z.pos p) by (apply Z.pow_pos_nonneg; lia).
    replace (2 ^ Z.pos p~1) with (2 * 2 ^ Z.pos p * 2 ^ Z.pos p).
    + rewrite <- !Z.div_div by lia. reflexivity.
    + replace (Z.pos p~1) with (1 + Z.pos p + Z.pos p) by lia.
      rewrite !Z.pow_add_r by lia. reflexivity.
  - assert (H2 : 0 <= shr_m (iter_pos shr_1 p r)).
    { rewrite IH by assumption. apply Z.div_pos; [assumption|].
      apply Z.pow_pos_nonneg; lia. }
    rewrite IH, IH by assumption.
    assert (Hp : 0 < 2 ^ Z.pos p) by (apply Z.pow_pos_nonneg; lia).
    replace (2 ^ Z.pos p~0) with (2 ^ Z.pos p * 2 ^ Z.pos p).
    + rewrite <- Z.div_div by lia. reflexivity.
    + replace (Z.pos p~0) with (Z.pos p + Z.pos p) by lia.
      rewrite Z.pow_add_r by lia. reflexivity.
  - rewrite shr_1_m by assumption. reflexivity.
Qed.

Lemma shr_record_of_loc_m m l : shr_m (shr_record_of_loc m l) = m.
Proof. destruct l as [|[| |]]; reflexivity. Qed.

(** [shr_fexp] divides the mantissa by the power of two that brings the
    exponent up to the canonical one. *)
Lemma shr_fexp_spec m e l :
  0 <= m ->
  let e' := Z.max e (fexp F64.prec F64.emax (Zdigits2 m + e)) in
  snd (shr_fexp F64.prec F64.emax m e l) = e' /\
  shr_m (fst (shr_fexp F64.prec F64.emax m e l)) = m / 2 ^ (e' - e).
Proof.
  intros Hm e'. unfold shr_fexp, shr. subst e'.
  set (f := fexp F64.prec F64.emax (Zdigits2 m + e)).
  destruct (f - e) as [|p|p] eqn:E; cbn [fst snd].
  - rewrite Z.max_l by lia. rewrite Z.sub_diag, Z.div_1_r.
    split; [reflexivity|apply shr_record_of_loc_m].
  - rewrite Z.max_r by lia. split; [lia|].
    rewrite iter_shr_1_m by (rewrite shr_record_of_loc_m; assumption).
    rewrite shr_record_of_loc_m. f_equal. f_equal. lia.
  - rewrite Z.max_l by lia. rewrite Z.sub_diag, Z.div_1_r.
    split; [reflexivity|apply shr_record_of_loc_m].
Qed.

Lemma round_nearest_even_cases m l :
  round_nearest_even m l = m \/ round_nearest_even m l = m + 1.
Proof.
  destruct l as [|[| |]]; simpl; auto. destruct (Z.even m); auto.
Qed.

(** What [binary_round_aux] computes on a non-negative mantissa. *)
Lemma binary_round_aux_spec sx mx ex lx :
  0 <= mx ->
  exists m1 m1r m2 e1 e2,
    e1 = Z.max ex (fexp F64.prec F64.emax (Zdigits2 mx + ex)) /\
    m1 = mx / 2 ^ (e1 - ex) /\
    (m1r = m1 \/ m1r = m1 + 1) /\
    e2 = Z.max e1 (fexp F64.prec F64.emax (Zdigits2 m1r + e1)) /\
    m2 = m1r / 2 ^ (e2 - e1) /\
    binary_round_aux F64.prec F64.emax sx mx ex lx =
    match m2 with
    | Z0 => S754_zero sx
    | Zpos m => if e2 <=? F64.emax - F64.prec
                then S754_finite sx m e2 else S754_infinity sx
    | Zneg _ => S754_nan
    end.
Proof.
  intros Hmx. unfold binary_round_aux.
  destruct (shr_fexp_spec ex lx Hmx) as [He1 Hm1].
  destruct (shr_fexp F64.prec F64.emax mx ex lx) as [mrs' e'].
  cbn [fst snd] in He1, Hm1.
  set (m1r := round_nearest_even (shr_m mrs') (loc_of_shr_record mrs')).
  assert (Hm1nn : 0 <= shr_m mrs').
  { rewrite Hm1. apply Z.div_pos; [assumption|].
    apply Z.pow_pos_nonneg; lia. }
  assert (Hm1r : 0 <= m1r).
  { destruct (round_nearest_even_cases (shr_m mrs') (loc_of_shr_record mrs'))
      as [E|E]; unfold m1r; rewrite E; lia. }
  destruct (shr_fexp_spec e' loc_Exact Hm1r) as [He2 Hm2].
  destruct (shr_fexp F64.prec F64.emax m1r e' loc_Exact) as [mrs'' e''].
  cbn [fst snd] in He2, Hm2.
  exists (shr_m mrs'), m1r, (shr_m mrs''), e', e''.
  split; [exact He1|]. split; [rewrite He1; exact Hm1|].
  split; [apply round_nearest_even_cases|].
  split; [exact He2|]. split; [rewrite He2; exact Hm2|]. reflexivity.
Qed.

Lemma fexp_binary64 x :
  fexp F64.prec F64.emax x = Z.max (x - 53) (-1074).
Proof. reflexivity. Qed.

Lemma div_pow2_pos m s :
  0 < m -> 0 <= s <= Zdigits2 m - 1 -> 0 < m / 2 ^ s.
Proof.
  intros Hm Hs. destruct (Zdigits2_bounds Hm) as [Hlo _].
  assert (2 ^ s <= 2 ^ (Zdigits2 m - 1)) by (apply Z.pow_le_mono_r; lia).
  apply Z.div_str_pos. split; [apply Z.pow_pos_nonneg; lia|lia].
Qed.

Lemma Zdigits2_pos m : 0 < m -> 1 <= Zdigits2 m.
Proof. destruct m; simpl; lia. Qed.

(** A rounded result whose magnitude stays below the overflow threshold is
    finite; it is not zero unless the input underflows. *)
Lemma binary_round_aux_finite sx mx ex lx :
  0 <= mx -> Zdigits2 mx + ex <= 1023 -> ex <= 971 ->
  match binary_round_aux F64.prec F64.emax sx mx ex lx with
  | S754_zero _ => 0 < mx -> Zdigits2 mx + ex < -1073
  | S754_finite s m e =>
      s = sx /\ ex <= e <= 971 /\
      Zdigits2 (Zpos m) + e <= Z.max (Zdigits2 mx + ex) (-1074) + 1
  | _ => False
  end.
Proof.
  intros Hmx HD Hex.
  destruct (@binary_round_aux_spec sx mx ex lx Hmx)
    as (m1 & m1r & m2 & e1 & e2 & He1 & Hm1 & Hm1r & He2 & Hm2 & ->).
  rewrite fexp_binary64 in He1, He2.
  pose proof (Zdigits2_nonneg mx) as Hdx.
  assert (Hs1 : 0 <= e1 - ex) by lia.
  assert (Hm1nn : 0 <= m1).
  { subst m1. apply Z.div_pos; [assumption|apply Z.pow_pos_nonneg; lia]. }
  assert (Hd1 : Zdigits2 m1 <= Z.max 0 (Zdigits2 mx - (e1 - ex))).
  { subst m1. now apply Zdigits2_div_pow2. }
  assert (Hm1rnn : 0 <= m1r) by lia.
  assert (Hd1r : Zdigits2 m1r <= Zdigits2 m1 + 1).
  { destruct Hm1r as [->| ->]; [lia|now apply Zdigits2_succ]. }
  pose proof (Zdigits2_nonneg m1r) as Hd1rnn.
  assert (Hs2 : 0 <= e2 - e1) by lia.
  assert (Hm2nn : 0 <= m2).
  { subst m2. apply Z.div_pos; [assumption|apply Z.pow_pos_nonneg; lia]. }
  assert (Hd2 : Zdigits2 m2 <= Z.max 0 (Zdigits2 m1r - (e2 - e1))).
  { subst m2. now apply Zdigits2_div_pow2. }
  assert (He2le : e2 <= 971) by lia.
  destruct m2 as [|p|p] eqn:Em2; [| |lia].
  - (* a zero result *)
    intros Hpos.
    destruct (Z_lt_le_dec (Zdigits2 mx + ex) (-1073)) as [|Hbig];
      [assumption|exfalso].
    pose proof (Zdigits2_pos Hpos) as Hdpos.
    assert (H1 : 0 < m1).
    { subst m1. apply div_pow2_pos; [assumption|lia]. }
    assert (H1r : 0 < m1r) by lia.
    pose proof (Zdigits2_pos H1r) as Hd1rpos.
    assert (H2 : 0 < m1r / 2 ^ (e2 - e1)).
    { apply div_pow2_pos; [assumption|lia]. }
    lia.
  - (* a finite result *)
    destruct (Z.leb_spec e2 (F64.emax - F64.prec)) as [_|Hover].
    + split; [reflexivity|]. split; [lia|].
      change (Zpos (digits2_pos p)) with (Zdigits2 (Zpos p)).
      assert (1 <= Zdigits2 (Zpos p)) by (simpl; lia).
      lia.
    + unfold F64.emax, F64.prec in Hover. lia.
Qed.

Lemma iter_xO_pow2 m d : Zpos (Pos.iter xO m d) = Zpos m * 2 ^ Zpos d.
Proof.
  induction d as [|d IH] using Pos.peano_ind.
  - simpl. lia.
  - rewrite Pos.iter_succ, Pos2Z.inj_xO, IH, Pos2Z.inj_succ, Z.pow_succ_r by lia.
    lia.
Qed.

Lemma shl_align_spec mx ex ex' :
  snd (shl_align mx ex ex') = Z.min ex ex' /\
  Zpos (fst (shl_align mx ex ex')) =
    Zpos mx * 2 ^ (ex - snd (shl_align mx ex ex')).
Proof.
  unfold shl_align. destruct (ex' - ex) as [|d|d] eqn:E; cbn [fst snd].
  - split; [lia|]. rewrite Z.sub_diag. simpl. lia.
  - split; [lia|]. rewrite Z.sub_diag. simpl. lia.
  - split; [lia|]. rewrite iter_xO_pow2. f_equal. f_equal. lia.
Qed.

Lemma Zdigits2_mono a b : 0 <= a <= b -> Zdigits2 a <= Zdigits2 b.
Proof.
  intros [Ha Hab]. assert (Hb : 0 <= b) by lia.
  pose proof (Zdigits2_upper Hb). pose proof (Zdigits2_nonneg b).
  apply Zdigits2_le; lia.
Qed.

(** The conversion of a positive integer below [2^64] is a finite, nonzero
    float of about the same magnitude. *)
Lemma of_Z_pos_finite p :
  Zdigits2 (Zpos p) <= 64 ->
  exists m e,
    F64.of_Z (Zpos p) = S754_finite false m e /\
    -53 <= e <= 971 /\
    Zdigits2 (Zpos m) + e <= Zdigits2 (Zpos p) + 1.
Proof.
  intros Hp. unfold F64.of_Z, binary_normalize, binary_round.
  destruct (shl_align_spec p 0 (fexp F64.prec F64.emax (Zpos (digits2_pos p) + 0)))
    as [Hez Hmz].
  destruct (shl_align p 0 _) as [mz ez]. cbn [fst snd] in Hez, Hmz.
  rewrite fexp_binary64 in Hez.
  change (Zpos (digits2_pos p)) with (Zdigits2 (Zpos p)) in Hez.
  pose proof (@Zdigits2_pos (Zpos p) eq_refl) as Hdp.
  assert (Hdz : Zdigits2 (Zpos mz) <= Zdigits2 (Zpos p) + (0 - ez)).
  { apply Zdigits2_le; [lia|lia|].
    rewrite Hmz, Z.pow_add_r by lia.
    assert (0 < 2 ^ (0 - ez)) by (apply Z.pow_pos_nonneg; lia).
    pose proof (@Zdigits2_upper (Zpos p)). nia. }
  pose proof (@Zdigits2_pos (Zpos mz) eq_refl) as Hdzpos.
  pose proof (@binary_round_aux_finite false (Zpos mz) ez loc_Exact) as H.
  destruct (binary_round_aux F64.prec F64.emax false (Zpos mz) ez loc_Exact)
    as [s|s| |s m e].
  - exfalso. assert (Zdigits2 (Zpos mz) + ez < -1073); [apply H|]; lia.
  - exfalso. apply H; lia.
  - exfalso. apply H; lia.
  - destruct H as [-> [He Hm]]; try lia.
    exists m, e. split; [reflexivity|]. split; lia.
Qed.

Lemma div_eucl_div a b : fst (Z.div_eucl a b) = a / b.
Proof. reflexivity. Qed.

(** The quotient of two finite floats is finite (or zero) as long as the
    difference of their magnitudes stays away from the overflow
    threshold. *)
Lemma div_finite sx mx ex sy my ey :
  let Mx := Zdigits2 (Zpos mx) + ex in
  let My := Zdigits2 (Zpos my) + ey in
  Mx - My + 1 <= 1023 -> ex - ey <= 971 ->
  match F64.div (S754_finite sx mx ex) (S754_finite sy my ey) with
  | S754_zero _ => True
  | S754_finite _ m e =>
      e <= 971 /\
      Zdigits2 (Zpos m) + e <=
        Z.max (Z.max (ex - ey) (Mx - My + 1)) (-1074) + 1
  | _ => False
  end.
Proof.
  intros Mx My HM He.
  unfold F64.div, SFdiv, SFdiv_core_binary.
  set (dx := Zdigits2 (Zpos mx)) in *. set (dy := Zdigits2 (Zpos my)) in *.
  set (e' := Z.min (fexp F64.prec F64.emax (dx + ex - (dy + ey))) (ex - ey)).
  set (s := ex - ey - e').
  assert (Hs : 0 <= s) by (unfold s, e'; lia).
  set (m' := match s with
             | Zpos _ => Z.shiftl (Zpos mx) s
             | Z0 => Zpos mx
             | Zneg _ => Z0
             end).
  assert (Hm' : m' = Zpos mx * 2 ^ s).
  { unfold m'. destruct s as [|q|q] eqn:Es; [simpl; lia| |lia].
    now rewrite Z.shiftl_mul_pow2 by lia. }
  pose proof (div_eucl_div m' (Zpos my)) as Hq.
  destruct (Z.div_eucl m' (Zpos my)) as [q r]. cbn [fst] in Hq.
  pose proof (@Zdigits2_pos (Zpos mx) eq_refl) as Hdxpos.
  pose proof (@Zdigits2_pos (Zpos my) eq_refl) as Hdypos.
  fold dx in Hdxpos. fold dy in Hdypos.
  assert (Hs_pow : 0 < 2 ^ s) by (apply Z.pow_pos_nonneg; lia).
  assert (Hm'nn : 0 <= m') by nia.
  assert (Hqnn : 0 <= q) by (subst q; apply Z.div_pos; lia).
  assert (Hm'lt : m' < 2 ^ (dx + s)).
  { rewrite Hm', Z.pow_add_r by lia.
    pose proof (@Zdigits2_upper (Zpos mx)). fold dx in H. nia. }
  assert (Hq_le : q <= m' / 2 ^ (dy - 1)).
  { subst q. apply Z.div_le_compat_l; [assumption|].
    split; [apply Z.pow_pos_nonneg; lia|].
    apply (@Zdigits2_bounds (Zpos my)). lia. }
  assert (Hdq : Zdigits2 q <= Z.max 0 (dx + s - (dy - 1))).
  { etransitivity.
    - apply Zdigits2_mono. split; [exact Hqnn|exact Hq_le].
    - etransitivity; [apply Zdigits2_div_pow2; lia|].
      assert (Zdigits2 m' <= dx + s) by (apply Zdigits2_le; lia). lia. }
  assert (He' : e' <= ex - ey) by (unfold e'; lia).
  pose proof (@binary_round_aux_finite (xorb sx sy) q e' (new_location (Zpos my) r)) as H.
  destruct (binary_round_aux F64.prec F64.emax (xorb sx sy) q e'
              (new_location (Zpos my) r)) as [z|z| |z m e].
  - exact I.
  - apply H; unfold s in *; lia.
  - apply H; unfold s in *; lia.
  - destruct H as [_ [Hee Hmm]]; unfold s in *; try lia.
Qed.

(** Likewise for a product. *)
Lemma mul_finite sx mx ex sy my ey :
  let Mx := Zdigits2 (Zpos mx) + ex in
  let My := Zdigits2 (Zpos my) + ey in
  Mx + My <= 1023 -> ex + ey <= 971 ->
  F64.is_finite (F64.mul (S754_finite sx mx ex) (S754_finite sy my ey)) = true.
Proof.
  intros Mx My HM He. unfold F64.mul, SFmul.
  pose proof (@Zdigits2_mul (Zpos mx) (Zpos my)) as Hd.
  pose proof (@binary_round_aux_finite (xorb sx sy) (Zpos (mx * my)) (ex + ey)
                loc_Exact) as H.
  rewrite Pos2Z.inj_mul in H.
  change (Zpos (mx * my)) with (Zpos mx * Zpos my) in *.
  destruct (binary_round_aux F64.prec F64.emax (xorb sx sy)
              (Zpos mx * Zpos my) (ex + ey) loc_Exact) as [z|z| |z m e];
    try reflexivity; exfalso; apply H; unfold Mx, My in *; lia.
Qed.

Lemma of_nat_small_digits n :
  (0 < n)%nat -> Z.of_nat n < 2 ^ 63 ->
  exists p, Z.of_nat n = Zpos p /\ Zdigits2 (Zpos p) <= 64.
Proof.
  intros Hn Hlt. destruct (Z.of_nat n) as [|p|p] eqn:E; try lia.
  exists p. split; [reflexivity|].
  assert (Zdigits2 (Zpos p) <= 63) by (apply Zdigits2_le; lia). lia.
Qed.

(** The percentage of missing values of a table with at least one row (and
    fewer than [2^63], the range of pandas' counts) is a finite number. *)
Lemma missing_percent_finite missing rows :
  (0 < rows)%nat -> (missing <= rows)%nat -> Z.of_nat rows < 2 ^ 63 ->
  F64.is_finite (Utils.missing_percent missing rows) = true.
Proof.
  intros Hrows Hle Hlt. unfold Utils.missing_percent, F64.of_nat.
  destruct (of_nat_small_digits Hrows Hlt) as (pr & -> & Hdr).
  destruct (of_Z_pos_finite Hdr) as (my & ey & -> & Hey & HMy).
  pose proof (@Zdigits2_pos (Zpos my) eq_refl) as Hdy.
  destruct (Nat.eq_dec missing 0) as [->|Hm].
  - reflexivity.
  - destruct (@of_nat_small_digits missing) as (pm & -> & Hdm); [lia|lia|].
    destruct (of_Z_pos_finite Hdm) as (mx & ex & -> & Hex & HMx).
    pose proof (@Zdigits2_pos (Zpos mx) eq_refl) as Hdx.
    pose proof (@div_finite false mx ex false my ey) as Hdiv.
    cbv zeta in Hdiv.
    destruct (F64.div (S754_finite false mx ex) (S754_finite false my ey))
      as [s|s| |s m e].
    + reflexivity.
    + exfalso. apply Hdiv; lia.
    + exfalso. apply Hdiv; lia.
    + destruct Hdiv as [He HM]; try lia.
      change (F64.of_Z 100) with (S754_finite false 7036874417766400 (-46)).
      apply mul_finite.
      * change (Zdigits2 (Zpos 7036874417766400)) with 53. lia.
      * lia.
Qed.

Lemma count_if_le {A} (p : A -> bool) xs :
  (Pd.count_if p xs <= List.length xs)%nat.
Proof. unfold Pd.count_if. apply filter_length_le. Qed.

Lemma isnull_sum_le_size v : (Pd.isnull_sum v <= Pd.size v)%nat.
Proof.
  destruct v; simpl; try apply count_if_le; apply Nat.le_0_l.
Qed.

End FloatMagnitude.

(** ** The summary report *)

Section ReportFacts.

Variable memory_usage_deep : Pd.DataFrame -> N.
Variable open_error : string -> option Py.exn.
Variable df : Pd.DataFrame.
Variable output_file : string.

(** A path that cannot be opened: the error of [open] is raised, the file
    is not touched and nothing is printed. *)
Lemma create_summary_report_not_opened w e :
  open_error output_file = Some e ->
  Utils.create_summary_report memory_usage_deep open_error df output_file w =
  (w, inl e).
Proof.
  intros E. unfold Utils.create_summary_report, Utils.open_w.
  rewrite E. reflexivity.
Qed.

Lemma column_loop cs : forall pre out,
  (forall c, In c cs -> Pd.getitem df (fst c) = inr (snd c)) ->
  Py.for_each (map fst cs)
    (fun col =>
       (v <- Py.lift (Pd.getitem df col) ;;
        Utils.write (Utils.Text (Utils.column_line col v (Pd.len df))))%py)
    {| Utils.file := pre; Utils.console := out |} =
  ({| Utils.file := pre ++ map (column_chunk df) cs; Utils.console := out |},
   inr tt).
Proof.
  induction cs as [|c cs IH]; intros pre out Hget.
  - simpl. now rewrite app_nil_r.
  - cbn [map Py.for_each]. unfold Py.bind at 1 2. unfold Py.lift at 1.
    rewrite Hget by now left.
    unfold Utils.write at 1, Py.modify at 1. cbn [Utils.file Utils.console].
    rewrite IH by (intros; apply Hget; now right).
    now rewrite <- app_assoc.
Qed.

Lemma describe_some_column :
  Pd.columns df <> [] -> Pd.describe df = inr (Pd.Describe df).
Proof. unfold Pd.describe. now destruct (Pd.columns df). Qed.

Hypothesis opened : open_error output_file = None.
Hypothesis unique : NoDup (Pd.column_names df).

(** The whole effect of the report builder, once the file is open, on a
    table with unique labels and at least one column. *)
Lemma create_summary_report_written w :
  Pd.columns df <> [] ->
  Utils.create_summary_report memory_usage_deep open_error df output_file w =
  ({| Utils.file := report_head memory_usage_deep df ++
                    [Utils.Text Utils.correlation_header] ++ correlation_body df;
      Utils.console := Utils.console w ++ [saved_message output_file] |},
   inr tt).
Proof.
  intros Hcols.
  unfold Utils.create_summary_report.
  unfold Py.bind at 1. unfold Utils.open_w at 1. rewrite opened.
  unfold Py.modify at 1.
  do 4 (unfold Py.bind at 1; unfold Utils.write at 1, Py.modify at 1;
        cbn [Utils.file Utils.console]).
  unfold Py.bind at 1. unfold Pd.column_names at 1.
  rewrite column_loop by (intros; now apply getitem_own_column).
  unfold Py.bind at 1; unfold Utils.write at 1, Py.modify at 1;
    cbn [Utils.file Utils.console].
  unfold Py.bind at 1. unfold Py.lift at 1.
  rewrite describe_some_column by exact Hcols.
  do 2 (unfold Py.bind at 1; unfold Utils.write at 1, Py.modify at 1;
        cbn [Utils.file Utils.console]).
  unfold Py.bind at 1.
  unfold report_head, correlation_body, saved_message. cbv zeta.
  set (numeric := Pd.select_dtypes_number df).
  unfold Pd.column_names at 1. rewrite length_map.
  destruct (Nat.ltb 1 (List.length (Pd.columns numeric))).
  - unfold Py.bind at 1. unfold Py.lift at 1.
    unfold numeric at 1. rewrite getitem_numeric_columns by exact unique.
    unfold Utils.write at 1, Py.modify at 1, Utils.say, Py.modify, Pd.corr.
    cbn [Utils.file Utils.console Pd.shape fst snd]. fold numeric.
    now rewrite <- !app_assoc.
  - unfold Py.ret, Utils.say, Py.modify.
    cbn [Utils.file Utils.console Pd.shape fst snd].
    now rewrite <- !app_assoc.
Qed.

(** On a table without columns [describe] raises: the file stops after the
    statistics header and the call does not return. *)
Lemma create_summary_report_no_columns w :
  Pd.columns df = [] ->
  Utils.create_summary_report memory_usage_deep open_error df output_file w =
  ({| Utils.file :=
        [ Utils.Text ("=== データサマリーレポート ===" ++ Utils.nl ++ Utils.nl)%string;
          Utils.Text ("データ形状: " ++ Py.str_of_pair (Pd.index_len df) 0 ++
                      Utils.nl)%string;
          Utils.Text ("メモリ使用量: " ++
                      Py.format_f 2 (Utils.mebibytes memory_usage_deep df) ++
                      " MB" ++ Utils.nl ++ Utils.nl)%string;
          Utils.Text ("=== 列情報 ===" ++ Utils.nl)%string;
          Utils.Text (Utils.nl ++ "=== 統計情報 ===" ++ Utils.nl)%string ];
      Utils.console := Utils.console w |},
   inl (Py.ValueError "Cannot describe a DataFrame without columns")).
Proof.
  intros Hcols.
  unfold Utils.create_summary_report, Utils.open_w, Pd.column_names,
    Pd.describe, Pd.shape.
  rewrite opened, Hcols. reflexivity.
Qed.

End ReportFacts.

Section ReportClaims.

Variable memory_usage_deep : Pd.DataFrame -> N.
Variable open_error : string -> option Py.exn.
Variable df : Pd.DataFrame.
Variable output_file : string.
Variable w : Utils.report_world.

Let result :=
  Utils.create_summary_report memory_usage_deep open_error df output_file w.

Lemma no_correlation_in_head f :
  ~ In (Utils.Rendered (Pd.Corr f)) (report_head memory_usage_deep df).
Proof.
  unfold report_head. rewrite !in_app_iff, in_map_iff. simpl.
  intros [H|[[c [H _]]|H]]; [| |]; try discriminate;
    repeat (destruct H as [H|H]; try discriminate); exact H.
Qed.

Lemma no_rounding_in_report k f :
  ~ In (Utils.Rendered (Pd.Round k f))
       (report_head memory_usage_deep df ++
        [Utils.Text Utils.correlation_header] ++ correlation_body df).
Proof.
  unfold report_head, correlation_body. rewrite !in_app_iff, in_map_iff.
  destruct (Nat.ltb 1 _); simpl;
    intros [[H|[[c [H _]]|H]]|H]; try discriminate;
    repeat (destruct H as [H|H]; try discriminate); exact H.
Qed.

(** C1 (amended). On a table with unique labels, at least one column and
    fewer than two numeric columns the report builder, unless [open] fails
    (its error is then raised and nothing is written), returns; the file
    ends with the correlation header line and holds no correlation matrix:
    the body of the section is left out, its header is not. *)
Theorem report_keeps_correlation_header :
  NoDup (Pd.column_names df) ->
  Pd.columns df <> [] ->
  List.length (Pd.column_names (Pd.select_dtypes_number df)) < 2 ->
  match open_error output_file with
  | Some e => result = (w, inl e)
  | None =>
      snd result = inr tt /\
      last (Utils.file (fst result)) (Utils.Text "") =
        Utils.Text Utils.correlation_header /\
      forall f, ~ In (Utils.Rendered (Pd.Corr f)) (Utils.file (fst result))
  end.
Proof.
  intros Hu Hc Hn. unfold result.
  destruct (open_error output_file) as [e|] eqn:Ho;
    [now apply create_summary_report_not_opened|].
  rewrite create_summary_report_written by assumption.
  unfold Pd.column_names in Hn. rewrite length_map in Hn.
  unfold correlation_body.
  destruct (Nat.ltb_spec 1 (List.length (Pd.columns (Pd.select_dtypes_number df))))
    as [Hlt|_]; [lia|].
  cbn [fst snd Utils.file]. split; [reflexivity|]. split.
  - rewrite app_nil_r. apply last_last.
  - intros f. rewrite app_nil_r, in_app_iff. intros [H|[H|[]]].
    + exact (no_correlation_in_head H).
    + discriminate.
Qed.


(** The tables the report holds: the statistics and, if any, the
    correlation matrix. *)
Lemma rendered_in_report f :
  In (Utils.Rendered f)
     (report_head memory_usage_deep df ++
      [Utils.Text Utils.correlation_header] ++ correlation_body df) ->
  f = Pd.Describe df \/ f = Pd.Corr (Pd.select_dtypes_number df).
Proof.
  unfold report_head, correlation_body. rewrite !in_app_iff, in_map_iff.
  destruct (Nat.ltb 1 _); cbn [In];
    intros [[H|[[c [H _]]|H]]|H]; try discriminate;
    decompose [or] H; try discriminate; try contradiction;
    match goal with E : Utils.Rendered _ = Utils.Rendered _ |- _ =>
      injection E as <-; auto end.
Qed.

(** Without rows the percentage of every column is zero divided by zero. *)
Lemma missing_percent_no_rows c :
  Pd.well_formed df -> Pd.len df = 0 -> In c (Pd.columns df) ->
  Py.format_f 1 (Utils.missing_percent (Pd.isnull_sum (snd c)) (Pd.len df)) =
  "nan".
Proof.
  intros [_ Hsizes] Hrows Hin. rewrite Hrows.
  rewrite Forall_forall in Hsizes. specialize (Hsizes c Hin).
  pose proof (isnull_sum_le_size (snd c)) as Hle. unfold Pd.len in Hrows.
  assert (E : Pd.isnull_sum (snd c) = 0) by lia.
  rewrite E. reflexivity.
Qed.

(** C2 (amended). Once the file is open, on a well-formed table with at
    least one column, every column has its line in the report and the
    percentage on it is printed by [format(.,'.1f')]: with at least one row
    (and fewer than [2^63], the range of pandas' counts) it is the numeral,
    with exactly one digit after the point, of the tenths nearest to the
    value; without rows it is [nan].  The statistics block is
    [df.describe()] as pandas renders it, its [min] and [max] entries are
    the least and the greatest value of each numeric column as they are,
    and no table in the report has been rounded by the builder. *)
Theorem report_percentages_one_decimal :
  open_error output_file = None ->
  Pd.well_formed df ->
  Pd.columns df <> [] ->
  (forall c, In c (Pd.columns df) ->
     let pct := Utils.missing_percent (Pd.isnull_sum (snd c)) (Pd.len df) in
     In (Utils.Text
           (fst c ++ ": " ++ Pd.dtype_name (Pd.dtype_of (snd c)) ++
            ", 欠損値: " ++ Py.str_of_nat (Pd.isnull_sum (snd c)) ++
            " (" ++ Py.format_f 1 pct ++ "%)" ++ Utils.nl)%string)
        (Utils.file (fst result)) /\
     (0 < Pd.len df -> (Z.of_nat (Pd.len df) < 2 ^ 63)%Z ->
      one_decimal (Py.format_f 1 pct) /\
      exists n, nearest_tenths pct n /\
                Py.format_f 1 pct = tenths_numeral (sign_bit pct) n) /\
     (Pd.len df = 0 -> Py.format_f 1 pct = "nan")) /\
  In (Utils.Rendered (Pd.Describe df)) (Utils.file (fst result)) /\
  (forall c e, In c (Pd.columns df) ->
     Pd.frame_extreme (Pd.Describe df) e (fst c) =
     Pd.describe_extreme e (snd c)) /\
  (forall f, In (Utils.Rendered f) (Utils.file (fst result)) ->
     f = Pd.Describe df \/ f = Pd.Corr (Pd.select_dtypes_number df)) /\
  forall k f, ~ In (Utils.Rendered (Pd.Round k f)) (Utils.file (fst result)).
Proof.
  intros Ho [Hu Hsizes] Hc. unfold result.
  rewrite create_summary_report_written by assumption.
  cbn [fst Utils.file]. split; [|split; [|split; [|split]]].
  - intros c Hin. cbv zeta. split; [|split].
    + unfold report_head. rewrite !in_app_iff. left. right. left.
      apply in_map_iff. exists c. split; [reflexivity|exact Hin].
    + intros Hrows Hrange.
      assert (Hfin : F64.is_finite
                       (Utils.missing_percent (Pd.isnull_sum (snd c))
                          (Pd.len df)) = true).
      { apply missing_percent_finite; try assumption.
        rewrite Forall_forall in Hsizes. unfold Pd.len.
        rewrite <- (Hsizes c Hin). apply isnull_sum_le_size. }
      split; [now apply format_f_one_decimal|].
      destruct (format_f_nearest _ Hfin) as (n & _ & Hn & E). now exists n.
    + intros Hrows. apply missing_percent_no_rows; [now split|assumption..].
  - unfold report_head. rewrite !in_app_iff. left. right. right.
    simpl. auto.
  - intros c e Hin. cbn [Pd.frame_extreme].
    now rewrite (@getitem_own_column df Hu c Hin).
  - intros f. apply rendered_in_report.
  - intros k f. apply no_rounding_in_report.
Qed.

End ReportClaims.

(** *** The report on concrete tables *)

Lemma one_numeric_column_unique : NoDup (Pd.column_names one_numeric_column).
Proof. repeat constructor. simpl. tauto. Qed.

(** One numeric column: the report carries the correlation header, with
    nothing after it. *)
Lemma report_header_without_body :
  List.length (Pd.column_names (Pd.select_dtypes_number one_numeric_column)) = 1 /\
  In (Utils.Text Utils.correlation_header) one_column_report /\
  last one_column_report (Utils.Text "") = Utils.Text Utils.correlation_header.
Proof.
  split; [reflexivity|]. split; [|reflexivity].
  vm_compute. repeat (first [left; reflexivity | right]).
Qed.

Lemma report_keeps_correlation_header_witness :
  snd (Utils.create_summary_report eight_bytes_per_cell writable
         one_numeric_column "report.txt" empty_world) = inr tt /\
  last one_column_report (Utils.Text "") =
    Utils.Text Utils.correlation_header /\
  forall f, ~ In (Utils.Rendered (Pd.Corr f)) one_column_report.
Proof.
  apply (@report_keeps_correlation_header eight_bytes_per_cell writable
           one_numeric_column "report.txt" empty_world).
  - exact one_numeric_column_unique.
  - discriminate.
  - simpl. lia.
Defined.

Lemma eighths_well_formed : Pd.well_formed eighths.
Proof.
  split; [|repeat constructor].
  repeat constructor. simpl. tauto.
Qed.

(** The column [0.125, 0.5]: the report holds [describe()] as it is, whose
    [min] is 0.125; rounded to two decimal places as the specification
    words it, that entry would be 0.12, which no table of the report
    carries.  And without rows the percentage is no decimal numeral at
    all. *)
Lemma report_statistics_unrounded :
  In (Utils.Rendered (Pd.Describe eighths)) eighths_report /\
  Pd.frame_extreme (Pd.Describe eighths) Pd.Min "x" = Some eighth /\
  Pd.frame_extreme (statistics_as_specified eighths) Pd.Min "x" =
    Some (F64.div (F64.of_Z 12) (F64.of_Z 100)) /\
  F64.div (F64.of_Z 12) (F64.of_Z 100) <> eighth /\
  (forall f, In (Utils.Rendered f) eighths_report ->
     Pd.frame_extreme f Pd.Min "x" <>
     Pd.frame_extreme (statistics_as_specified eighths) Pd.Min "x") /\
  Utils.column_line "x" (Pd.Floats []) (Pd.len no_rows) =
    ("x: float64, 欠損値: 0 (nan%)" ++ Utils.nl)%string.
Proof.
  assert (Hmin : Pd.frame_extreme (Pd.Describe eighths) Pd.Min "x" =
                 Some eighth) by (vm_compute; reflexivity).
  assert (Hspec : Pd.frame_extreme (statistics_as_specified eighths) Pd.Min
                    "x" = Some (F64.div (F64.of_Z 12) (F64.of_Z 100)))
    by (vm_compute; reflexivity).
  split; [|split; [exact Hmin|split; [exact Hspec|split; [|split]]]].
  - vm_compute. repeat (first [left; reflexivity | right]).
  - vm_compute. discriminate.
  - intros f Hf. rewrite Hspec.
    destruct (@rendered_in_report eight_bytes_per_cell eighths f) as [->| ->].
    + unfold eighths_report in Hf.
      rewrite (@create_summary_report_written eight_bytes_per_cell writable
                 eighths "report.txt" eq_refl (proj1 eighths_well_formed))
        in Hf by discriminate.
      exact Hf.
    + rewrite Hmin. vm_compute. discriminate.
    + cbn [Pd.frame_extreme]. discriminate.
  - reflexivity.
Qed.

Lemma one_numeric_column_well_formed : Pd.well_formed one_numeric_column.
Proof. split; [exact one_numeric_column_unique|]. repeat constructor. Qed.

Lemma report_percentages_one_decimal_witness :
  In (Utils.Text ("x: float64, 欠損値: 0 (0.0%)" ++ Utils.nl)%string)
     one_column_report /\
  one_decimal "0.0" /\
  In (Utils.Rendered (Pd.Describe one_numeric_column)) one_column_report /\
  Pd.frame_extreme (Pd.Describe one_numeric_column) Pd.Max "x" =
    Some (F64.of_Z 3).
Proof.
  destruct (@report_percentages_one_decimal eight_bytes_per_cell writable
              one_numeric_column "report.txt" empty_world eq_refl
              one_numeric_column_well_formed)
    as [Hline [Hstats [Hext _]]]; [discriminate|].
  destruct (Hline ("x", floats_of [1; 2; 3]%Z) (or_introl eq_refl))
    as [Hin [Hfig _]].
  split; [exact Hin|]. split; [|split; [exact Hstats|]].
  - apply Hfig; [simpl; lia|reflexivity].
  - pose proof (Hext ("x", floats_of [1; 2; 3]%Z) Pd.Max (or_introl eq_refl))
      as E.
    cbn [fst snd] in E. rewrite E. vm_compute. reflexivity.
Defined.

(** ** The correlation matrix *)

Section PearsonFacts.

Import Reals Lra.
Import Pearson.
Local Open Scope R_scope.





















Section CorrelationClaim.

Variable memory_usage_deep : Pd.DataFrame -> N.
Variable open_error : string -> option Py.exn.
Variable df : Pd.DataFrame.
Variable output_file : string.
Variable w : Utils.report_world.

Let result :=
  Utils.create_summary_report memory_usage_deep open_error df output_file w.
Let numeric : Pd.DataFrame := Pd.select_dtypes_number df.


End CorrelationClaim.




End PearsonFacts.

(** ** The explorer *)

Section ExplorerFacts.

Variable memory_usage_deep : Pd.DataFrame -> N.
Variable df : Pd.DataFrame.

Lemma missing_rows_filter :
  Utils.missing_rows df = map (missing_row_of df) (columns_with_missing df).
Proof.
  unfold Utils.missing_rows, Utils.missing_df, Pd.isnull_sum_all,
    columns_with_missing, missing_row_of.
  rewrite map_map, filter_map_swap. reflexivity.
Qed.

Lemma explore_data_output show_info show_stats out :
  show_stats = false \/ Pd.columns df <> [] ->
  Utils.explore_data memory_usage_deep df show_info show_stats out =
  (out ++ explore_preamble memory_usage_deep df show_info show_stats ++
   [Utils.MissingTable (Utils.missing_rows df)], inr tt).
Proof.
  intros Hok. unfold Utils.explore_data, explore_preamble.
  assert (Hd : show_stats = true -> Pd.describe df = inr (Pd.Describe df)).
  { intros ->. destruct Hok as [|Hc]; [discriminate|].
    unfold Pd.describe. now destruct (Pd.columns df). }
  destruct show_info, show_stats; try rewrite (Hd eq_refl);
    cbv beta iota delta [Py.bind Utils.print Py.modify Py.ret Py.lift];
    cbn [app Pd.shape fst snd]; rewrite <- ?app_assoc; reflexivity.
Qed.

(** C3 (amended). Whenever the explorer gets to its last section (always,
    unless the statistics are asked of a table without columns), the last
    thing it prints is the table of the columns whose missing count is not
    zero, in table order, each with its count and with the rate
    [missing / rows * 100] as computed, not rounded.  Three columns with
    missing counts 0, 2, 0 over ten rows give one row, with rate 20.0. *)
Theorem explore_data_missing_table show_info show_stats out :
  show_stats = false \/ Pd.columns df <> [] ->
  Utils.explore_data memory_usage_deep df show_info show_stats out =
  (out ++ explore_preamble memory_usage_deep df show_info show_stats ++
   [Utils.MissingTable (map (missing_row_of df) (columns_with_missing df))],
   inr tt) /\
  (Pd.index_len df = 10 ->
   map (fun c => Pd.isnull_sum (snd c)) (Pd.columns df) = [0; 2; 0] ->
   exists label,
     map (missing_row_of df) (columns_with_missing df) =
     [{| Utils.row_label := label; Utils.missing_count := 2;
         Utils.missing_rate := F64.of_Z 20 |}]).
Proof.
  intros Hok. split.
  - rewrite <- missing_rows_filter. now apply explore_data_output.
  - intros Hrows Hmiss. unfold columns_with_missing, missing_row_of, Pd.len.
    rewrite Hrows.
    destruct (Pd.columns df) as [|a [|b [|c [|d l]]]]; try discriminate.
    simpl in Hmiss. injection Hmiss as Ha Hb Hc.
    exists (fst b). simpl. rewrite Ha, Hb, Hc.
    change (0 <? 0)%nat with false. change (0 <? 2)%nat with true.
    cbn [map]. rewrite Hb. reflexivity.
Qed.

End ExplorerFacts.

(** One value missing out of three gives the rate 33.33333333333333 (which
    pandas prints as 33.333333), where rounding to one decimal place would
    give 33.3. *)
Lemma explorer_rate_unrounded :
  last (fst (Utils.explore_data eight_bytes_per_cell one_missing_of_three true true []))
       (Utils.Line "") =
  Utils.MissingTable
    [{| Utils.row_label := "a"; Utils.missing_count := 1;
        Utils.missing_rate := S754_finite false 4691249611844266 (-47) |}] /\
  missing_rows_as_specified one_missing_of_three =
    [{| Utils.row_label := "a"; Utils.missing_count := 1;
        Utils.missing_rate := S754_finite false 4686558362232422 (-47) |}].
Proof. split; reflexivity. Qed.

Lemma explore_data_missing_table_witness :
  Utils.explore_data eight_bytes_per_cell two_missing_of_ten true true [] =
  ([] ++ explore_preamble eight_bytes_per_cell two_missing_of_ten true true ++
   [Utils.MissingTable
      (map (missing_row_of two_missing_of_ten)
           (columns_with_missing two_missing_of_ten))],
   inr tt) /\
  exists label,
    map (missing_row_of two_missing_of_ten)
        (columns_with_missing two_missing_of_ten) =
    [{| Utils.row_label := label; Utils.missing_count := 2;
        Utils.missing_rate := F64.of_Z 20 |}].
Proof.
  destruct (@explore_data_missing_table eight_bytes_per_cell
              two_missing_of_ten true true []) as [Hprinted Hexample].
  - right. discriminate.
  - split; [exact Hprinted|]. apply Hexample; reflexivity.
Defined.

(** ** The histogram grid *)

Section GridFacts.

Lemma grid_one_row nc : Plt.grid 1 nc = [seq 0 nc].
Proof.
  unfold Plt.grid. simpl. f_equal. apply map_id.
Qed.

Lemma index2_grid nr nc i :
  i < nr * nc ->
  Plt.index2 (Plt.Arr2 (Plt.grid nr nc)) (i / nc) (i mod nc) = inr i.
Proof.
  intros Hi.
  assert (Hnc : nc <> 0) by (intros ->; lia).
  assert (Hr : i / nc < nr) by (apply Nat.Div0.div_lt_upper_bound; lia).
  assert (Hc : i mod nc < nc) by (apply Nat.mod_upper_bound; exact Hnc).
  unfold Plt.index2, Plt.grid.
  rewrite nth_error_map, nth_error_seq.
  destruct (Nat.ltb_spec (i / nc) nr) as [_|]; [|lia]. simpl.
  rewrite nth_error_map, nth_error_seq.
  destruct (Nat.ltb_spec (i mod nc) nc) as [_|]; [|lia]. simpl.
  f_equal. rewrite (Nat.div_mod_eq i nc) at 3. lia.
Qed.

Lemma update_middle {A} (f : A -> A) (done : list A) x rest :
  Plt.update (List.length done) f (done ++ x :: rest) = done ++ f x :: rest.
Proof. induction done as [|d done IH]; simpl; [reflexivity|now rewrite IH]. Qed.

End GridFacts.

Section Hiding.

Lemma floordiv_pos a b : b <> 0 -> Py.floordiv a b = inr (a / b).
Proof. destruct b; [congruence|reflexivity]. Qed.

Lemma modulo_pos a b : b <> 0 -> Py.modulo a b = inr (a mod b).
Proof. destruct b; [congruence|reflexivity]. Qed.

Variables nr nc : nat.
Variable size : option (nat * nat).

Let fig (objs : list Plt.Axes) (t s : bool) : Plt.state :=
  {| Plt.objects := objs; Plt.figsize := size; Plt.tight := t;
     Plt.shown := s |}.

Let hide : nat -> Py.M Plt.state unit :=
  fun i =>
    (row <- Py.lift (Py.floordiv i nc) ;;
     col_idx <- Py.lift (Py.modulo i nc) ;;
     ax <- Py.lift (Plt.index2 (Plt.Arr2 (Plt.grid nr nc)) row col_idx) ;;
     Plt.set_visible ax false)%py.

Lemma hide_one done rest t s :
  List.length done < nr * nc ->
  hide (List.length done) (fig (done ++ Plt.new_axes :: rest) t s) =
  (fig (done ++ hidden_axes :: rest) t s, inr tt).
Proof.
  intros Hlt.
  assert (Hnc : nc <> 0) by (intros ->; lia).
  unfold hide, Py.bind, Py.lift.
  rewrite (floordiv_pos _ Hnc), (modulo_pos _ Hnc), index2_grid by exact Hlt.
  unfold Plt.set_visible, Plt.on_axes, Py.modify, fig. simpl.
  now rewrite update_middle.
Qed.

Lemma hide_loop m : forall done rest t s,
  List.length done + m <= nr * nc ->
  Py.for_each (seq (List.length done) m) hide
    (fig (done ++ repeat Plt.new_axes m ++ rest) t s) =
  (fig (done ++ repeat hidden_axes m ++ rest) t s, inr tt).
Proof.
  induction m as [|m IH]; intros done rest t s Hlen.
  - reflexivity.
  - cbn [seq repeat app Py.for_each].
    unfold Py.bind at 1.
    rewrite hide_one by lia.
    specialize (IH (done ++ [hidden_axes]) rest t s).
    rewrite length_app in IH. simpl in IH.
    rewrite Nat.add_1_r, <- !app_assoc in IH. simpl in IH.
    apply IH; lia.
Qed.

End Hiding.

Section Layout.

Variable df : Pd.DataFrame.

Lemma getitem_present c :
  In c (Pd.column_names df) -> Pd.getitem df c = inr (column_or_empty df c).
Proof.
  unfold column_or_empty, Pd.getitem, Pd.column_names. intros Hin.
  destruct (find _ (Pd.columns df)) eqn:Hf; [reflexivity|].
  apply in_map_iff in Hin. destruct Hin as [x [Hx Hin]].
  apply (find_none _ _ Hf) in Hin. simpl in Hin.
  rewrite Hx, String.eqb_refl in Hin. discriminate.
Qed.

Variables nr nc : nat.
Variable size : option (nat * nat).

Let fig (objs : list Plt.Axes) (t s : bool) : Plt.state :=
  {| Plt.objects := objs; Plt.figsize := size; Plt.tight := t;
     Plt.shown := s |}.

Let draw : nat * string -> Py.M Plt.state unit :=
  fun '(i, col) =>
    (row <- Py.lift (Py.floordiv i nc) ;;
     col_idx <- Py.lift (Py.modulo i nc) ;;
     ax <- Py.lift (Plt.index2 (Plt.Arr2 (Plt.grid nr nc)) row col_idx) ;;
     series <- Py.lift (Pd.getitem df col) ;;
     Plt.hist ax series Utils.hist_bins Utils.hist_alpha ;;;
     Plt.set_title ax (col ++ "の分布")%string ;;;
     Plt.set_xlabel ax col ;;;
     Plt.set_ylabel ax "頻度")%py.

Lemma draw_one done rest c t s :
  List.length done < nr * nc ->
  In c (Pd.column_names df) ->
  Plt.hist_error (column_or_empty df c) = None ->
  draw (List.length done, c) (fig (done ++ Plt.new_axes :: rest) t s) =
  (fig (done ++ plotted_axes df c :: rest) t s, inr tt).
Proof.
  intros Hlt Hin Hok.
  assert (Hnc : nc <> 0) by (intros ->; lia).
  unfold draw, Py.bind, Py.lift.
  rewrite (floordiv_pos _ Hnc), (modulo_pos _ Hnc), index2_grid by exact Hlt.
  rewrite getitem_present by exact Hin.
  unfold Plt.hist. rewrite Hok.
  unfold Plt.set_title, Plt.set_xlabel, Plt.set_ylabel,
    Plt.on_axes, Py.modify, fig. simpl.
  now rewrite !update_middle.
Qed.

Lemma draw_loop cs : forall done rest t s,
  List.length done + List.length cs <= nr * nc ->
  Forall (fun c => In c (Pd.column_names df)) cs ->
  Forall (fun c => Plt.hist_error (column_or_empty df c) = None) cs ->
  Py.for_each (combine (seq (List.length done) (List.length cs)) cs) draw
    (fig (done ++ repeat Plt.new_axes (List.length cs) ++ rest) t s) =
  (fig (done ++ map (plotted_axes df) cs ++ rest) t s, inr tt).
Proof.
  induction cs as [|c cs IH]; intros done rest t s Hlen Hall Hok.
  - reflexivity.
  - inversion Hall as [|? ? Hc Hcs]; subst.
    inversion Hok as [|? ? Hd Hds]; subst. simpl in Hlen.
    cbn [List.length seq combine repeat map app Py.for_each].
    unfold Py.bind at 1.
    rewrite draw_one by (assumption || lia).
    specialize (IH (done ++ [plotted_axes df c]) rest t s).
    rewrite length_app in IH. simpl in IH.
    rewrite Nat.add_1_r, <- !app_assoc in IH. simpl in IH.
    apply IH; [lia|assumption|assumption].
Qed.

End Layout.

Section LayoutTheorem.

Variable df : Pd.DataFrame.
Variable columns : option (list string).
Variable figsize : nat * nat.

Let cols : list string := Utils.selected_columns df columns.
Let n : nat := List.length cols.

Lemma subplots_pos nr nc size st :
  nr <> 0 -> nc <> 0 ->
  Plt.subplots nr nc size st =
  ({| Plt.objects := repeat Plt.new_axes (nr * nc);
      Plt.figsize := Some size; Plt.tight := false; Plt.shown := false |},
   inr (Plt.squeeze nr nc)).
Proof.
  unfold Plt.subplots. destruct nr, nc; intros; congruence || reflexivity.
Qed.

Lemma squeeze_then_reshape nr nc (st : Plt.state) :
  nr <> 0 -> 2 <= nc ->
  (if Nat.eqb nr 1 then Py.lift (Plt.reshape_one_row (Plt.squeeze nr nc))
   else Py.ret (Plt.squeeze nr nc)) st =
  (st, inr (Plt.Arr2 (Plt.grid nr nc))).
Proof.
  intros Hnr Hnc.
  destruct nr as [|[|nr]]; [congruence| |];
    destruct nc as [|[|nc]]; try lia; simpl Nat.eqb; cbv iota.
  - unfold Plt.squeeze, Py.lift, Plt.reshape_one_row.
    now rewrite grid_one_row.
  - reflexivity.
Qed.

Lemma ceil_rows nc :
  nc = Nat.min 3 n -> 2 <= n ->
  let nr := (n + nc - 1) / nc in
  nr <> 0 /\ n <= nr * nc /\ 3 * (nr - 1) < n <= 3 * nr.
Proof.
  intros Hnc Hn nr.
  assert (H0 : nc <> 0) by lia.
  pose proof (Nat.div_mod_eq (n + nc - 1) nc) as E.
  pose proof (Nat.mod_upper_bound (n + nc - 1) nc H0) as B.
  fold nr in E.
  destruct (Nat.le_gt_cases 3 n) as [H3|H3].
  - assert (nc = 3) by lia. subst nc. lia.
  - assert (n = 2) by lia. assert (nc = 2) by lia. subst nc.
    assert (nr = 1) by nia. lia.
Qed.

(** For two columns or more, all of them columns of the table that
    [Series.hist] draws: one histogram per column, in row-major order, with
    30 bins and transparency 0.7, on a grid of [min 3 n] columns and
    [ceil (n / 3)] rows whose remaining cells are hidden. *)
Lemma plot_distributions_layout (st : Plt.state) :
  2 <= n ->
  Forall (fun c => In c (Pd.column_names df)) cols ->
  Forall (fun c => Plt.hist_error (column_or_empty df c) = None) cols ->
  let n_cols := Nat.min 3 n in
  let n_rows := (n + n_cols - 1) / n_cols in
  3 * (n_rows - 1) < n <= 3 * n_rows /\
  Utils.plot_distributions df columns figsize st =
  ({| Plt.objects := map (plotted_axes df) cols ++
                     repeat hidden_axes (n_rows * n_cols - n);
      Plt.figsize := Some figsize; Plt.tight := true; Plt.shown := true |},
   inr tt).
Proof.
  intros Hn Hall Hok n_cols n_rows.
  destruct (@ceil_rows n_cols eq_refl Hn) as [Hnr [Hcells Hceil]].
  fold n_rows in Hnr, Hcells, Hceil.
  split; [exact Hceil|].
  assert (Hnc : n_cols <> 0) by (unfold n_cols; lia).
  assert (Hnc2 : 2 <= n_cols) by (unfold n_cols; lia).
  unfold Utils.plot_distributions. fold cols. fold n. fold n_cols.
  unfold Py.bind at 1. unfold Py.lift at 1.
  rewrite floordiv_pos by exact Hnc. fold n_rows.
  unfold Py.bind at 1. rewrite subplots_pos by assumption.
  unfold Py.bind at 1. rewrite squeeze_then_reshape by assumption.
  assert (Hsplit : repeat Plt.new_axes (n_rows * n_cols) =
                   [] ++ repeat Plt.new_axes n ++
                   repeat Plt.new_axes (n_rows * n_cols - n)).
  { simpl. rewrite <- repeat_app. f_equal. lia. }
  rewrite Hsplit.
  unfold Py.bind at 1. unfold Py.enumerate. fold n.
  pose proof (@draw_loop df n_rows n_cols (Some figsize) cols []
                (repeat Plt.new_axes (n_rows * n_cols - n)) false false)
    as HD.
  cbv zeta in HD. simpl List.length in HD. fold n in HD.
  rewrite HD by (assumption || (simpl; lia)). clear HD.
  unfold Py.bind at 1.
  pose proof (@hide_loop n_rows n_cols (Some figsize)
                (n_rows * n_cols - n) (map (plotted_axes df) cols) []
                false false) as HH.
  cbv zeta in HH. rewrite length_map in HH. fold n in HH.
  rewrite !app_nil_r in HH. simpl app.
  rewrite HH by lia. clear HH.
  reflexivity.
Qed.

End LayoutTheorem.

Section PlotFacts.

Variable df : Pd.DataFrame.
Variable columns : option (list string).
Variable figsize : nat * nat.

Let cols : list string := Utils.selected_columns df columns.

(** C10. With no column to plot [plot_distributions] stops on the division
    by [n_cols = 0], before any figure exists; with exactly one column it
    stops on [axes.reshape], the figure holding one empty [Axes].  Hence a
    call that returns has plotted at least two columns. *)
Theorem plot_distributions_needs_two_columns (st : Plt.state) :
  (List.length cols = 0 ->
     Utils.plot_distributions df columns figsize st =
     (st, inl (Py.ZeroDivisionError "integer division or modulo by zero"))) /\
  (List.length cols = 1 ->
     Utils.plot_distributions df columns figsize st =
     (single_blank_figure figsize,
      inl (Py.AttributeError "'Axes' object has no attribute 'reshape'"))) /\
  (forall st', Utils.plot_distributions df columns figsize st = (st', inr tt) ->
     2 <= List.length cols).
Proof.
  unfold Utils.plot_distributions. fold cols.
  destruct cols as [|c [|c' cs]]; simpl List.length;
    (split; [|split]); intros; try discriminate; try reflexivity; lia.
Qed.

End PlotFacts.

Lemma plot_distributions_needs_two_columns_witness :
  Utils.plot_distributions one_numeric_column (Some []) Utils.default_figsize
    Plt.initial =
    (Plt.initial,
     inl (Py.ZeroDivisionError "integer division or modulo by zero")) /\
  Utils.plot_distributions one_numeric_column (Some ["x"])
    Utils.default_figsize Plt.initial =
    (single_blank_figure Utils.default_figsize,
     inl (Py.AttributeError "'Axes' object has no attribute 'reshape'")).
Proof.
  split.
  - apply (@plot_distributions_needs_two_columns one_numeric_column (Some [])
             Utils.default_figsize Plt.initial). reflexivity.
  - apply (@plot_distributions_needs_two_columns one_numeric_column
             (Some ["x"]) Utils.default_figsize Plt.initial). reflexivity.
Defined.

(** *** The grid on concrete tables *)

Lemma numeric_columns_present df :
  Forall (fun c => In c (Pd.column_names df))
         (Utils.selected_columns df None).
Proof.
  unfold Utils.selected_columns, Pd.column_names, Pd.select_dtypes_number.
  simpl. apply Forall_forall. intros c Hc.
  apply in_map_iff in Hc. destruct Hc as [x [Hx Hin]].
  apply filter_In in Hin. apply in_map_iff. exists x. tauto.
Qed.

(** Seven numeric columns that [Series.hist] draws give three rows of three
    cells: seven histograms followed by two hidden cells. *)
Lemma plot_distributions_seven_columns df figsize st :
  List.length (Utils.selected_columns df None) = 7 ->
  Forall (fun c => Plt.hist_error (column_or_empty df c) = None)
         (Utils.selected_columns df None) ->
  Utils.plot_distributions df None figsize st =
  ({| Plt.objects := map (plotted_axes df) (Utils.selected_columns df None) ++
                     [hidden_axes; hidden_axes];
      Plt.figsize := Some figsize; Plt.tight := true; Plt.shown := true |},
   inr tt).
Proof.
  intros H7 Hok.
  destruct (@plot_distributions_layout df None figsize st) as [_ E].
  - rewrite H7. lia.
  - apply numeric_columns_present.
  - exact Hok.
  - rewrite E, H7. reflexivity.
Qed.

Lemma plot_distributions_seven_columns_example :
  List.length (Utils.selected_columns seven_numeric_columns None) = 7 /\
  Plt.objects
    (fst (Utils.plot_distributions seven_numeric_columns None
            Utils.default_figsize Plt.initial)) =
  map (plotted_axes seven_numeric_columns)
      ["a"; "b"; "c"; "d"; "e"; "f"; "g"] ++ [hidden_axes; hidden_axes].
Proof.
  split; [reflexivity|].
  rewrite (@plot_distributions_seven_columns seven_numeric_columns
             Utils.default_figsize Plt.initial eq_refl).
  - reflexivity.
  - repeat constructor.
Defined.

(** C6. On a table with a single numeric column the call does not lay out a
    one-cell grid: [plt.subplots(1, 1)] hands back a bare [Axes], and the
    [reshape] meant for single-row grids raises before anything is drawn. *)
Theorem plot_distributions_single_column_raises :
  Utils.selected_columns one_numeric_column None = ["x"] /\
  Utils.plot_distributions one_numeric_column None Utils.default_figsize
    Plt.initial =
  ({| Plt.objects := [Plt.new_axes];
      Plt.figsize := Some Utils.default_figsize;
      Plt.tight := false; Plt.shown := false |},
   inl (Py.AttributeError "'Axes' object has no attribute 'reshape'")).
Proof. split; reflexivity. Qed.


(** ** The sample generator *)

Import ExampleAnalysis.

Section ArrayFacts.

Lemma length_take {A} n (f : nat -> A) : List.length (take n f) = n.
Proof. unfold take. now rewrite length_map, length_seq. Qed.

Lemma length_arr_add xs ys :
  List.length xs = List.length ys ->
  List.length (arr_add xs ys) = List.length xs.
Proof.
  intros E. unfold arr_add. rewrite length_map, length_combine, <- E.
  apply Nat.min_id.
Qed.

Lemma nth_arr_add xs ys i :
  List.length xs = List.length ys ->
  nth i (arr_add xs ys) nan = F64.add (nth i xs nan) (nth i ys nan).
Proof.
  intros E. unfold arr_add.
  change nan with ((fun p => F64.add (fst p) (snd p)) (nan, nan)) at 1.
  rewrite map_nth, combine_nth by exact E. reflexivity.
Qed.

Lemma nth_arr_mul_scalar xs k i :
  nth i (arr_mul_scalar xs k) nan = F64.mul (nth i xs nan) (F64.of_Z k).
Proof.
  unfold arr_mul_scalar.
  change nan with ((fun x => F64.mul x (F64.of_Z k)) nan) at 1.
  now rewrite map_nth.
Qed.

Lemma nth_arr_sub_scalar xs k i :
  nth i (arr_sub_scalar xs k) nan = F64.sub (nth i xs nan) (F64.of_Z k).
Proof.
  unfold arr_sub_scalar.
  change nan with ((fun x => F64.sub x (F64.of_Z k)) nan) at 1.
  now rewrite map_nth.
Qed.

Lemma nth_arr_div_scalar xs k i :
  nth i (arr_div_scalar xs k) nan = F64.div (nth i xs nan) (F64.of_Z k).
Proof.
  unfold arr_div_scalar.
  change nan with ((fun x => F64.div x (F64.of_Z k)) nan) at 1.
  now rewrite map_nth.
Qed.

End ArrayFacts.

Section GeneratorFacts.

Variable R : NumpyRandom.

Let draws : raw_draws := draw_all R.
Let data : sample_arrays := add_correlations draws.

Lemma draw_all_lengths :
  List.length (raw_age draws) = n_samples /\
  List.length (raw_income draws) = n_samples /\
  List.length (raw_tenure draws) = n_samples /\
  List.length (raw_satisfaction draws) = n_samples.
Proof.
  unfold draws, draw_all.
  destruct (normal R _ _ _) as [a g1]. destruct (normal R _ _ g1) as [i g2].
  destruct (exponential R _ g2) as [t g3]. destruct (uniform R _ _ g3) as [s g4].
  destruct (choice R _ g4) as [d g5]. destruct (choice R _ g5) as [x g6].
  cbn [raw_age raw_income raw_tenure raw_satisfaction].
  now rewrite !length_take.
Qed.

Lemma length_arr_mul_scalar xs k :
  List.length (arr_mul_scalar xs k) = List.length xs.
Proof. apply length_map. Qed.

Lemma length_arr_sub_scalar xs k :
  List.length (arr_sub_scalar xs k) = List.length xs.
Proof. apply length_map. Qed.

Lemma length_arr_div_scalar xs k :
  List.length (arr_div_scalar xs k) = List.length xs.
Proof. apply length_map. Qed.

Lemma income_length : List.length (income data) = n_samples.
Proof.
  destruct draw_all_lengths as [Ha [Hi [Ht Hs]]].
  unfold data, add_correlations. cbn [income].
  rewrite length_arr_add.
  - rewrite length_arr_add; [exact Hi|].
    rewrite length_arr_mul_scalar. congruence.
  - rewrite length_arr_add, length_arr_mul_scalar;
      rewrite ?length_arr_mul_scalar; congruence.
Qed.

Lemma satisfaction_length : List.length (satisfaction data) = n_samples.
Proof.
  destruct draw_all_lengths as [Ha [Hi [Ht Hs]]].
  pose proof income_length as Hinc.
  unfold data, add_correlations in *. cbn [income satisfaction] in *.
  rewrite length_arr_add; [exact Hs|].
  rewrite length_arr_div_scalar, length_arr_sub_scalar. congruence.
Qed.

(** C4 (amended). Row by row, before clipping: the income is the base draw
    plus 50000 times the age plus 100000 times the tenure, and the
    satisfaction is the uniform draw plus a millionth of the distance of
    that income from the constant 5000000 (the mean of the base draw, not
    the mean of the income column). *)
Theorem add_correlations_rows (i : nat) :
  i < n_samples ->
  nth i (income data) nan =
    F64.add
      (F64.add (nth i (raw_income draws) nan)
               (F64.mul (nth i (raw_age draws) nan) (F64.of_Z 50000)))
      (F64.mul (nth i (raw_tenure draws) nan) (F64.of_Z 100000)) /\
  nth i (satisfaction data) nan =
    F64.add (nth i (raw_satisfaction draws) nan)
            (F64.div (F64.sub (nth i (income data) nan) (F64.of_Z 5000000))
                     (F64.of_Z 1000000)).
Proof.
  intros _.
  destruct draw_all_lengths as [Ha [Hi [Ht Hs]]].
  pose proof income_length as Hinc.
  split.
  - unfold data, add_correlations. cbn [income].
    rewrite !nth_arr_add, !nth_arr_mul_scalar; [reflexivity| |].
    + rewrite length_arr_mul_scalar. congruence.
    + rewrite length_arr_add, length_arr_mul_scalar;
        rewrite ?length_arr_mul_scalar; congruence.
  - unfold data in *. unfold add_correlations in *.
    cbn [income satisfaction] in *.
    rewrite nth_arr_add, nth_arr_div_scalar, nth_arr_sub_scalar.
    + reflexivity.
    + rewrite length_arr_div_scalar, length_arr_sub_scalar. congruence.
Qed.

End GeneratorFacts.

(** *** Clipping *)

Section ClipFacts.

Variables lower upper : Z.
Hypothesis lower_refl : F64.leb (F64.of_Z lower) (F64.of_Z lower) = true.
Hypothesis upper_refl : F64.leb (F64.of_Z upper) (F64.of_Z upper) = true.
Hypothesis ordered : F64.leb (F64.of_Z lower) (F64.of_Z upper) = true.

Lemma clip1_nan x : F64.is_nan x = true -> clip1 lower upper x = x.
Proof. intros H. unfold clip1. now rewrite H. Qed.

Lemma clip1_between x :
  F64.is_nan x = false -> between lower upper (clip1 lower upper x) = true.
Proof.
  intros H. unfold clip1, between, F64.geb. rewrite H. cbn [orb].
  destruct (F64.leb (F64.of_Z lower) x) eqn:El;
    destruct (F64.leb x (F64.of_Z upper)) eqn:Eu;
    rewrite ?El, ?Eu, ?lower_refl, ?upper_refl, ?ordered; reflexivity.
Qed.

Lemma clip_between xs :
  nan_free xs = true ->
  Forall (fun x => between lower upper x = true) (clip lower upper xs).
Proof.
  unfold nan_free, clip. intros H. apply Forall_forall. intros y Hy.
  apply in_map_iff in Hy. destruct Hy as [x [<- Hx]].
  apply clip1_between.
  rewrite forallb_forall in H. specialize (H x Hx).
  now destruct (F64.is_nan x).
Qed.

Lemma length_clip xs : List.length (clip lower upper xs) = List.length xs.
Proof. apply length_map. Qed.

End ClipFacts.

Section ClippedTable.

Variable R : NumpyRandom.
Variable infer_string : bool.

Let data : sample_arrays := add_correlations (draw_all R).

(** C9. Every row of the generated table has its age in [20, 65], its income
    in [2000000, 15000000], its tenure in [0, 30] and its satisfaction in
    [1, 10], the draws being numbers (no NaN before clipping, as NumPy's
    samplers guarantee). *)
Theorem create_sample_data_clipped :
  nan_free (age data) = true ->
  nan_free (income data) = true ->
  nan_free (tenure data) = true ->
  nan_free (satisfaction data) = true ->
  exists a i t s d g,
    create_sample_data R infer_string =
      {| Pd.index_len := n_samples;
         Pd.columns := [ ("年齢", Pd.Floats a); ("年収", Pd.Floats i);
                         ("勤続年数", Pd.Floats t); ("満足度", Pd.Floats s);
                         ("部門", d); ("性別", g) ] |} /\
    (List.length a = n_samples /\ List.length i = n_samples /\
     List.length t = n_samples /\ List.length s = n_samples) /\
    Forall (fun x => between 20 65 x = true) a /\
    Forall (fun x => between 2000000 15000000 x = true) i /\
    Forall (fun x => between 0 30 x = true) t /\
    Forall (fun x => between 1 10 x = true) s.
Proof.
  intros Ha Hi Ht Hs.
  destruct (draw_all_lengths R) as [La [_ [Lt _]]].
  pose proof (income_length R) as Li. pose proof (satisfaction_length R) as Ls.
  do 6 eexists. split; [reflexivity|]. fold data.
  split; [|repeat split].
  - rewrite !length_clip. unfold data at 1 3, add_correlations.
    cbn [age tenure]. fold data. auto.
  - now apply clip_between.
  - now apply clip_between.
  - now apply clip_between.
  - now apply clip_between.
Qed.

End ClippedTable.

(** With all incomes equal to 7250000 the mean of the column is 7250000 and
    no factor [k] makes the formula of the specification give the 3.25 that
    the code computes from the constant 5000000. *)
Lemma satisfaction_not_from_column_mean :
  nth 0 (income degenerate_data) nan = F64.of_Z 7250000 /\
  mean (income degenerate_data) = F64.of_Z 7250000 /\
  nth 0 (raw_satisfaction (draw_all degenerate)) nan = F64.of_Z 1 /\
  nth 0 (satisfaction degenerate_data) nan = F64.div (F64.of_Z 13) (F64.of_Z 4) /\
  forall k,
    satisfaction_as_specified k (income degenerate_data) (F64.of_Z 1)
      (F64.of_Z 7250000) <> F64.div (F64.of_Z 13) (F64.of_Z 4).
Proof.
  assert (Hm : mean (income degenerate_data) = F64.of_Z 7250000)
    by (vm_compute; reflexivity).
  split; [vm_compute; reflexivity|]. split; [exact Hm|].
  split; [vm_compute; reflexivity|]. split; [vm_compute; reflexivity|].
  intros k. unfold satisfaction_as_specified. rewrite Hm.
  destruct k as [s|s| |s m e]; vm_compute; discriminate.
Qed.

Lemma add_correlations_rows_witness :
  nth 0 (income degenerate_data) nan =
    F64.add
      (F64.add (F64.of_Z 5000000) (F64.mul (F64.of_Z 35) (F64.of_Z 50000)))
      (F64.mul (F64.of_Z 5) (F64.of_Z 100000)) /\
  nth 0 (satisfaction degenerate_data) nan =
    F64.add (F64.of_Z 1)
            (F64.div (F64.sub (F64.of_Z 7250000) (F64.of_Z 5000000))
                     (F64.of_Z 1000000)).
Proof.
  destruct (@add_correlations_rows degenerate 0) as [Hi Hs].
  - unfold n_samples. lia.
  - unfold degenerate_data. split; [exact Hi|]. rewrite Hs.
    vm_compute. reflexivity.
Defined.

Lemma create_sample_data_clipped_witness :
  exists a i t s d g,
    create_sample_data degenerate false =
      {| Pd.index_len := n_samples;
         Pd.columns := [ ("年齢", Pd.Floats a); ("年収", Pd.Floats i);
                         ("勤続年数", Pd.Floats t); ("満足度", Pd.Floats s);
                         ("部門", d); ("性別", g) ] |} /\
    (List.length a = n_samples /\ List.length i = n_samples /\
     List.length t = n_samples /\ List.length s = n_samples) /\
    Forall (fun x => between 20 65 x = true) a /\
    Forall (fun x => between 2000000 15000000 x = true) i /\
    Forall (fun x => between 0 30 x = true) t /\
    Forall (fun x => between 1 10 x = true) s.
Proof.
  apply (@create_sample_data_clipped degenerate false); vm_compute; reflexivity.
Defined.

(** ** The pipeline on the generated table *)

Section SampleTable.

Variable R : NumpyRandom.
Variable infer_string : bool.

Lemma draw_all_label_lengths :
  List.length (raw_department (draw_all R)) = n_samples /\
  List.length (raw_gender (draw_all R)) = n_samples.
Proof.
  unfold draw_all.
  destruct (normal R _ _ _) as [a g1]. destruct (normal R _ _ g1) as [i g2].
  destruct (exponential R _ g2) as [t g3]. destruct (uniform R _ _ g3) as [s g4].
  destruct (choice R _ g4) as [d g5]. destruct (choice R _ g5) as [x g6].
  cbn [raw_department raw_gender]. now rewrite !length_take.
Qed.

(** The generated table has six distinct labels and 1000 values in every
    column. *)
Lemma create_sample_data_well_formed : Pd.well_formed (create_sample_data R infer_string).
Proof.
  destruct (draw_all_lengths R) as [La [_ [Lt _]]].
  destruct draw_all_label_lengths as [Ld Lg].
  pose proof (income_length R) as Li. pose proof (satisfaction_length R) as Ls.
  split.
  - unfold create_sample_data. cbn [Pd.columns map fst].
    repeat constructor; cbn [In]; intuition discriminate.
  - unfold create_sample_data. cbn [Pd.columns Pd.index_len].
    destruct infer_string; repeat constructor; cbn [snd Pd.size Pd.labels];
      rewrite ?length_clip, ?length_map; assumption.
Qed.

End SampleTable.

(* ================================================================== *)
(** * Further properties of the code *)
(* ================================================================== *)

(** ** The loader, read backwards *)

Section LoaderInversion.

Variable PyObject : Type.
Implicit Types (path dir : string) (kw : Utils.kwargs PyObject).

(** A suffix of [path] is a suffix of [dir ++ path]. *)
Lemma endswith_prepend dir path suffix :
  Py.endswith path suffix = true ->
  Py.endswith (dir ++ path)%string suffix = true.
Proof.
  intros H. apply endswith_spec in H. destruct H as [prefix ->].
  apply endswith_spec. exists (dir ++ prefix)%string.
  induction dir as [|c dir IH]; simpl; [reflexivity|now rewrite IH].
Qed.

Local Ltac excluded H b E :=
  match type of H with
  | Py.endswith ?s ?a = true =>
      pose proof (@endswith_exclusive s a b eq_refl eq_refl H) as E
  end.

(** X1. What [load_data] returns tells the ending of the path: the call
    carries the path and the keyword arguments it was given, its reader is
    [read_csv] exactly for a path in [.csv], [read_excel] exactly for one in
    [.xlsx] or [.xls], [read_json] exactly for one in [.json]; and it raises
    only when the path has none of the four endings. *)
Theorem load_data_inversion path kw :
  match Utils.load_data path kw with
  | inr c =>
      Utils.call_path c = path /\ Utils.call_kwargs c = kw /\
      (Utils.call_reader c = Utils.read_csv <->
         Py.endswith path ".csv" = true) /\
      (Utils.call_reader c = Utils.read_excel <->
         Py.endswith path ".xlsx" = true \/ Py.endswith path ".xls" = true) /\
      (Utils.call_reader c = Utils.read_json <->
         Py.endswith path ".json" = true)
  | inl e =>
      e = Py.ValueError ("Unsupported file format: " ++ path)%string /\
      Py.endswith path ".csv" = false /\ Py.endswith path ".xlsx" = false /\
      Py.endswith path ".xls" = false /\ Py.endswith path ".json" = false
  end.
Proof.
  unfold Utils.load_data.
  destruct (Py.endswith path ".csv") eqn:Hcsv.
  - excluded Hcsv ".xlsx" E1. excluded Hcsv ".xls" E2.
    excluded Hcsv ".json" E3.
    cbn. repeat split; try congruence; intuition congruence.
  - destruct (Py.endswith path ".xlsx") eqn:Hxlsx.
    + excluded Hxlsx ".json" E1.
      cbn. repeat split; try congruence; intuition congruence.
    + destruct (Py.endswith path ".xls") eqn:Hxls.
      * excluded Hxls ".json" E1.
        cbn. repeat split; try congruence; intuition congruence.
      * destruct (Py.endswith path ".json") eqn:Hjson;
          cbn; repeat split; try congruence; intuition congruence.
Qed.

(** X2. Putting a directory in front of a path that [load_data] accepts
    changes nothing but the path handed on: the same reader is chosen. *)
Theorem load_data_under_directory dir path kw c :
  Utils.load_data path kw = inr c ->
  Utils.load_data (dir ++ path)%string kw =
  inr {| Utils.call_reader := Utils.call_reader c;
         Utils.call_path := (dir ++ path)%string;
         Utils.call_kwargs := kw |}.
Proof.
  unfold Utils.load_data.
  destruct (Py.endswith path ".csv") eqn:Hcsv.
  - intros [= <-]. now rewrite (endswith_prepend dir _ _ Hcsv).
  - destruct (Py.endswith path ".xlsx") eqn:Hxlsx.
    + intros [= <-]. pose proof (endswith_prepend dir _ _ Hxlsx) as H.
      excluded H ".csv" E1. now rewrite E1, H.
    + destruct (Py.endswith path ".xls") eqn:Hxls.
      * intros [= <-]. pose proof (endswith_prepend dir _ _ Hxls) as H.
        excluded H ".csv" E1. rewrite E1, H. now rewrite orb_true_r.
      * destruct (Py.endswith path ".json") eqn:Hjson; [|discriminate].
        intros [= <-]. pose proof (endswith_prepend dir _ _ Hjson) as H.
        excluded H ".csv" E1. excluded H ".xlsx" E2. excluded H ".xls" E3.
        now rewrite E1, E2, E3, H.
Qed.

End LoaderInversion.

Lemma load_data_under_directory_witness :
  Utils.load_data "data/raw/sales.json" (@nil (string * unit)) =
  inr {| Utils.call_reader := Utils.read_json;
         Utils.call_path := "data/raw/sales.json";
         Utils.call_kwargs := [] |}.
Proof.
  apply (@load_data_under_directory unit "data/raw/" "sales.json" []
           {| Utils.call_reader := Utils.read_json;
              Utils.call_path := "sales.json"; Utils.call_kwargs := [] |}).
  reflexivity.
Defined.

(** ** The switches and the edges of the explorer *)

Section ExplorerSwitches.

Variable memory_usage_deep : Pd.DataFrame -> N.
Variable df : Pd.DataFrame.

(** X3. The two switches of the explorer do what they say.  Unless the
    statistics are asked of a table without columns the call returns; what
    it prints before the table of missing values holds the output of
    [df.info()] exactly when [show_info] is set and the table of
    [df.describe()] exactly when [show_stats] is set. *)
Theorem explore_data_switches show_info show_stats out :
  show_stats = false \/ Pd.columns df <> [] ->
  exists shown,
    Utils.explore_data memory_usage_deep df show_info show_stats out =
      (out ++ shown ++ [Utils.MissingTable (Utils.missing_rows df)], inr tt) /\
    (forall d, In (Utils.InfoOf d) shown <-> show_info = true /\ d = df) /\
    (forall f, In (Utils.FrameOf f) shown <->
               show_stats = true /\ f = Pd.Describe df) /\
    (forall rows, ~ In (Utils.MissingTable rows) shown).
Proof.
  intros Hok. exists (explore_preamble memory_usage_deep df show_info show_stats).
  split; [now apply explore_data_output|].
  unfold explore_preamble.
  destruct show_info, show_stats; cbn [app In];
    (split; [|split]);
    try (intros x; split;
         [ intros H; decompose [or] H; clear H;
           try discriminate; try contradiction;
           match goal with
           | E : _ = _ |- _ => injection E as <-; now split
           end
         | intros [H1 H2]; try discriminate H1; subst x; tauto ]);
    try (intros x H; decompose [or] H; clear H;
         try discriminate; try contradiction).
Qed.

(** X4. Asked for the statistics of a table without columns, the explorer
    raises the [ValueError] of [describe] right after the statistics
    header: the section on missing values is never printed. *)
Theorem explore_data_without_columns show_info out :
  Pd.columns df = [] ->
  Utils.explore_data memory_usage_deep df show_info true out =
  (out ++ explore_until_statistics memory_usage_deep df show_info,
   inl (Py.ValueError "Cannot describe a DataFrame without columns")).
Proof.
  intros Hc. unfold Utils.explore_data, explore_until_statistics, Pd.describe.
  rewrite Hc.
  destruct show_info;
    cbv beta iota delta [Py.bind Utils.print Py.modify Py.ret Py.lift];
    cbn [app Pd.shape fst snd Pd.columns Pd.index_len];
    rewrite <- ?app_assoc; rewrite ?Hc; reflexivity.
Qed.

(** X5. The table of missing values never shows a rate that is not a
    number: on a table as pandas keeps it, with fewer than [2^63] rows,
    every row listed has a count between 1 and the number of rows and a
    finite rate. *)
Theorem missing_rows_finite_rates :
  Pd.well_formed df -> (Z.of_nat (Pd.index_len df) < 2 ^ 63)%Z ->
  Forall (fun r => (0 < Utils.missing_count r <= Pd.index_len df)%nat /\
                   F64.is_finite (Utils.missing_rate r) = true)
         (Utils.missing_rows df).
Proof.
  intros [_ Hsize] Hrows. apply Forall_forall. intros r Hr.
  rewrite missing_rows_filter in Hr. apply in_map_iff in Hr.
  destruct Hr as (c & <- & Hc). apply filter_In in Hc.
  destruct Hc as [Hin Hpos]. apply Nat.ltb_lt in Hpos.
  rewrite Forall_forall in Hsize. specialize (Hsize c Hin).
  pose proof (isnull_sum_le_size (snd c)) as Hle.
  cbn [missing_row_of Utils.missing_count Utils.missing_rate].
  split; [lia|]. unfold Pd.len.
  apply missing_percent_finite; lia.
Qed.

End ExplorerSwitches.

Lemma explore_data_switches_witness :
  exists shown,
    Utils.explore_data eight_bytes_per_cell no_columns true false [] =
      ([] ++ shown ++ [Utils.MissingTable (Utils.missing_rows no_columns)],
       inr tt) /\
    (forall d, In (Utils.InfoOf d) shown <-> true = true /\ d = no_columns) /\
    (forall f, In (Utils.FrameOf f) shown <->
               false = true /\ f = Pd.Describe no_columns) /\
    (forall rows, ~ In (Utils.MissingTable rows) shown).
Proof.
  apply (@explore_data_switches eight_bytes_per_cell no_columns true false []).
  now left.
Defined.

Lemma explore_data_without_columns_witness :
  Utils.explore_data eight_bytes_per_cell no_columns false true [] =
  ([ Utils.Line "データ形状: (0, 0)"; Utils.Line "メモリ使用量: 0.00 MB";
     Utils.Line (String "010" "=== 統計情報 ===") ],
   inl (Py.ValueError "Cannot describe a DataFrame without columns")).
Proof.
  apply (@explore_data_without_columns eight_bytes_per_cell no_columns false []).
  reflexivity.
Defined.

Lemma two_missing_of_ten_well_formed : Pd.well_formed two_missing_of_ten.
Proof.
  split.
  - cbn [two_missing_of_ten Pd.columns map fst].
    repeat constructor; cbn [In]; intuition discriminate.
  - repeat constructor.
Qed.

Lemma missing_rows_finite_rates_witness :
  Forall (fun r => (0 < Utils.missing_count r <= 10)%nat /\
                   F64.is_finite (Utils.missing_rate r) = true)
         (Utils.missing_rows two_missing_of_ten).
Proof.
  apply (@missing_rows_finite_rates two_missing_of_ten).
  - exact two_missing_of_ten_well_formed.
  - cbn [two_missing_of_ten Pd.index_len]. lia.
Defined.

(** ** The edges of the report *)

Section ReportEdges.

Variable memory_usage_deep : Pd.DataFrame -> N.
Variable open_error : string -> option Py.exn.
Variable df : Pd.DataFrame.
Variable output_file : string.

(** X6. The whole effect of the report builder on a table with unique
    labels and at least one column.  If the file cannot be opened the error
    of [open] is raised, the file is not touched and nothing is printed.
    Otherwise the call returns: whatever the file held is replaced by the
    title, the shape, the memory footprint, one line per column in table
    order, the statistics, the correlation header and, for two numeric
    columns or more, their correlation matrix; one line on the console
    names the file. *)
Theorem create_summary_report_content w :
  NoDup (Pd.column_names df) -> Pd.columns df <> [] ->
  Utils.create_summary_report memory_usage_deep open_error df output_file w =
  match open_error output_file with
  | Some e => (w, inl e)
  | None =>
      ({| Utils.file := report_head memory_usage_deep df ++
                        [Utils.Text Utils.correlation_header] ++
                        correlation_body df;
          Utils.console := Utils.console w ++ [saved_message output_file] |},
       inr tt)
  end.
Proof.
  intros Hu Hc. destruct (open_error output_file) as [e|] eqn:Ho.
  - now apply create_summary_report_not_opened.
  - now apply create_summary_report_written.
Qed.

(** X7. On a table without columns the report builder, unless [open]
    fails (its error is then raised and the file is not touched), raises
    the [ValueError] of [describe]: the file, already emptied, stops after
    the statistics header, and nothing is said on the console. *)
Theorem create_summary_report_without_columns w :
  Pd.columns df = [] ->
  Utils.create_summary_report memory_usage_deep open_error df output_file w =
  match open_error output_file with
  | Some e => (w, inl e)
  | None =>
  ({| Utils.file :=
        [ Utils.Text ("=== データサマリーレポート ===" ++ Utils.nl ++ Utils.nl)%string;
          Utils.Text ("データ形状: " ++ Py.str_of_pair (Pd.index_len df) 0 ++
                      Utils.nl)%string;
          Utils.Text ("メモリ使用量: " ++
                      Py.format_f 2 (Utils.mebibytes memory_usage_deep df) ++
                      " MB" ++ Utils.nl ++ Utils.nl)%string;
          Utils.Text ("=== 列情報 ===" ++ Utils.nl)%string;
          Utils.Text (Utils.nl ++ "=== 統計情報 ===" ++ Utils.nl)%string ];
      Utils.console := Utils.console w |},
   inl (Py.ValueError "Cannot describe a DataFrame without columns"))
  end.
Proof.
  intros Hc. destruct (open_error output_file) as [e|] eqn:Ho.
  - now apply create_summary_report_not_opened.
  - now apply create_summary_report_no_columns.
Qed.

(** X8. On a table with columns but no row the report, once the file is
    open, is written to its end, and the line of every column reads
    [0 (nan%)]: the percentage is zero divided by zero. *)
Theorem create_summary_report_without_rows w c :
  open_error output_file = None ->
  Pd.well_formed df -> Pd.index_len df = 0 -> In c (Pd.columns df) ->
  snd (Utils.create_summary_report memory_usage_deep open_error df
         output_file w) = inr tt /\
  In (Utils.Text (fst c ++ ": " ++ Pd.dtype_name (Pd.dtype_of (snd c)) ++
                  ", 欠損値: 0 (nan%)" ++ Utils.nl)%string)
     (Utils.file
        (fst (Utils.create_summary_report memory_usage_deep open_error df
                output_file w))).
Proof.
  intros Ho [Hu Hsize] Hrows Hin.
  assert (Hc : Pd.columns df <> []) by (intros E; now rewrite E in Hin).
  rewrite create_summary_report_written by assumption.
  split; [reflexivity|]. cbn [fst Utils.file].
  unfold report_head. rewrite <- !app_assoc.
  apply in_or_app. right. apply in_or_app. left.
  apply in_map_iff. exists c. split; [|exact Hin].
  unfold column_chunk, Utils.column_line, Pd.len. rewrite Hrows.
  rewrite Forall_forall in Hsize. specialize (Hsize c Hin).
  pose proof (isnull_sum_le_size (snd c)) as Hle.
  assert (E : Pd.isnull_sum (snd c) = 0) by lia.
  rewrite E. reflexivity.
Qed.

End ReportEdges.

(** The report of the table with one numeric column where every path can
    be opened; and the path of [main] where there is no directory
    [results]. *)
Lemma create_summary_report_content_witness :
  Utils.create_summary_report eight_bytes_per_cell writable
    one_numeric_column "report.txt" empty_world =
  ({| Utils.file := report_head eight_bytes_per_cell one_numeric_column ++
                    [Utils.Text Utils.correlation_header] ++
                    correlation_body one_numeric_column;
      Utils.console := [] ++ [saved_message "report.txt"] |},
   inr tt) /\
  Utils.create_summary_report eight_bytes_per_cell no_results_directory
    one_numeric_column "results/data_summary_report.txt" empty_world =
  (empty_world, inl (Py.OSError "[Errno 2] No such file or directory")).
Proof.
  split.
  - apply (@create_summary_report_content eight_bytes_per_cell writable
             one_numeric_column "report.txt" empty_world).
    + apply one_numeric_column_unique.
    + discriminate.
  - apply (@create_summary_report_content eight_bytes_per_cell
             no_results_directory one_numeric_column
             "results/data_summary_report.txt" empty_world).
    + apply one_numeric_column_unique.
    + discriminate.
Defined.

Lemma create_summary_report_without_columns_witness :
  Utils.create_summary_report eight_bytes_per_cell writable no_columns
    "report.txt" empty_world =
  ({| Utils.file :=
        [ Utils.Text ("=== データサマリーレポート ===" ++ Utils.nl ++ Utils.nl)%string;
          Utils.Text ("データ形状: (0, 0)" ++ Utils.nl)%string;
          Utils.Text ("メモリ使用量: 0.00 MB" ++ Utils.nl ++ Utils.nl)%string;
          Utils.Text ("=== 列情報 ===" ++ Utils.nl)%string;
          Utils.Text (Utils.nl ++ "=== 統計情報 ===" ++ Utils.nl)%string ];
      Utils.console := [] |},
   inl (Py.ValueError "Cannot describe a DataFrame without columns")).
Proof.
  apply (@create_summary_report_without_columns eight_bytes_per_cell writable
           no_columns "report.txt" empty_world); reflexivity.
Defined.

Lemma create_summary_report_without_rows_witness :
  snd (Utils.create_summary_report eight_bytes_per_cell writable no_rows
         "report.txt" empty_world) = inr tt /\
  In (Utils.Text ("x: float64, 欠損値: 0 (nan%)" ++ Utils.nl)%string)
     (Utils.file
        (fst (Utils.create_summary_report eight_bytes_per_cell writable
                no_rows "report.txt" empty_world))).
Proof.
  apply (@create_summary_report_without_rows eight_bytes_per_cell writable
           no_rows "report.txt" empty_world ("x", Pd.Floats [])).
  - reflexivity.
  - split; [repeat constructor; cbn; tauto|repeat constructor].
  - reflexivity.
  - now left.
Defined.

(** ** The histogram grid, whole and broken off *)

Lemma between_not_infinite lower upper x :
  F64.is_finite (F64.of_Z lower) = true ->
  F64.is_finite (F64.of_Z upper) = true ->
  between lower upper x = true -> F64.is_infinite x = false.
Proof.
  unfold between, F64.leb, SFleb. intros Hl Hu.
  destruct x as [|[|]| |]; try reflexivity.
  - destruct (F64.of_Z lower); try discriminate; cbn; discriminate.
  - destruct (F64.of_Z upper); try discriminate; cbn.
    + now rewrite andb_false_r.
    + now rewrite andb_false_r.
Qed.


Section GridTheorem.

Variable df : Pd.DataFrame.
Variable columns : option (list string).
Variable figsize : nat * nat.


End GridTheorem.


Section BrokenOff.

Variable df : Pd.DataFrame.

Lemma getitem_absent c :
  ~ In c (Pd.column_names df) -> Pd.getitem df c = inl (Py.KeyError c).
Proof.
  unfold Pd.getitem, Pd.column_names. intros Hout.
  destruct (find _ (Pd.columns df)) as [x|] eqn:Hf; [|reflexivity].
  exfalso. apply Hout. apply find_some in Hf. destruct Hf as [Hin Heq].
  apply String.eqb_eq in Heq. apply in_map_iff. exists x. auto.
Qed.

Variables nr nc : nat.
Variable size : option (nat * nat).

Let fig (objs : list Plt.Axes) (t s : bool) : Plt.state :=
  {| Plt.objects := objs; Plt.figsize := size; Plt.tight := t;
     Plt.shown := s |}.

Let draw : nat * string -> Py.M Plt.state unit :=
  fun '(i, col) =>
    (row <- Py.lift (Py.floordiv i nc) ;;
     col_idx <- Py.lift (Py.modulo i nc) ;;
     ax <- Py.lift (Plt.index2 (Plt.Arr2 (Plt.grid nr nc)) row col_idx) ;;
     series <- Py.lift (Pd.getitem df col) ;;
     Plt.hist ax series Utils.hist_bins Utils.hist_alpha ;;;
     Plt.set_title ax (col ++ "の分布")%string ;;;
     Plt.set_xlabel ax col ;;;
     Plt.set_ylabel ax "頻度")%py.

(** A label that is no column stops the body of the loop at [df[col]]. *)
Lemma draw_absent i c st :
  i < nr * nc -> ~ In c (Pd.column_names df) ->
  draw (i, c) st = (st, inl (Py.KeyError c)).
Proof.
  intros Hlt Hout.
  assert (Hnc : nc <> 0) by (intros ->; lia).
  unfold draw, Py.bind, Py.lift.
  rewrite (floordiv_pos _ Hnc), (modulo_pos _ Hnc), index2_grid by exact Hlt.
  now rewrite getitem_absent.
Qed.



End BrokenOff.

Section PlotErrors.

Variable df : Pd.DataFrame.
Variable figsize : nat * nat.




Hypothesis unique : NoDup (Pd.column_names df).

Let numeric : list (string * Pd.values) :=
  Pd.columns (Pd.select_dtypes_number df).




End PlotErrors.



(** ** The generated table through the pipeline *)

Section MissingInSample.

Lemma between_not_nan lower upper x :
  between lower upper x = true -> F64.is_nan x = false.
Proof.
  unfold between, F64.leb, SFleb. destruct x; try reflexivity.
  destruct (F64.of_Z lower); cbn; discriminate.
Qed.

Lemma count_if_none {A} (p : A -> bool) xs :
  Forall (fun x => p x = false) xs -> Pd.count_if p xs = 0.
Proof.
  unfold Pd.count_if. induction 1 as [|x xs Hx _ IH]; cbn [filter].
  - reflexivity.
  - now rewrite Hx.
Qed.

Lemma count_if_some {A} (p : A -> bool) xs i d :
  i < List.length xs -> p (nth i xs d) = true -> 0 < Pd.count_if p xs.
Proof.
  unfold Pd.count_if. intros Hi Hp.
  assert (Hin : In (nth i xs d) (filter p xs)).
  { apply filter_In. split; [now apply nth_In|exact Hp]. }
  destruct (filter p xs); [contradiction|cbn; lia].
Qed.

Lemma clip_without_nan lower upper xs :
  F64.leb (F64.of_Z lower) (F64.of_Z lower) = true ->
  F64.leb (F64.of_Z upper) (F64.of_Z upper) = true ->
  F64.leb (F64.of_Z lower) (F64.of_Z upper) = true ->
  nan_free xs = true ->
  Pd.isnull_sum (Pd.Floats (clip lower upper xs)) = 0.
Proof.
  intros Hl Hu Hlu Hxs. cbn [Pd.isnull_sum]. apply count_if_none.
  eapply Forall_impl; [|exact (@clip_between lower upper Hl Hu Hlu xs Hxs)].
  intros x. apply between_not_nan.
Qed.

Lemma labels_without_none infer_string (xs : list string) :
  Pd.isnull_sum (Pd.labels infer_string xs) = 0.
Proof.
  destruct infer_string; cbn [Pd.labels Pd.isnull_sum];
    apply count_if_none; apply Forall_forall; intros o Ho;
    apply in_map_iff in Ho; now destruct Ho as [x [<- _]].
Qed.

(** [Series.hist] draws a clipped column: no value of it is infinite. *)
Lemma clip_accepted lower upper xs :
  F64.is_finite (F64.of_Z lower) = true ->
  F64.is_finite (F64.of_Z upper) = true ->
  F64.leb (F64.of_Z lower) (F64.of_Z lower) = true ->
  F64.leb (F64.of_Z upper) (F64.of_Z upper) = true ->
  F64.leb (F64.of_Z lower) (F64.of_Z upper) = true ->
  Plt.hist_error (Pd.Floats (clip lower upper xs)) = None.
Proof.
  intros Fl Fu Hl Hu Hlu. cbn [Plt.hist_error].
  assert (E : existsb F64.is_infinite (clip lower upper xs) = false).
  { unfold clip. induction xs as [|x xs IH]; [reflexivity|].
    cbn [map existsb]. rewrite IH, orb_false_r.
    destruct (F64.is_nan x) eqn:En.
    - rewrite (@clip1_nan lower upper x En). now destruct x.
    - apply (@between_not_infinite lower upper); try assumption.
      now apply clip1_between. }
  now rewrite E.
Qed.

Lemma nth_clip lower upper xs i :
  nth i (clip lower upper xs) nan = clip1 lower upper (nth i xs nan).
Proof.
  unfold clip. change nan with (clip1 lower upper nan) at 1.
  now rewrite map_nth.
Qed.

Lemma add_nan_r x : F64.add x nan = nan.
Proof. now destruct x. Qed.

Variable R : NumpyRandom.
Variable infer_string : bool.

Let data : sample_arrays := add_correlations (draw_all R).

(** X13. Clipping repairs no missing draw: a row whose age draw is NaN has
    no age, no income and no satisfaction in the table, the NaN having gone
    through the added correlations, and each of these three columns then
    counts a missing value. *)
Theorem create_sample_data_missing_age (i : nat) :
  i < n_samples ->
  F64.is_nan (nth i (raw_age (draw_all R)) (F64.of_Z 0)) = true ->
  exists a y t s d g,
    create_sample_data R infer_string =
      {| Pd.index_len := n_samples;
         Pd.columns := [ ("年齢", Pd.Floats a); ("年収", Pd.Floats y);
                         ("勤続年数", Pd.Floats t); ("満足度", Pd.Floats s);
                         ("部門", d); ("性別", g) ] |} /\
    (F64.is_nan (nth i a (F64.of_Z 0)) = true /\
     F64.is_nan (nth i y (F64.of_Z 0)) = true /\
     F64.is_nan (nth i s (F64.of_Z 0)) = true) /\
    (0 < Pd.isnull_sum (Pd.Floats a) /\ 0 < Pd.isnull_sum (Pd.Floats y) /\
     0 < Pd.isnull_sum (Pd.Floats s)).
Proof.
  intros Hi Hnan.
  destruct (draw_all_lengths R) as [La [Li [Lt Ls]]].
  pose proof (income_length R) as Linc.
  pose proof (satisfaction_length R) as Lsat.
  fold data in Linc, Lsat.
  assert (Hage : nth i (raw_age (draw_all R)) nan = nan).
  { rewrite (nth_indep _ nan (F64.of_Z 0)) by lia.
    now destruct (nth i (raw_age (draw_all R)) (F64.of_Z 0)). }
  assert (Hinc : nth i (income data) nan = nan).
  { unfold data, add_correlations. cbn [income].
    rewrite !nth_arr_add, !nth_arr_mul_scalar, Hage.
    - cbn [F64.mul SFmul]. now rewrite add_nan_r.
    - rewrite length_arr_mul_scalar. congruence.
    - rewrite length_arr_add, length_arr_mul_scalar;
        rewrite ?length_arr_mul_scalar; congruence. }
  assert (Hsat : nth i (satisfaction data) nan = nan).
  { unfold data in *. unfold add_correlations in *.
    cbn [income satisfaction] in *.
    rewrite nth_arr_add, nth_arr_div_scalar, nth_arr_sub_scalar.
    - rewrite Hinc. cbn [F64.sub SFsub F64.div SFdiv]. apply add_nan_r.
    - rewrite length_arr_div_scalar, length_arr_sub_scalar. congruence. }
  assert (Hcell : forall lower upper xs,
             List.length xs = n_samples -> nth i xs nan = nan ->
             F64.is_nan (nth i (clip lower upper xs) (F64.of_Z 0)) = true).
  { intros lower upper xs Lxs Hx.
    rewrite (nth_indep _ (F64.of_Z 0) nan) by (rewrite length_clip; lia).
    now rewrite nth_clip, Hx. }
  assert (Hcount : forall lower upper xs,
             List.length xs = n_samples -> nth i xs nan = nan ->
             0 < Pd.isnull_sum (Pd.Floats (clip lower upper xs))).
  { intros lower upper xs Lxs Hx. cbn [Pd.isnull_sum].
    apply (@count_if_some _ F64.is_nan _ i (F64.of_Z 0)).
    - rewrite length_clip. lia.
    - now apply Hcell. }
  do 6 eexists. split; [reflexivity|]. fold data.
  assert (Lage : List.length (age data) = n_samples) by exact La.
  assert (Hage' : nth i (age data) nan = nan) by exact Hage.
  split; (split; [|split]); (apply Hcell || apply Hcount); assumption.
Qed.

(** X14. With draws that are numbers the generated table has no missing
    value, so the explorer, called as [main] calls it, returns and ends on
    an empty table of missing values. *)
Theorem explore_data_on_sample_data memory_usage_deep out :
  nan_free (age data) = true ->
  nan_free (income data) = true ->
  nan_free (tenure data) = true ->
  nan_free (satisfaction data) = true ->
  Forall (fun c => Pd.isnull_sum (snd c) = 0)
         (Pd.columns (create_sample_data R infer_string)) /\
  Utils.explore_data memory_usage_deep (create_sample_data R infer_string) true true out =
  (out ++ explore_preamble memory_usage_deep (create_sample_data R infer_string) true true ++
   [Utils.MissingTable []], inr tt).
Proof.
  intros Ha Hi Ht Hs.
  assert (Hnone : Forall (fun c => Pd.isnull_sum (snd c) = 0)
                         (Pd.columns (create_sample_data R infer_string))).
  { unfold create_sample_data. fold data. cbn [Pd.columns].
    repeat apply Forall_cons; try apply Forall_nil; cbn [snd];
      try apply labels_without_none;
      apply clip_without_nan; try assumption; vm_compute; reflexivity. }
  split; [exact Hnone|].
  rewrite explore_data_output by (right; discriminate).
  do 4 f_equal.
  rewrite missing_rows_filter. unfold columns_with_missing.
  induction Hnone as [|c cs Hc _ IH]; [reflexivity|].
  cbn [filter]. now rewrite Hc.
Qed.

(** X15. The plot [main] asks for, the four numeric columns of the
    generated table, always comes out as two rows of three cells: the four
    histograms, then two hidden cells. *)
Theorem plot_distributions_on_sample_data figsize (st : Plt.state) :
  Utils.plot_distributions (create_sample_data R infer_string) (Some main_plot_columns)
    figsize st =
  ({| Plt.objects :=
        map (plotted_axes (create_sample_data R infer_string)) main_plot_columns ++
        [hidden_axes; hidden_axes];
      Plt.figsize := Some figsize; Plt.tight := true; Plt.shown := true |},
   inr tt).
Proof.
  destruct (@plot_distributions_layout (create_sample_data R infer_string)
              (Some main_plot_columns) figsize st) as [_ E].
  - cbn. lia.
  - unfold main_plot_columns.
    repeat apply Forall_cons; try apply Forall_nil;
      cbn [Pd.column_names create_sample_data Pd.columns map fst In]; tauto.
  - unfold main_plot_columns.
    repeat apply Forall_cons; try apply Forall_nil;
      apply clip_accepted; vm_compute; reflexivity.
  - exact E.
Qed.

(** X16. Once its file is open, the report [main] asks for is written to
    its end whatever the draws: after the statistics it holds the
    correlation header and the correlation matrix of the four numeric
    columns, in table order. *)
Theorem create_summary_report_on_sample_table memory_usage_deep open_error
    output_file w :
  open_error output_file = None ->
  Pd.column_names (Pd.select_dtypes_number (create_sample_data R infer_string)) =
    ["年齢"; "年収"; "勤続年数"; "満足度"] /\
  Utils.create_summary_report memory_usage_deep open_error
    (create_sample_data R infer_string) output_file w =
  ({| Utils.file :=
        report_head memory_usage_deep (create_sample_data R infer_string) ++
        [Utils.Text Utils.correlation_header;
         Utils.Rendered (Pd.Corr (Pd.select_dtypes_number
                                    (create_sample_data R infer_string)))];
      Utils.console := Utils.console w ++ [saved_message output_file] |},
   inr tt).
Proof.
  intros Ho.
  assert (Hnum : Pd.column_names
                   (Pd.select_dtypes_number (create_sample_data R infer_string)) =
                 ["年齢"; "年収"; "勤続年数"; "満足度"])
    by (destruct infer_string; reflexivity).
  split; [exact Hnum|].
  destruct (create_sample_data_well_formed R infer_string) as [Hu _].
  rewrite create_summary_report_written by (assumption || discriminate).
  unfold correlation_body.
  unfold Pd.column_names in Hnum.
  replace (List.length (Pd.columns (Pd.select_dtypes_number
                                      (create_sample_data R infer_string))))
    with 4 by (rewrite <- (length_map fst), Hnum; reflexivity).
  reflexivity.
Qed.

End MissingInSample.

Lemma create_sample_data_missing_age_witness :
  exists a y t s d g,
    create_sample_data broken_normal false =
      {| Pd.index_len := n_samples;
         Pd.columns := [ ("年齢", Pd.Floats a); ("年収", Pd.Floats y);
                         ("勤続年数", Pd.Floats t); ("満足度", Pd.Floats s);
                         ("部門", d); ("性別", g) ] |} /\
    (F64.is_nan (nth 0 a (F64.of_Z 0)) = true /\
     F64.is_nan (nth 0 y (F64.of_Z 0)) = true /\
     F64.is_nan (nth 0 s (F64.of_Z 0)) = true) /\
    (0 < Pd.isnull_sum (Pd.Floats a) /\ 0 < Pd.isnull_sum (Pd.Floats y) /\
     0 < Pd.isnull_sum (Pd.Floats s)).
Proof.
  apply (@create_sample_data_missing_age broken_normal false 0).
  - unfold n_samples. lia.
  - vm_compute. reflexivity.
Defined.

Lemma create_summary_report_on_sample_table_witness :
  Pd.column_names (Pd.select_dtypes_number (create_sample_data degenerate true)) =
    ["年齢"; "年収"; "勤続年数"; "満足度"] /\
  Utils.create_summary_report eight_bytes_per_cell writable
    (create_sample_data degenerate true) "results/data_summary_report.txt"
    empty_world =
  ({| Utils.file :=
        report_head eight_bytes_per_cell (create_sample_data degenerate true) ++
        [Utils.Text Utils.correlation_header;
         Utils.Rendered (Pd.Corr (Pd.select_dtypes_number
                                    (create_sample_data degenerate true)))];
      Utils.console :=
        [] ++ [saved_message "results/data_summary_report.txt"] |},
   inr tt).
Proof.
  apply (@create_summary_report_on_sample_table degenerate true
           eight_bytes_per_cell writable "results/data_summary_report.txt"
           empty_world).
  reflexivity.
Defined.

Lemma explore_data_on_sample_data_witness :
  Forall (fun c => Pd.isnull_sum (snd c) = 0)
         (Pd.columns (create_sample_data degenerate false)) /\
  Utils.explore_data eight_bytes_per_cell (create_sample_data degenerate false)
    true true [] =
  ([] ++ explore_preamble eight_bytes_per_cell (create_sample_data degenerate false)
                          true true ++
   [Utils.MissingTable []], inr tt).
Proof.
  apply (@explore_data_on_sample_data degenerate false eight_bytes_per_cell
           []);
    vm_compute; reflexivity.
Defined.

(** ** The set-up script *)

Section DirectoryFacts.

Import SetupDev.

Implicit Types (w : world) (es : list (string * kind)).

Lemma lookup_app name es es' :
  lookup name (es ++ es') =
  match lookup name es with
  | Some k => Some k
  | None => lookup name es'
  end.
Proof.
  unfold lookup. induction es as [|e es IH]; cbn [app find].
  - reflexivity.
  - destruct (String.eqb (fst e) name); [reflexivity|exact IH].
Qed.

Lemma lookup_new name es other :
  lookup name (es ++ [(other, Directory)]) =
  match lookup name es with
  | Some k => Some k
  | None => if String.eqb other name then Some Directory else None
  end.
Proof.
  rewrite lookup_app. destruct (lookup name es); [reflexivity|].
  unfold lookup. cbn [find fst snd]. now destruct (String.eqb other name).
Qed.

Let make (directory : string) : M unit :=
  (mkdir_exist_ok directory ;;; print (created_line directory))%sh.

Lemma for_each_app {A} (xs ys : list A) (body : A -> M unit) w :
  for_each (xs ++ ys) body w =
  match for_each xs body w with
  | (w', inr _) => for_each ys body w'
  | (w', inl e) => (w', inl e)
  end.
Proof.
  revert w. induction xs as [|x xs IH]; intros w; cbn [app for_each].
  - reflexivity.
  - unfold bind. destruct (body x w) as [w' [e|[]]]; [reflexivity|].
    apply IH.
Qed.

(** The loop of [create_directories] over names none of which is a regular
    file. *)
Lemma make_loop names : forall w,
  (forall d, In d names -> lookup d (entries w) <> Some RegularFile) ->
  exists es',
    for_each names make w =
      ({| entries := es'; console := console w ++ map created_line names;
          commands := commands w |}, inr tt) /\
    (forall p k, lookup p (entries w) = Some k -> lookup p es' = Some k) /\
    (forall d, In d names -> lookup d es' = Some Directory) /\
    (forall p, ~ In p names -> lookup p es' = lookup p (entries w)).
Proof.
  induction names as [|d names IH]; intros w Hfree.
  - exists (entries w). cbn [for_each map]. rewrite app_nil_r.
    destruct w; cbn. repeat split; auto. intros d [].
  - cbn [for_each]. unfold bind at 1. unfold make at 1.
    unfold bind at 1. unfold mkdir_exist_ok at 1.
    assert (Hd : lookup d (entries w) <> Some RegularFile)
      by (apply Hfree; now left).
    destruct (lookup d (entries w)) as [[|]|] eqn:Ed; [| congruence |].
    + (* already a directory *)
      unfold print at 1.
      set (w1 := {| entries := entries w;
                    console := console w ++ [created_line d];
                    commands := commands w |}).
      destruct (IH w1) as (es' & E & Hkeep & Hdirs & Hout).
      { intros x Hx. apply Hfree. now right. }
      exists es'. split; [|split; [|split]].
      * rewrite E. cbn [console commands w1 map].
        now rewrite <- app_assoc.
      * exact Hkeep.
      * intros x [<-|Hx]; [now apply Hkeep|now apply Hdirs].
      * intros p Hp. apply Hout. intros Hin. apply Hp. now right.
    + (* created *)
      unfold print at 1. cbn [entries console commands].
      set (w1 := {| entries := entries w ++ [(d, Directory)];
                    console := console w ++ [created_line d];
                    commands := commands w |}).
      destruct (IH w1) as (es' & E & Hkeep & Hdirs & Hout).
      { intros x Hx. cbn [entries w1]. rewrite lookup_new.
        assert (lookup x (entries w) <> Some RegularFile)
          by (apply Hfree; now right).
        destruct (lookup x (entries w)); [assumption|].
        destruct (String.eqb d x); congruence. }
      cbn [entries w1] in Hkeep, Hout.
      exists es'. split; [|split; [|split]].
      * rewrite E. cbn [console commands w1 map].
        now rewrite <- app_assoc.
      * intros p k Hp. apply Hkeep. rewrite lookup_new. now rewrite Hp.
      * intros x [<-|Hx]; [|now apply Hdirs].
        apply Hkeep. rewrite lookup_new, Ed. now rewrite String.eqb_refl.
      * intros p Hp. rewrite Hout by (intros Hin; apply Hp; now right).
        rewrite lookup_new.
        destruct (lookup p (entries w)); [reflexivity|].
        destruct (String.eqb d p) eqn:E'; [|reflexivity].
        apply String.eqb_eq in E'. subst p. exfalso. apply Hp. now left.
Qed.

(** Over names that are all directories the loop changes no entry. *)
Lemma make_loop_present names : forall w,
  (forall d, In d names -> lookup d (entries w) = Some Directory) ->
  for_each names make w =
  ({| entries := entries w; console := console w ++ map created_line names;
      commands := commands w |}, inr tt).
Proof.
  induction names as [|d names IH]; intros w Hdirs.
  - cbn [for_each map]. rewrite app_nil_r. now destruct w.
  - cbn [for_each]. unfold bind at 1. unfold make at 1.
    unfold bind at 1. unfold mkdir_exist_ok at 1.
    rewrite (Hdirs d) by now left.
    unfold print at 1. rewrite IH by (intros x Hx; apply Hdirs; now right).
    cbn [entries console commands map]. now rewrite <- app_assoc.
Qed.

(** Whatever the working directory holds, the loop runs no command and
    can only stop on a name of its list. *)
Lemma make_loop_outcome names : forall w,
  exists w' r,
    for_each names make w = (w', r) /\ commands w' = commands w /\
    (r = inr tt \/ exists d, In d names /\ r = inl (FileExistsError d)).
Proof.
  induction names as [|d names IH]; intros w.
  - exists w, (inr tt). cbn. auto.
  - cbn [for_each]. unfold bind at 1. unfold make at 1.
    unfold bind at 1. unfold mkdir_exist_ok at 1.
    destruct (lookup d (entries w)) as [[|]|].
    + unfold print at 1.
      match goal with |- context [for_each names make ?w1] =>
        destruct (IH w1) as (w' & r & E & Hc & Hr) end.
      exists w', r. split; [exact E|]. split; [exact Hc|].
      destruct Hr as [->|(x & Hx & ->)]; [now left|right].
      exists x. split; [now right|reflexivity].
    + exists w, (inl (FileExistsError d)). split; [reflexivity|].
      split; [reflexivity|]. right. exists d. split; [now left|reflexivity].
    + unfold print at 1. cbn [entries console commands].
      match goal with |- context [for_each names make ?w1] =>
        destruct (IH w1) as (w' & r & E & Hc & Hr) end.
      exists w', r. split; [exact E|]. split; [exact Hc|].
      destruct Hr as [->|(x & Hx & ->)]; [now left|right].
      exists x. split; [now right|reflexivity].
Qed.

Lemma create_directories_outcome w :
  exists w' r,
    create_directories w = (w', r) /\ commands w' = commands w /\
    (r = inr tt \/ exists d, In d directories /\ r = inl (FileExistsError d)).
Proof. apply make_loop_outcome. Qed.

(** X17. Unless one of the six names is a regular file,
    [create_directories] returns; it then leaves the six names as
    directories, keeps every entry that was there, prints one line per name
    whether or not it had to create it, and running it again changes no
    entry. *)
Theorem create_directories_idempotent w :
  (forall d, In d directories -> lookup d (entries w) <> Some RegularFile) ->
  exists es',
    create_directories w =
      ({| entries := es'; console := console w ++ map created_line directories;
          commands := commands w |}, inr tt) /\
    (forall d, In d directories -> lookup d es' = Some Directory) /\
    (forall p k, lookup p (entries w) = Some k -> lookup p es' = Some k) /\
    (forall c l, entries (fst (create_directories
                   {| entries := es'; console := c; commands := l |})) = es').
Proof.
  intros Hfree.
  destruct (make_loop directories w Hfree) as (es' & E & Hkeep & Hdirs & _).
  exists es'. split; [exact E|]. split; [exact Hdirs|]. split; [exact Hkeep|].
  intros c l. unfold create_directories.
  change (fun directory : string =>
            (mkdir_exist_ok directory ;;;
             print ("✓ ディレクトリ作成: " ++ directory))%sh) with make.
  rewrite make_loop_present by exact Hdirs. reflexivity.
Qed.

(** X18. A regular file under one of the six names stops
    [create_directories] with [FileExistsError] at the first such name: the
    names before it have been created and reported, nothing is printed for
    it or for the names after it. *)
Theorem create_directories_conflict pre d post w :
  directories = pre ++ d :: post ->
  (forall x, In x pre -> lookup x (entries w) <> Some RegularFile) ->
  lookup d (entries w) = Some RegularFile ->
  snd (create_directories w) = inl (FileExistsError d) /\
  console (fst (create_directories w)) =
    console w ++ map created_line pre /\
  commands (fst (create_directories w)) = commands w /\
  (forall x, In x pre ->
     lookup x (entries (fst (create_directories w))) = Some Directory) /\
  (forall x, In x post -> lookup x (entries w) = None ->
     lookup x (entries (fst (create_directories w))) = None).
Proof.
  intros Hsplit Hfree Hfile.
  assert (Hnodup : NoDup directories).
  { unfold directories. repeat constructor; cbn [In];
      intuition discriminate. }
  rewrite Hsplit in Hnodup.
  assert (Hd : ~ In d pre).
  { apply NoDup_remove_2 in Hnodup. intros H. apply Hnodup.
    apply in_or_app. now left. }
  assert (Hpost : forall x, In x post -> ~ In x pre).
  { intros x Hx Hin. revert Hnodup Hx Hin. clear.
    induction pre as [|p pre IH].
    - intros _ _ [].
    - cbn [app]. intros Hn Hx [->|Hin].
      + inversion Hn as [|? ? Hnot _]. apply Hnot. apply in_or_app. right.
        now right.
      + inversion Hn. now apply IH. }
  destruct (make_loop pre w Hfree) as (es' & E & Hkeep & Hdirs & Hout).
  assert (Hrun : create_directories w =
                 ({| entries := es';
                     console := console w ++ map created_line pre;
                     commands := commands w |},
                  inl (FileExistsError d))).
  { unfold create_directories. rewrite Hsplit.
    change (fun directory : string =>
              (mkdir_exist_ok directory ;;;
               print ("✓ ディレクトリ作成: " ++ directory))%sh) with make.
    rewrite for_each_app, E. cbn [for_each]. unfold bind at 1.
    unfold make at 1. unfold bind at 1. unfold mkdir_exist_ok at 1.
    cbn [entries]. now rewrite (Hkeep d RegularFile Hfile). }
  rewrite Hrun. cbn [fst snd console commands entries].
  split; [reflexivity|]. split; [reflexivity|]. split; [reflexivity|].
  split; [exact Hdirs|].
  intros x Hx Hnone. rewrite Hout by now apply Hpost. exact Hnone.
Qed.

End DirectoryFacts.

Section ShellFacts.

Import SetupDev.

Variable shell :
  string -> list (string * kind) -> list string ->
  outcome * list (string * kind).
Variable signal_name : Z -> option string.

Implicit Types (w : world).

Let run_command := run_command shell signal_name.
Let run_each := run_each shell signal_name.
Let main := main shell signal_name.

Lemma print_bind {A} s (k : M A) w :
  (print s ;;; k)%sh w =
  k {| entries := entries w; console := console w ++ [s];
       commands := commands w |}.
Proof. reflexivity. Qed.

(** [run_command] on a command that the shell runs to its end. *)
Lemma run_command_exited c d w rc err es :
  shell c (entries w) (commands w) = (Exited rc err, es) ->
  run_command c d w =
  ({| entries := es;
      console := console w ++ command_report signal_name c d rc err;
      commands := commands w ++ [c] |},
   inr (rc =? 0)%Z).
Proof.
  intros E. unfold run_command, SetupDev.run_command, command_report.
  rewrite print_bind. unfold bind at 1. unfold subprocess_run.
  cbn [entries console commands]. rewrite E. cbn [fst snd].
  destruct (rc =? 0)%Z; rewrite print_bind; [|rewrite print_bind];
    unfold ret; cbn [entries console commands]; rewrite <- !app_assoc;
    reflexivity.
Qed.

Lemma run_command_outcome c d w :
  exists w',
    commands w' = commands w ++ [c] /\
    ((exists b, run_command c d w = (w', inr b)) \/
     (exists e, run_command c d w = (w', inl (Uncaught e)))).
Proof.
  destruct (shell c (entries w) (commands w)) as [[rc err|e] es] eqn:E.
  - eexists. split; [|left; eexists; apply (run_command_exited _ _ E)].
    reflexivity.
  - eexists. split; [|right; exists e].
    2:{ unfold run_command, SetupDev.run_command. rewrite print_bind.
        unfold bind at 1. unfold subprocess_run.
        cbn [entries console commands]. rewrite E. reflexivity. }
    reflexivity.
Qed.

Lemma run_each_app xs ys w :
  run_each (xs ++ ys) w =
  match run_each xs w with
  | (w', inr true) => run_each ys w'
  | r => r
  end.
Proof.
  revert w. induction xs as [|[c d] xs IH]; intros w.
  - reflexivity.
  - cbn [app]. unfold run_each in *. cbn [SetupDev.run_each].
    unfold bind.
    destruct (SetupDev.run_command shell signal_name c d w)
      as [w' [e|[|]]]; cbn [negb]; [reflexivity|apply IH|reflexivity].
Qed.

(** The loop of [install_dependencies] and [setup_jupyter]: the commands
    it has run are an initial segment of its list, the whole list when it
    returns [True], a non-empty one otherwise. *)
Lemma run_each_outcome cmds : forall w,
  exists w' n,
    n <= List.length cmds /\
    commands w' = commands w ++ firstn n (map fst cmds) /\
    ((run_each cmds w = (w', inr true) /\ n = List.length cmds) \/
     (run_each cmds w = (w', inr false) /\ 0 < n) \/
     (exists e, run_each cmds w = (w', inl (Uncaught e)) /\ 0 < n)).
Proof.
  induction cmds as [|[c d] cmds IH]; intros w.
  - exists w, 0. cbn. rewrite app_nil_r. auto.
  - unfold run_each in *. cbn [SetupDev.run_each]. unfold bind.
    destruct (run_command_outcome c d w) as (w1 & Hc & [[b E]|[e E]]);
      unfold run_command in E; rewrite E.
    + destruct b; cbn [negb].
      * destruct (IH w1) as (w2 & n & Hn & Hlog & Hr).
        exists w2, (S n). cbn [List.length map firstn fst].
        split; [lia|]. split.
        { rewrite Hlog, Hc, <- app_assoc. reflexivity. }
        destruct Hr as [[-> ->]|[[-> _]|(e & -> & _)]].
        -- left. auto.
        -- right. left. split; [reflexivity|lia].
        -- right. right. exists e. split; [reflexivity|lia].
      * exists w1, 1. cbn [List.length map firstn fst].
        split; [lia|]. split; [exact Hc|]. right. left. split; [reflexivity|lia].
    + exists w1, 1. cbn [List.length map firstn fst].
      split; [lia|]. split; [exact Hc|]. right. right. exists e.
      split; [reflexivity|lia].
Qed.

(** X19. In the loops of [install_dependencies] and [setup_jupyter] a
    command that exits with a status other than zero ends the loop: [False]
    is returned, the failure and the error output are printed, and the
    commands after it are not run, whatever they are. *)
Theorem run_each_stops_at_failure pre c d post w w1 rc err es :
  run_each pre w = (w1, inr true) ->
  shell c (entries w1) (commands w1) = (Exited rc err, es) ->
  rc <> 0%Z ->
  run_each (pre ++ (c, d) :: post) w =
  ({| entries := es;
      console := console w1 ++ command_report signal_name c d rc err;
      commands := commands w1 ++ [c] |},
   inr false).
Proof.
  intros Hpre Hshell Hrc. rewrite run_each_app, Hpre.
  unfold run_each. cbn [SetupDev.run_each]. unfold bind.
  pose proof (@run_command_exited c d w1 rc err es Hshell) as E.
  unfold run_command in E. rewrite E.
  apply Z.eqb_neq in Hrc. now rewrite Hrc.
Qed.

(** Four prints in a row leave the four closing lines at the end. *)
Lemma ends_with_closing_lines (c : list string) a b d e :
  closing_lines = [a; b; d; e] ->
  exists before, (((c ++ [a]) ++ [b]) ++ [d]) ++ [e] = before ++ closing_lines.
Proof. intros ->. exists c. now rewrite <- !app_assoc. Qed.

Lemma in_firstn {A} (x : A) n l : In x (firstn n l) -> In x l.
Proof.
  revert l. induction n as [|n IH]; intros [|y l]; cbn [firstn In];
    try tauto.
  intros [->|H]; auto.
Qed.

Lemma firstn_prefix {A} n (l rest : list A) : is_prefix (firstn n l) (l ++ rest).
Proof.
  exists (skipn n l ++ rest). now rewrite app_assoc, firstn_skipn.
Qed.

Lemma pytest_not_before :
  ~ In pytest_command (map fst install_commands ++ map fst jupyter_commands).
Proof. cbn [map fst app In install_commands jupyter_commands]. intuition discriminate. Qed.

Lemma nonempty_firstn {A} n (l : list A) :
  0 < n -> n <= List.length l -> firstn n l <> [].
Proof. destruct n, l; cbn; intros; try lia; discriminate. Qed.

(** X20. What a run of the set-up can come to.  The commands it has handed
    to the shell are always an initial segment of the five, in order.  It
    gets to its end only after all five, and then ends on the four closing
    lines.  If it exits, it exits with status 1, right after one of the two
    failure messages, and the tests have not been run.  If it stops on a
    file in the way of a directory, no command has been run at all. *)
Theorem setup_main_outcome w :
  let (w', r) := main w in
  exists added,
    commands w' = commands w ++ added /\ is_prefix added all_commands /\
    match r with
    | inr _ =>
        added = all_commands /\
        exists before, console w' = before ++ closing_lines
    | inl (SystemExit code) =>
        code = 1%Z /\ ~ In pytest_command added /\
        exists before,
          console w' = before ++ ["依存関係のインストールに失敗しました。"%string] \/
          console w' = before ++ ["Jupyterのセットアップに失敗しました。"%string]
    | inl (FileExistsError d) => In d directories /\ added = []
    | inl (Uncaught e) => added <> []
    end.
Proof.
  unfold main, SetupDev.main.
  rewrite print_bind. rewrite print_bind.
  unfold bind at 1.
  match goal with |- context [create_directories ?w0] =>
    destruct (create_directories_outcome w0) as (w1 & r1 & E1 & Hc1 & Hr1)
  end.
  rewrite E1. cbn [commands] in Hc1.
  destruct Hr1 as [->|(d & Hd & ->)].
  2:{ exists []. rewrite app_nil_r. split; [exact Hc1|].
      split; [now exists all_commands|]. auto. }
  rewrite print_bind. unfold bind at 1. unfold install_dependencies.
  match goal with
  | |- context [SetupDev.run_each shell signal_name install_commands ?w0] =>
      destruct (run_each_outcome install_commands w0)
        as (w2 & n & Hn & Hc2 & Hr2)
  end.
  cbn [commands] in Hc2. rewrite Hc1 in Hc2. unfold run_each in Hr2.
  destruct Hr2 as [[E2 ->]|[[E2 Hpos]|(e & E2 & Hpos)]]; rewrite E2;
    cbn [negb].
  - (* the three installations went through *)
    rewrite firstn_all2 in Hc2 by (rewrite length_map; lia).
    unfold bind at 1. unfold ret at 1.
    rewrite print_bind. unfold bind at 1. unfold setup_jupyter.
    match goal with
    | |- context [SetupDev.run_each shell signal_name jupyter_commands ?w0] =>
        destruct (run_each_outcome jupyter_commands w0)
          as (w3 & m & Hm & Hc3 & Hr3)
    end.
    cbn [commands] in Hc3. rewrite Hc2, <- app_assoc in Hc3.
    unfold run_each in Hr3.
    destruct Hr3 as [[E3 ->]|[[E3 Hpos]|(e & E3 & Hpos)]]; rewrite E3;
      cbn [negb].
    + (* so did the kernel *)
      rewrite firstn_all2 in Hc3 by (rewrite length_map; lia).
      unfold bind at 1. unfold ret at 1.
      rewrite print_bind. unfold bind at 1. unfold run_tests.
      match goal with
      | |- context [SetupDev.run_command shell signal_name ?c ?d ?w0] =>
          destruct (run_command_outcome c d w0)
            as (w4 & Hc4 & [[b E4]|[e E4]])
      end; unfold run_command in E4; rewrite E4;
        cbn [commands] in Hc4; rewrite Hc3, <- app_assoc in Hc4.
      * rewrite !print_bind. unfold print. cbn [entries console commands].
        exists all_commands. split; [exact Hc4|].
        split; [exists []; now rewrite app_nil_r|].
        split; [reflexivity|].
        apply ends_with_closing_lines; reflexivity.
      * eexists. split; [exact Hc4|].
        split; [exists []; now rewrite app_nil_r|].
        cbn [map fst install_commands app]. discriminate.
    + (* the kernel could not be set up *)
      unfold bind at 1. rewrite print_bind. unfold raise.
      cbn [entries console commands].
      eexists. split; [exact Hc3|].
      split; [|split; [reflexivity|split]].
      * destruct (firstn_prefix m (map fst jupyter_commands) [pytest_command])
          as [rest E].
        exists rest. unfold all_commands. rewrite E, <- !app_assoc.
        reflexivity.
      * intros Hin. apply pytest_not_before. apply in_app_or in Hin.
        apply in_or_app. destruct Hin as [H|H]; [now left|right].
        now apply in_firstn in H.
      * eexists. right. reflexivity.
    + eexists. split; [exact Hc3|]. split.
      * destruct (firstn_prefix m (map fst jupyter_commands) [pytest_command])
          as [rest E].
        exists rest. unfold all_commands. rewrite E, <- !app_assoc.
        reflexivity.
      * cbn [map fst install_commands app]. discriminate.
  - (* an installation failed *)
    unfold bind at 1. rewrite print_bind. unfold raise.
    cbn [entries console commands].
    eexists. split; [exact Hc2|].
    split; [|split; [reflexivity|split]].
    + apply firstn_prefix.
    + intros Hin. apply pytest_not_before. apply in_or_app. left.
      now apply in_firstn in Hin.
    + eexists. left. reflexivity.
  - eexists. split; [exact Hc2|]. split.
    + apply firstn_prefix.
    + apply nonempty_firstn; [exact Hpos|]. now rewrite length_map.
Qed.

Section WorkingMachine.

Hypothesis others_succeed : forall c es log,
  c <> pytest_command -> exists err es', shell c es log = (Exited 0 err, es').

Lemma run_each_succeeds cmds : forall w,
  ~ In pytest_command (map fst cmds) ->
  exists w',
    run_each cmds w = (w', inr true) /\
    commands w' = commands w ++ map fst cmds.
Proof.
  induction cmds as [|[c d] cmds IH]; intros w Hnot.
  - exists w. cbn. now rewrite app_nil_r.
  - cbn [map fst In] in Hnot.
    destruct (others_succeed (c := c) (entries w) (commands w))
      as (err & es & E); [intros ->; apply Hnot; now left|].
    unfold run_each in *. cbn [SetupDev.run_each]. unfold bind.
    pose proof (@run_command_exited c d w 0 err es E) as Hrun.
    unfold run_command in Hrun. rewrite Hrun. cbn [Z.eqb negb].
    match goal with |- context [SetupDev.run_each _ _ cmds ?w1] =>
      destruct (IH w1) as (w' & E' & Hc) end.
    { intros H. apply Hnot. now right. }
    exists w'. split; [exact E'|]. rewrite Hc. cbn [commands map fst].
    now rewrite <- app_assoc.
Qed.

(** X21. The result of the tests is ignored: where no file is in the
    way of a directory and every other command succeeds, the set-up gets to
    its end, all five commands run, whatever status the tests exit with. *)
Theorem setup_main_ignores_test_failures w :
  (forall d, In d directories -> lookup d (entries w) <> Some RegularFile) ->
  (forall es log,
     exists rc err es', shell pytest_command es log = (Exited rc err, es')) ->
  snd (main w) = inr tt /\
  commands (fst (main w)) = commands w ++ all_commands /\
  exists before, console (fst (main w)) = before ++ closing_lines.
Proof.
  intros Hfree Htests.
  assert (Hrun : exists w', main w = (w', inr tt) /\
                   commands w' = commands w ++ all_commands /\
                   exists before, console w' = before ++ closing_lines).
  { unfold main, SetupDev.main.
    rewrite print_bind. rewrite print_bind. unfold bind at 1.
    match goal with |- context [create_directories ?w0] =>
      destruct (@make_loop directories w0) as (es1 & E1 & _)
    end; [exact Hfree|].
    unfold create_directories. unfold created_line in E1. rewrite E1.
    rewrite print_bind. unfold bind at 1. unfold install_dependencies.
    match goal with
    | |- context [SetupDev.run_each shell signal_name install_commands ?w0] =>
        destruct (@run_each_succeeds install_commands w0) as (w2 & E2 & Hc2)
    end.
    { cbn [map fst In install_commands]. intuition discriminate. }
    unfold run_each in E2. rewrite E2. cbn [negb commands] in *.
    unfold bind at 1. unfold ret at 1.
    rewrite print_bind. unfold bind at 1. unfold setup_jupyter.
    match goal with
    | |- context [SetupDev.run_each shell signal_name jupyter_commands ?w0] =>
        destruct (@run_each_succeeds jupyter_commands w0) as (w3 & E3 & Hc3)
    end.
    { cbn [map fst In jupyter_commands]. intuition discriminate. }
    unfold run_each in E3. rewrite E3. cbn [negb commands] in *.
    unfold bind at 1. unfold ret at 1.
    rewrite print_bind. unfold bind at 1. unfold run_tests.
    match goal with
    | |- context [SetupDev.run_command shell signal_name ?c ?d ?w0] =>
        destruct (Htests (entries w0) (commands w0)) as (rc & err & es & E4);
        pose proof (@run_command_exited c d w0 rc err es E4) as Hrun
    end.
    unfold run_command in Hrun. rewrite Hrun.
    rewrite !print_bind. unfold print. cbn [entries console commands].
    eexists. split; [reflexivity|]. cbn [commands console]. split.
    - rewrite Hc3, Hc2. unfold all_commands. now rewrite <- !app_assoc.
    - apply ends_with_closing_lines; reflexivity. }
  destruct Hrun as (w' & -> & Hc & Hlines). auto.
Qed.

End WorkingMachine.

End ShellFacts.

Lemma create_directories_idempotent_witness :
  exists es',
    SetupDev.create_directories partly_set_up =
      ({| SetupDev.entries := es';
          SetupDev.console := [] ++ map created_line SetupDev.directories;
          SetupDev.commands := [] |}, inr tt) /\
    (forall d, In d SetupDev.directories ->
               SetupDev.lookup d es' = Some SetupDev.Directory) /\
    (forall p k, SetupDev.lookup p (SetupDev.entries partly_set_up) = Some k ->
                 SetupDev.lookup p es' = Some k) /\
    (forall c l,
       SetupDev.entries
         (fst (SetupDev.create_directories
                 {| SetupDev.entries := es'; SetupDev.console := c;
                    SetupDev.commands := l |})) = es').
Proof.
  apply (@create_directories_idempotent partly_set_up).
  intros d Hd. cbn [SetupDev.directories In] in Hd.
  decompose [or] Hd; subst; try contradiction; vm_compute; discriminate.
Defined.

Lemma create_directories_conflict_witness :
  snd (SetupDev.create_directories notebooks_is_a_file) =
    inl (SetupDev.FileExistsError "notebooks") /\
  SetupDev.console (fst (SetupDev.create_directories notebooks_is_a_file)) =
    [] ++ map created_line ["data"; "results"] /\
  SetupDev.commands (fst (SetupDev.create_directories notebooks_is_a_file)) =
    [] /\
  (forall x, In x ["data"; "results"] ->
     SetupDev.lookup x
       (SetupDev.entries
          (fst (SetupDev.create_directories notebooks_is_a_file))) =
     Some SetupDev.Directory) /\
  (forall x, In x ["src"; "tests"; "scripts"] ->
     SetupDev.lookup x (SetupDev.entries notebooks_is_a_file) = None ->
     SetupDev.lookup x
       (SetupDev.entries
          (fst (SetupDev.create_directories notebooks_is_a_file))) = None).
Proof.
  apply (@create_directories_conflict ["data"; "results"] "notebooks"
           ["src"; "tests"; "scripts"] notebooks_is_a_file).
  - reflexivity.
  - intros x Hx. cbn [In] in Hx.
    decompose [or] Hx; subst; try contradiction; vm_compute; discriminate.
  - reflexivity.
Defined.

(** Where upgrading [pip] fails, [install_dependencies] returns [False]
    after two commands: the development tools are never installed. *)
Lemma run_each_stops_at_failure_witness :
  SetupDev.install_dependencies upgrade_fails no_signals fresh =
  ({| SetupDev.entries := [];
      SetupDev.console :=
        SetupDev.console requirements_installed ++
        command_report no_signals "pip install --upgrade pip"
          "pipのアップグレード" 1 "no network";
      SetupDev.commands :=
        [ "pip install -r requirements.txt"%string;
          "pip install --upgrade pip"%string ] |},
   inr false).
Proof.
  apply (@run_each_stops_at_failure upgrade_fails no_signals
           [("pip install -r requirements.txt"%string,
             "依存関係のインストール"%string)]
           "pip install --upgrade pip" "pipのアップグレード"
           [("pip install black flake8 pytest"%string,
             "開発ツールのインストール"%string)]
           fresh requirements_installed 1 "no network" []).
  - vm_compute. reflexivity.
  - vm_compute. reflexivity.
  - discriminate.
Defined.

Lemma setup_main_ignores_test_failures_witness :
  snd (SetupDev.main failing_tests no_signals fresh) = inr tt /\
  SetupDev.commands (fst (SetupDev.main failing_tests no_signals fresh)) =
    [] ++ all_commands /\
  exists before,
    SetupDev.console (fst (SetupDev.main failing_tests no_signals fresh)) =
    before ++ closing_lines.
Proof.
  apply (@setup_main_ignores_test_failures failing_tests no_signals).
  - intros c es log Hc. unfold failing_tests.
    destruct (String.eqb c SetupDev.pytest_command) eqn:E.
    + apply String.eqb_eq in E. contradiction.
    + eauto.
  - intros d _. vm_compute. discriminate.
  - intros es log. unfold failing_tests. rewrite String.eqb_refl. eauto.
Defined.
